(** * Excel_Joey: the table pipeline of [data_logic.py]

    A shallow embedding of the functions of [src/data_logic.py]
    ([find_table_starting_from_columns], [apply_filters],
    [process_filtered_data], [create_aggregated_data],
    [compare_tasks_grouped_by_name], [create_combined_excel_file]) and of
    the header clean-up and column selection done by [main] in
    [src/app.py], followed by the properties of the pipeline.

    Pandas values are modelled cell by cell: a data frame is a list of
    column labels and a list of labelled rows.  Where the program's
    behaviour depends on the dtype of a column (the [.str] accessor, the
    date conversion), the frame carries the dtypes of its columns.  What
    the program takes from outside (the date conversion of a column, the
    clock, the way a header row is promoted to labels, the iteration
    order of a Python set, binary rounding of floats) enters as a
    parameter. *)

From Stdlib Require Import ZArith QArith Qround List String Ascii Bool Lia Lqa.
From Stdlib Require Import Permutation Sorted DecimalString.
From stdpp Require Import gmap strings list.
Import ListNotations.

Open Scope string_scope.
Open Scope nat_scope.

(* ================================================================== *)
(** * Python strings *)
(* ================================================================== *)

Module Str.

(** The line feed, ["\n"]. *)
Definition LF : ascii := Ascii.ascii_of_nat 10.

(** [pat in s] for two strings: [pat] occurs somewhere in [s]. *)
Fixpoint contains (pat s : string) : bool :=
  String.prefix pat s ||
  match s with
  | EmptyString => false
  | String _ s' => contains pat s'
  end.

(** [s.replace("\n", " ")]: every line feed becomes one space. *)
Fixpoint replace_newline (s : string) : string :=
  match s with
  | EmptyString => EmptyString
  | String c s' =>
      String (if Ascii.eqb c LF then " "%char else c) (replace_newline s')
  end.

(** [sep.join(parts)]. *)
Fixpoint join (sep : string) (parts : list string) : string :=
  match parts with
  | [] => ""
  | [p] => p
  | p :: rest => p +:+ sep +:+ join sep rest
  end.

(** [\d] on 8-bit code points: the ten ASCII digits. *)
Definition is_digit (c : ascii) : bool :=
  let n := Ascii.nat_of_ascii c in (48 <=? n)%nat && (n <=? 57)%nat.

(** [$] without the MULTILINE flag: the end of the string, or the
    position just before a line feed that ends the string. *)
Definition at_dollar (rest : string) : bool :=
  match rest with
  | EmptyString => true
  | String c EmptyString => Ascii.eqb c LF
  | _ => false
  end.

(** [re.match(r"\d+w$", s)], the pattern anchored at the start of [s];
    [seen] records that at least one digit has been consumed.  The
    greedy [\d+] never needs to give a digit back: the character after
    a digit that was given back would be that digit, not ["w"]. *)
Fixpoint match_digits_w (seen : bool) (s : string) : bool :=
  match s with
  | EmptyString => false
  | String c s' =>
      if is_digit c then match_digits_w true s'
      else seen && Ascii.eqb c "w"%char && at_dollar s'
  end.

(** [re.search(r"\d+w$", s)]: the pattern is tried at every position. *)
Fixpoint search_digits_w (s : string) : bool :=
  match_digits_w false s ||
  match s with
  | EmptyString => false
  | String _ s' => search_digits_w s'
  end.

(** [str(z)] for an integer. *)
Definition of_Z (z : Z) : string := NilZero.string_of_int (Z.to_int z).

End Str.

(* ================================================================== *)
(** * Pandas values and frames *)
(* ================================================================== *)

(** A missing-column failure ([KeyError]) or a value. *)
Inductive result (A : Type) : Type :=
| Ok (a : A)
| KeyError (key : string).
Arguments Ok {A} a.
Arguments KeyError {A} key.

#[global] Instance result_ret : MRet result := @Ok.
#[global] Instance result_bind : MBind result :=
  fun A B f m => match m with Ok a => f a | KeyError k => KeyError k end.

(** The exceptions [apply_filters] can end in: a [KeyError] for a column
    label, or the [AttributeError] of the [.str] accessor. *)
Inductive raised : Type :=
| key_error (key : string)
| attribute_error.

(** How a call ends: with a value, or with an exception. *)
Inductive attempt (A : Type) : Type :=
| Returns (a : A)
| Raises (e : raised).
Arguments Returns {A} a.
Arguments Raises {A} e.

#[global] Instance attempt_ret : MRet attempt := @Returns.
#[global] Instance attempt_bind : MBind attempt :=
  fun A B f m => match m with Returns a => f a | Raises e => Raises e end.

(** A subscript, which can only raise [KeyError], inside such a call. *)
Definition or_raise {A : Type} (r : result A) : attempt A :=
  match r with Ok a => Returns a | KeyError key => Raises (key_error key) end.

Module Pandas.

(** One cell: empty ([NaN]/[NaT]/[None]), text, a whole number, or a
    timestamp in nanoseconds since the epoch. *)
Inductive cell : Type :=
| NaN
| Text (s : string)
| Num (z : Z)
| Timestamp (ns : Z).

#[global] Instance cell_eq_dec : EqDecision cell.
Proof. solve_decision. Defined.

(** [pd.isna]. *)
Definition isna (c : cell) : bool :=
  match c with NaN => true | _ => false end.

(** Elementwise [==]: a missing value equals nothing, itself included. *)
Definition eq_elem (a b : cell) : bool :=
  negb (isna a) && negb (isna b) && bool_decide (a = b).

Record Row : Type := { label : nat; values : list cell }.
Record DataFrame : Type := { columns : list string; rows : list Row }.

#[global] Instance Row_eq_dec : EqDecision Row.
Proof. solve_decision. Defined.
#[global] Instance DataFrame_eq_dec : EqDecision DataFrame.
Proof. solve_decision. Defined.

(** The cell of a row at a column position. *)
Definition iat (r : Row) (i : nat) : cell := nth i (values r) NaN.

(** [Index.get_loc]: the position of a label among the column labels,
    the first one it has.  Labels are distinct in the frames the reader
    returns; under a repeated label pandas answers with every position,
    and the properties of subscripts are stated for distinct labels. *)
Fixpoint get_loc (cols : list string) (name : string) : option nat :=
  match cols with
  | [] => None
  | c :: cols' =>
      if String.eqb c name then Some 0
      else option_map S (get_loc cols' name)
  end.

(** [df[name]]: the cells of one column, row by row. *)
Definition getitem (df : DataFrame) (name : string) : result (list cell) :=
  match get_loc (columns df) name with
  | Some i => Ok (map (fun r => iat r i) (rows df))
  | None => KeyError name
  end.

(** [df[name] = series] for a label the frame has: the column is
    overwritten in place; for a new label a column is appended. *)
Definition set_cell (i : nat) (r : Row) (v : cell) : Row :=
  {| label := label r; values := <[i := v]> (values r) |}.
Definition add_cell (r : Row) (v : cell) : Row :=
  {| label := label r; values := values r ++ [v] |}.

Fixpoint map2 {A B C : Type} (f : A -> B -> C)
    (xs : list A) (ys : list B) : list C :=
  match xs, ys with
  | x :: xs', y :: ys' => f x y :: map2 f xs' ys'
  | _, _ => []
  end.

Definition setitem (df : DataFrame) (name : string) (series : list cell)
  : DataFrame :=
  match get_loc (columns df) name with
  | Some i =>
      {| columns := columns df; rows := map2 (set_cell i) (rows df) series |}
  | None =>
      {| columns := columns df ++ [name];
         rows := map2 add_cell (rows df) series |}
  end.

(** [df[mask]]: the rows whose mask entry is [True], labels kept. *)
Fixpoint select {A : Type} (xs : list A) (mask : list bool) : list A :=
  match xs, mask with
  | x :: xs', b :: mask' =>
      if b then x :: select xs' mask' else select xs' mask'
  | _, _ => []
  end.

Definition loc_mask (df : DataFrame) (mask : list bool) : DataFrame :=
  {| columns := columns df; rows := select (rows df) mask |}.

(** The dtype of a column as far as the program can tell dtypes apart:
    Python objects, numbers ([int64], [float64]), or [datetime64[ns]]. *)
Inductive dtype : Type := object | number | datetime64.

#[global] Instance dtype_eq_dec : EqDecision dtype.
Proof. solve_decision. Defined.

(** A frame together with the dtypes of its columns, in the order of
    the labels. *)
Record TypedFrame : Type := { content : DataFrame; dtypes : list dtype }.

#[global] Instance TypedFrame_eq_dec : EqDecision TypedFrame.
Proof. solve_decision. Defined.

Definition dtype_of (df : TypedFrame) (name : string) : dtype :=
  match get_loc (columns (content df)) name with
  | Some i => nth i (dtypes df) object
  | None => object
  end.

(** [df[name] = series] where [series] has dtype [dt]. *)
Definition setitem_typed (df : TypedFrame) (name : string)
    (series : list cell) (dt : dtype) : TypedFrame :=
  {| content := setitem (content df) name series;
     dtypes := match get_loc (columns (content df)) name with
               | Some i => <[i := dt]> (dtypes df)
               | None => dtypes df ++ [dt]
               end |}.

(** [df[mask]] keeps the dtypes of the columns. *)
Definition loc_mask_typed (df : TypedFrame) (mask : list bool) : TypedFrame :=
  {| content := loc_mask (content df) mask; dtypes := dtypes df |}.

Definition is_text (c : cell) : bool :=
  match c with Text _ => true | _ => false end.
Definition is_num (c : cell) : bool :=
  match c with Num _ => true | _ => false end.
Definition is_timestamp (c : cell) : bool :=
  match c with Timestamp _ => true | _ => false end.

(** What [lib.infer_dtype(values, skipna=True)] answers on the values of
    an object column. *)
Inductive inferred : Type :=
| inferred_empty
| inferred_string
| inferred_integer
| inferred_datetime
| inferred_mixed_integer
| inferred_mixed.

(** [lib.infer_dtype(values, skipna=True)]: missing values are skipped;
    the first value left decides which uniform kind is tried; values of
    more than one kind are ["mixed-integer"] when a whole number is
    among them and ["mixed"] otherwise. *)
Definition infer_dtype (series : list cell) : inferred :=
  let vals := List.filter (fun c => negb (isna c)) series in
  match vals with
  | [] => inferred_empty
  | Num _ :: _ =>
      if forallb is_num vals then inferred_integer else inferred_mixed_integer
  | Timestamp _ :: _ =>
      if forallb is_timestamp vals then inferred_datetime
      else if existsb is_num vals then inferred_mixed_integer
      else inferred_mixed
  | _ :: _ =>
      if forallb is_text vals then inferred_string
      else if existsb is_num vals then inferred_mixed_integer
      else inferred_mixed
  end.

(** [series.str]: [StringMethods._validate] accepts an object column
    whose values infer as string, empty, mixed or mixed-integer; on
    every other column the accessor raises [AttributeError]. *)
Definition str_accessor (dt : dtype) (series : list cell) : bool :=
  match dt with
  | object =>
      match infer_dtype series with
      | inferred_integer | inferred_datetime => false
      | _ => true
      end
  | _ => false
  end.

(** One element under [.str.contains(pat, na=False)] for a pattern
    without metacharacters: a text is searched, every other value gives
    the [na] value. *)
Definition contains_at (pat : string) (c : cell) : bool :=
  match c with Text s => Str.contains pat s | _ => false end.

(** One element under [.str.contains(r"\d+w$", na=False)]. *)
Definition digits_w_at (c : cell) : bool :=
  match c with Text s => Str.search_digits_w s | _ => false end.

(** [series.str.contains(pat, na=False)] on a column of dtype [dt]. *)
Definition str_contains (pat : string) (dt : dtype) (series : list cell)
  : attempt (list bool) :=
  if str_accessor dt series then Returns (map (contains_at pat) series)
  else Raises attribute_error.

(** [series.str.contains(r"\d+w$", na=False)]. *)
Definition str_contains_digits_w (dt : dtype) (series : list cell)
  : attempt (list bool) :=
  if str_accessor dt series then Returns (map digits_w_at series)
  else Raises attribute_error.

(** [series.isin(values)] for a list of strings. *)
Definition isin (vals : list string) (c : cell) : bool :=
  match c with Text s => existsb (String.eqb s) vals | _ => false end.

(** [series <= today] on a datetime column; [NaT] compares false. *)
Definition le_timestamp (today : Z) (c : cell) : bool :=
  match c with Timestamp ns => (ns <=? today)%Z | _ => false end.

(** [series.dropna()]. *)
Definition dropna (series : list cell) : list cell :=
  List.filter (fun c => negb (isna c)) series.

(** [pd.unique]: the distinct values in order of first appearance; all
    missing values count as one value. *)
Fixpoint unique (xs : list cell) : list cell :=
  match xs with
  | [] => []
  | x :: xs' =>
      x :: List.filter (fun y => negb (bool_decide (y = x))) (unique xs')
  end.

(** Row labels [0 .. n-1] ([RangeIndex]) put on a list of value rows. *)
Fixpoint range_index (start : nat) (body : list (list cell)) : list Row :=
  match body with
  | [] => []
  | vs :: body' =>
      {| label := start; values := vs |} :: range_index (S start) body'
  end.

End Pandas.
Import Pandas.

(* ================================================================== *)
(** * data_logic.py *)
(* ================================================================== *)

Section DataLogic.

(** ** find_table_starting_from_columns *)

(** How [pd.read_excel(..., header=i)] turns the cells of the header row
    into column labels (it names empty cells and renames repeated
    texts); the scheme belongs to the spreadsheet reader. *)
Variable header_labels : list cell -> list string.

(** [sheet_data.iloc[row_index, :].values]. *)
Definition iloc_row (sheet_data : list (list cell)) (row_index : nat)
  : list cell := nth row_index sheet_data [].

(** [col in values]: some cell equals the string [col]. *)
Definition in_values (col : string) (vals : list cell) : bool :=
  existsb (fun c => bool_decide (c = Text col)) vals.

(** [pd.read_excel(excel_bytes, sheet_name, header=row_index)] on the
    sheet whose cells are [sheet_data]: the labels come from that row,
    the body is every row below it. *)
Definition read_excel_header (sheet_data : list (list cell))
    (row_index : nat) : DataFrame :=
  {| columns := header_labels (iloc_row sheet_data row_index);
     rows := range_index 0 (skipn (S row_index) sheet_data) |}.

(** The [for row_index in range(...)] loop, on the indices still to
    visit. *)
Fixpoint scan_rows (sheet_data : list (list cell))
    (required_columns : list string) (row_indices : list nat)
  : option DataFrame :=
  match row_indices with
  | [] => None
  | row_index :: later =>
      if forallb (fun col => in_values col (iloc_row sheet_data row_index))
           required_columns
      then Some (read_excel_header sheet_data row_index)
      else scan_rows sheet_data required_columns later
  end.

(** [sheet_data] is what [pd.read_excel(..., header=None)] returns for
    the chosen sheet. *)
Definition find_table_starting_from_columns
    (sheet_data : list (list cell)) (required_columns : list string)
  : option DataFrame :=
  scan_rows sheet_data required_columns (seq 0 (length sheet_data)).

(** ** apply_filters *)

(** [pd.to_datetime(series, errors="coerce")] on a column, given with
    its dtype: the conversion looks at the column as a whole (it settles
    on one format for the texts of a column), so it is taken as it is. *)
Variable to_datetime : dtype -> list cell -> list cell.

(** [today] is the value of [pd.Timestamp("today")] read by the call.
    The result pairs the caller's frame as the call leaves it - the
    first statement assigns to it, whatever happens afterwards - with the
    frame returned or the exception raised.  The operands of [&] are
    evaluated from left to right. *)
Definition apply_filters (today : Z) (df : TypedFrame)
    (apply_w_filter : bool) : TypedFrame * attempt TypedFrame :=
  match getitem (content df) "Leverdatum" with
  | KeyError key => (df, Raises (key_error key))
  | Ok leverdatum =>
      let df :=
        setitem_typed df "Leverdatum"
          (to_datetime (dtype_of df "Leverdatum") leverdatum) datetime64 in
      (df,
       werkplek ← or_raise (getitem (content df) "Verantw. Werkplek");
       vks ← str_contains "VKS" (dtype_of df "Verantw. Werkplek") werkplek;
       status ← or_raise (getitem (content df) "Status");
       leverdatum ← or_raise (getitem (content df) "Leverdatum");
       let filtered_df :=
         loc_mask_typed df
           (map2 andb
              (map2 andb vks (map (isin ["VRIJ"; "OPEN"]) status))
              (map (le_timestamp today) leverdatum)) in
       if apply_w_filter then
         omschrijving ←
           or_raise (getitem (content filtered_df) "Omschrijving middel");
         hits ← str_contains_digits_w
                  (dtype_of filtered_df "Omschrijving middel") omschrijving;
         Returns (loc_mask_typed filtered_df (map negb hits))
       else Returns filtered_df)
  end.

(** ** groupby("Naam") *)

(** The order in which [groupby] sorts its keys: whole numbers first,
    then text by code points. *)
Definition cell_rank (c : cell) : nat :=
  match c with Num _ => 0 | Timestamp _ => 1 | Text _ => 2 | NaN => 3 end.

Definition cell_leb (a b : cell) : bool :=
  match a, b with
  | Num x, Num y => (x <=? y)%Z
  | Timestamp x, Timestamp y => (x <=? y)%Z
  | Text x, Text y => String.leb x y
  | _, _ => cell_rank a <=? cell_rank b
  end.

Fixpoint insert_key (k : cell) (keys : list cell) : list cell :=
  match keys with
  | [] => [k]
  | k' :: keys' =>
      if cell_leb k k' then k :: keys else k' :: insert_key k keys'
  end.

Fixpoint sort_keys (keys : list cell) : list cell :=
  match keys with
  | [] => []
  | k :: keys' => insert_key k (sort_keys keys')
  end.

(** [df.groupby(by)] with its defaults [sort=True, dropna=True]: one
    group per distinct non-missing key, keys ascending, each group
    holding the rows of that key in their original order. *)
Definition groupby (df : DataFrame) (by_ : string)
  : result (list (cell * DataFrame)) :=
  keys ← getitem df by_;
  Ok (map (fun k => (k, loc_mask df (map (eq_elem k) keys)))
          (sort_keys (dropna (unique keys)))).

(** ** process_filtered_data *)

(** [df[selected_cols].copy()]. *)
Fixpoint get_locs (cols selected_cols : list string) : result (list nat) :=
  match selected_cols with
  | [] => Ok []
  | c :: rest =>
      match get_loc cols c with
      | Some i => locs ← get_locs cols rest; Ok (i :: locs)
      | None => KeyError c
      end
  end.

Definition getitem_list (df : DataFrame) (selected_cols : list string)
  : result DataFrame :=
  locs ← get_locs (columns df) selected_cols;
  Ok {| columns := selected_cols;
        rows := map (fun r => {| label := label r;
                                 values := map (iat r) locs |}) (rows df) |}.

(** [pd.concat([a, b], ignore_index=True)] for frames with the same
    labels: rows of [a] then rows of [b], relabelled from 0. *)
Definition concat_ignore_index (a b : DataFrame) : DataFrame :=
  {| columns := columns a;
     rows := range_index 0 (map values (rows a ++ rows b)) |}.

(** The body of the [for name, group in ...] loop; the dictionary
    [grouped_dfs] is kept as the list of its items in insertion order. *)
Definition add_group (acc : DataFrame * list (cell * DataFrame))
    (item : cell * DataFrame) : DataFrame * list (cell * DataFrame) :=
  (concat_ignore_index (fst acc) (snd item), (snd acc ++ [item])%list).

Definition process_filtered_data (df : DataFrame)
    (selected_cols : list string) (per_naam : bool)
  : result (DataFrame * option (list (cell * DataFrame))) :=
  df_filtered ← getitem_list df selected_cols;
  if per_naam then
    groups ← groupby df_filtered "Naam";
    let '(combined_df, grouped_dfs) :=
      fold_left add_group groups
        ({| columns := selected_cols; rows := [] |}, []) in
    Ok (combined_df, Some grouped_dfs)
  else Ok (df_filtered, None).

(** ** create_aggregated_data *)

(** [groupby("Naam").size().reset_index(name="Aantal Taken")]. *)
Definition create_aggregated_data (filtered_df : DataFrame)
  : result DataFrame :=
  groups ← groupby filtered_df "Naam";
  Ok {| columns := ["Naam"; "Aantal Taken"];
        rows := range_index 0
                  (map (fun g => [fst g; Num (Z.of_nat (length (rows (snd g))))])
                       groups) |}.

End DataLogic.

Section Comparison.

(** ** compare_tasks_grouped_by_name *)

(** [str(timestamp)], used by [astype(str)] on a datetime cell. *)
Variable timestamp_str : Z -> string.

(** The order in which Python iterates over a set of strings. *)
Variable set_iter : gset string -> list string.

(** Rounding of an exact quotient or product to the nearest binary
    float, the last step of every float operation. *)
Variable rnd : Q -> Q.

(** [series.astype(str)], cell by cell: a text is itself and a whole
    number its decimal digits, as on a column of dtype object or int64.
    On a float column pandas writes a whole number with a decimal point;
    the properties that read the strings themselves are stated for
    identifiers kept as text. *)
Definition astype_str (c : cell) : string :=
  match c with
  | NaN => "nan"
  | Text s => s
  | Num z => Str.of_Z z
  | Timestamp ns => timestamp_str ns
  end.

(** Float division and multiplication. *)
Definition fdiv (x y : Q) : Q := rnd (x / y).
Definition fmul (x y : Q) : Q := rnd (x * y).

(** The nearest integer, ties to the even one. *)
Definition round_half_even (q : Q) : Z :=
  let f := Qfloor q in
  match (q - inject_Z f ?= 1 # 2)%Q with
  | Lt => f
  | Gt => (f + 1)%Z
  | Eq => if Z.even f then f else (f + 1)%Z
  end.

(** [round(x, 1)] on a float: the one-decimal number nearest to the
    exact value of [x] (ties to even), read back as a float. *)
Definition round1 (x : Q) : Q :=
  rnd (inject_Z (round_half_even (x * 10)) / 10).

(** [round((edited_tasks / previous_total * 100)
          if previous_total > 0 else 0, 1)]; in the [else] branch
    [round] receives the integer [0] and returns it. *)
Definition percentage_of (edited_tasks previous_total : nat) : Q :=
  if 0 <? previous_total then
    round1 (fmul (fdiv (inject_Z (Z.of_nat edited_tasks))
                       (inject_Z (Z.of_nat previous_total))) 100)
  else 0.

(** One dictionary of [comparison_data]; [oude_taken_key] is the key
    [f"{ob_col} (oude taken)"] of its last entry. *)
Record ComparisonRow : Type := {
  Naam : cell;
  new_tasks : nat;
  old_tasks : nat;
  previous_total : nat;
  edited_tasks : nat;
  percentage : Q;
  oude_taken_key : string;
  oude_taken : string
}.

(** [next((col for col in columns if "Obligo extern formaa" in col),
    None)], then the fallback taken when the result is falsy. *)
Definition pick_ob_col (cols : list string) : string :=
  match List.find (Str.contains "Obligo extern formaa") cols with
  | Some col => if String.eqb col "" then "OH-order" else col
  | None => "OH-order"
  end.

(** [set(tasks[ob_col].dropna().astype(str))]. *)
Definition id_set (tasks : DataFrame) (ob_col : string)
  : result (gset string) :=
  ids ← getitem tasks ob_col;
  Ok (list_to_set (map astype_str (dropna ids))).

(** [df[df["Naam"] == name]]. *)
Definition tasks_of (df : DataFrame) (name : cell) : result DataFrame :=
  naam ← getitem df "Naam";
  Ok (loc_mask df (map (fun c => eq_elem c name) naam)).

(** The body of [for name in all_names]. *)
Definition compare_name (current_df previous_df : DataFrame)
    (ob_col : string) (name : cell) : result ComparisonRow :=
  current_tasks ← tasks_of current_df name;
  prev_tasks ← tasks_of previous_df name;
  current_set ← id_set current_tasks ob_col;
  prev_set ← id_set prev_tasks ob_col;
  let new_tasks := size (current_set ∖ prev_set) in
  let old_tasks := size (current_set ∩ prev_set) in
  let previous_total := size prev_set in
  let edited_tasks := size (prev_set ∖ current_set) in
  let percentage := percentage_of edited_tasks previous_total in
  Ok {| Naam := name;
        new_tasks := new_tasks;
        old_tasks := old_tasks;
        previous_total := previous_total;
        edited_tasks := edited_tasks;
        percentage := percentage;
        oude_taken_key := ob_col +:+ " (oude taken)";
        oude_taken :=
          if bool_decide (current_set ∩ prev_set = ∅) then ""
          else Str.join ", " (set_iter (current_set ∩ prev_set)) |}.

(** The loop: rows are appended until a lookup fails. *)
Fixpoint for_names (current_df previous_df : DataFrame) (ob_col : string)
    (all_names : list cell) : result (list ComparisonRow) :=
  match all_names with
  | [] => Ok []
  | name :: later =>
      row ← compare_name current_df previous_df ob_col name;
      comparison_data ← for_names current_df previous_df ob_col later;
      Ok (row :: comparison_data)
  end.

Definition compare_tasks_grouped_by_name (current_df previous_df : DataFrame)
  : result (list ComparisonRow) :=
  let ob_col := pick_ob_col (columns current_df) in
  cur_naam ← getitem current_df "Naam";
  prev_naam ← getitem previous_df "Naam";
  let all_names := unique (cur_naam ++ prev_naam) in
  for_names current_df previous_df ob_col all_names.

End Comparison.

(* ================================================================== *)
(** * app.py *)
(* ================================================================== *)

(** [df.columns = [col.replace("\n", " ") for col in df.columns]], the
    clean-up [main] runs on every located table. *)
Definition normalize_columns (df : DataFrame) : DataFrame :=
  {| columns := map Str.replace_newline (columns df); rows := rows df |}.

(** The columns [main] asks [find_table_starting_from_columns] for. *)
Definition required_columns : list string :=
  ["OH-planningsgroep"; "Naam"; "Status"; "Omschrijving middel";
   "Verantw. Werkplek"; "Leverdatum"; "OH-order"].

(** [desired_substrings] of [main]. *)
Definition desired_substrings : list string :=
  ["Naam"; "OH-order"; "Status"; "Ord.srt"; "Verpl. Srt";
   "Obligo extern formaa"; "Omschrijving middel"; "Leverdatum";
   "Leverancier"; "Met SES"; "SES ontvangen"].

(** [any(sub in col for sub in desired_substrings)
     or (col.startswith("Obligo") and "EUR" in col)]. *)
Definition default_checked (col : string) : bool :=
  existsb (fun sub => Str.contains sub col) desired_substrings
  || (String.prefix "Obligo" col && Str.contains "EUR" col).

(** The checkbox loop of [main]: [checkbox col value] is what
    [st.checkbox(col, value=value)] returns for the user at hand. *)
Definition select_columns (checkbox : string -> bool -> bool)
    (df : DataFrame) : list string :=
  List.filter (fun col => checkbox col (default_checked col)) (columns df).

(** A user who leaves every box as it is offered. *)
Definition untouched : string -> bool -> bool := fun _ value => value.

(** The labels of [pd.concat(prev_dfs, ignore_index=True)]: the labels
    of the first frame, then those of each further frame that were not
    there yet. *)
Definition concat_columns (prev_dfs : list DataFrame) : list string :=
  fold_left
    (fun acc df =>
       (acc ++ List.filter (fun c => negb (existsb (String.eqb c) acc))
                 (columns df))%list)
    prev_dfs [].

(** The labels of [pd.DataFrame(comparison_data)]: the keys of the
    dictionaries; every dictionary of one call has the same keys. *)
Definition comparison_columns (comparison_data : list ComparisonRow)
  : list string :=
  match comparison_data with
  | [] => []
  | row :: _ =>
      ["Naam"; "Aantal nieuwe taken"; "Aantal oude taken";
       "Aantal taken vorige week"; "Aantal bewerkte taken";
       "Percentage bewerkt"; oude_taken_key row]
  end.

(* ================================================================== *)
(** * data_logic.py: the workbook *)
(* ================================================================== *)

(** What one call of [write_sheet] is handed: a frame, or the frame
    [pd.DataFrame(comparison_data)] kept as its list of rows. *)
Inductive SheetData : Type :=
| FrameData (df : DataFrame)
| ComparisonData (comparison_data : list ComparisonRow).

(** [name if len(name) <= 31 else name[:31]]. *)
Definition valid_name (name : string) : string :=
  if String.length name <=? 31 then name else substring 0 31 name.

(** [date_cols] of [write_sheet]: the positions, counted from [i], of
    the labels in which ["Leverdatum"] occurs. *)
Fixpoint date_cols_from (i : nat) (cols : list string) : list nat :=
  match cols with
  | [] => []
  | col :: cols' =>
      if Str.contains "Leverdatum" col
      then i :: date_cols_from (S i) cols'
      else date_cols_from (S i) cols'
  end.

Definition date_cols (df : DataFrame) : list nat :=
  date_cols_from 0 (columns df).

(** The inner loop over [enumerate(df.iloc[:, col_idx], start=1)]: one
    [write_datetime(row_num, col_idx, value)] per timestamp of the
    column. *)
Fixpoint column_datetimes (row_num col_idx : nat) (rs : list Row)
  : list (nat * nat * Z) :=
  match rs with
  | [] => []
  | r :: rs' =>
      match iat r col_idx with
      | Timestamp ns =>
          (row_num, col_idx, ns) :: column_datetimes (S row_num) col_idx rs'
      | _ => column_datetimes (S row_num) col_idx rs'
      end
  end.

(** All [write_datetime] calls of one [write_sheet]. *)
Definition write_datetimes (df : DataFrame) : list (nat * nat * Z) :=
  flat_map (fun col_idx => column_datetimes 1 col_idx (rows df))
           (date_cols df).

(** The loop over [dict_per_name.items()]: one [write_sheet] call per
    item, under the shortened name; [len(name)] is a [TypeError] for a
    key that is no text, which ends the call without a workbook
    ([None]).  The list holds the calls and their arguments; what the
    writer makes of a name or of a table is not part of it. *)
Fixpoint per_name_sheets (items : list (cell * DataFrame))
  : option (list (string * SheetData)) :=
  match items with
  | [] => Some []
  | (Text name, df_group) :: later =>
      sheets ← per_name_sheets later;
      Some ((valid_name name, FrameData df_group) :: sheets)
  | _ :: _ => None
  end.

(** The workbook as the sequence of [write_sheet] calls, each with its
    sheet name and its table; the cell formats, and what the writer
    makes of each call, are left out. *)
Definition create_combined_excel_file
    (everything_df : option DataFrame)
    (dict_per_name : option (list (cell * DataFrame)))
    (aggregated_df : option DataFrame)
    (comparison_df : option (list ComparisonRow))
    (download_everything download_per_name download_aggregated
       download_comparison : bool)
  : option (list (string * SheetData)) :=
  let everything :=
    match everything_df with
    | Some df =>
        if download_everything then [("AllesBijElkaar", FrameData df)] else []
    | None => []
    end in
  per_name ←
    match dict_per_name with
    | Some items => if download_per_name then per_name_sheets items else Some []
    | None => Some []
    end;
  let aggregated :=
    match aggregated_df with
    | Some df =>
        if download_aggregated
        then [("GegroepeerdOverzicht", FrameData df)] else []
    | None => []
    end in
  let comparison :=
    match comparison_df with
    | Some comparison_data =>
        if download_comparison
        then [("Vergelijking", ComparisonData comparison_data)] else []
    | None => []
    end in
  Some (everything ++ per_name ++ aggregated ++ comparison)%list.

(* ================================================================== *)
(** * Vocabulary of the properties *)
(* ================================================================== *)

(** The cell a row holds under a column label (empty when the frame has
    no such column). *)
Definition cell_of (df : DataFrame) (r : Row) (name : string) : cell :=
  match get_loc (columns df) name with
  | Some i => iat r i
  | None => NaN
  end.

Definition labels (df : DataFrame) : list nat := map label (rows df).

(** [pat] occurs in [s]. *)
Definition Occurs (pat s : string) : Prop :=
  exists a b, s = a +:+ pat +:+ b.

Fixpoint all_digits (s : string) : bool :=
  match s with
  | EmptyString => true
  | String c s' => Str.is_digit c && all_digits s'
  end.

(** [s] ends with one or more digits followed by ["w"]. *)
Definition EndsDigitsW (s : string) : Prop :=
  exists pre ds, ds <> "" /\ all_digits ds = true /\ s = pre +:+ ds +:+ "w".

(** The same, with one final line feed allowed after the ["w"]. *)
Definition EndsDigitsWLine (s : string) : Prop :=
  EndsDigitsW s \/ exists s', s = s' +:+ String Str.LF "" /\ EndsDigitsW s'.

(** A row of grid cells holds every required column name. *)
Definition HoldsAll (required : list string) (vals : list cell) : Prop :=
  forall col, In col required -> In (Text col) vals.

(** The filter as the specification words it, for one row of the
    table whose delivery dates are parsed: the workplace is text holding
    ["VKS"], the status is exactly ["VRIJ"] or ["OPEN"], the delivery date
    is a moment with the property [OnTime], and, when the flag is set,
    the description is not a text with the property [Excluded]. *)
Definition SurvivesWith (Excluded : string -> Prop) (OnTime : Z -> Prop)
    (flag : bool) (df : DataFrame) (r : Row) : Prop :=
  (exists s, cell_of df r "Verantw. Werkplek" = Text s /\ Occurs "VKS" s)
  /\ (cell_of df r "Status" = Text "VRIJ"
      \/ cell_of df r "Status" = Text "OPEN")
  /\ (exists ns, cell_of df r "Leverdatum" = Timestamp ns /\ OnTime ns)
  /\ (flag = true ->
      ~ exists s, cell_of df r "Omschrijving middel" = Text s /\ Excluded s).

(** The calendar day of a moment: whole days since the epoch. *)
Definition day_of (ns : Z) : Z := (ns / 86400000000000)%Z.

(** The three fixed tests as one boolean, read off the masks of
    [apply_filters]. *)
Definition passes (today : Z) (df : DataFrame) (r : Row) : bool :=
  contains_at "VKS" (cell_of df r "Verantw. Werkplek")
  && isin ["VRIJ"; "OPEN"] (cell_of df r "Status")
  && le_timestamp today (cell_of df r "Leverdatum").

(** The test of the flag: the description matches the pattern. *)
Definition matches_w (df : DataFrame) (r : Row) : bool :=
  digits_w_at (cell_of df r "Omschrijving middel").

(** The tests a returned row has passed: the three fixed ones and, with
    the flag set, that the description does not match. *)
Definition keep (today : Z) (flag : bool) (df : DataFrame) (r : Row) : bool :=
  passes today df r && (if flag then negb (matches_w df r) else true).

(** The caller's frame once the first statement of [apply_filters] has
    run: the delivery-date column holds the converted column. *)
Definition dated (to_datetime : dtype -> list cell -> list cell)
    (df : TypedFrame) : TypedFrame :=
  match getitem (content df) "Leverdatum" with
  | Ok leverdatum =>
      setitem_typed df "Leverdatum"
        (to_datetime (dtype_of df "Leverdatum") leverdatum) datetime64
  | KeyError _ => df
  end.

(** A typed frame with other rows. *)
Definition with_rows (df : TypedFrame) (rs : list Row) : TypedFrame :=
  {| content := {| columns := columns (content df); rows := rs |};
     dtypes := dtypes df |}.

(** The rows of a frame that pass the three fixed tests. *)
Definition passing (today : Z) (df : DataFrame) : list Row :=
  List.filter (passes today df) (rows df).

(** The [.str] accessor is there for a column of a typed frame, tried
    on the rows [rs]. *)
Definition searchable (df : TypedFrame) (name : string) (rs : list Row)
  : bool :=
  str_accessor (dtype_of df name)
    (map (fun r => cell_of (content df) r name) rs).

(** A frame as pandas has them: one dtype per column, distinct labels,
    and in every row one cell per column. *)
Definition WellFormed (df : TypedFrame) : Prop :=
  length (dtypes df) = length (columns (content df))
  /\ List.NoDup (columns (content df))
  /\ forall r, In r (rows (content df)) ->
       length (values r) = length (columns (content df)).

(** What the properties ask of the date conversion: it returns one cell
    per cell, and a [datetime64] column made of cells it returned - all
    of them, or a selection in their order - is returned as it is. *)
Definition ToDatetime (to_datetime : dtype -> list cell -> list cell)
  : Prop :=
  (forall dt series, length (to_datetime dt series) = length series)
  /\ (forall dt series selected,
        sublist selected (to_datetime dt series) ->
        to_datetime datetime64 selected = selected).

(** A line feed or a space. *)
Definition blank (c : ascii) : bool :=
  Ascii.eqb c Str.LF || Ascii.eqb c " "%char.

(** Two labels that differ at most in having a line feed where the
    other has a space. *)
Fixpoint alike (a b : string) : bool :=
  match a, b with
  | EmptyString, EmptyString => true
  | String x a', String y b' =>
      (Ascii.eqb x y || (blank x && blank y)) && alike a' b'
  | _, _ => false
  end.

(** No two labels, at different positions, are alike. *)
Definition NoneAlike (cols : list string) : Prop :=
  forall i j a b,
    i <> j -> cols !! i = Some a -> cols !! j = Some b -> alike a b = false.

(** The columns [apply_filters] reads. *)
Definition FilterColumns (flag : bool) (df : DataFrame) : Prop :=
  In "Leverdatum" (columns df) /\ In "Verantw. Werkplek" (columns df)
  /\ In "Status" (columns df)
  /\ (flag = true -> In "Omschrijving middel" (columns df)).

(** The number of rows of a frame whose assignee is [k]. *)
Definition count_rows (df : DataFrame) (k : cell) : nat :=
  length (List.filter (fun r => bool_decide (cell_of df r "Naam" = k))
            (rows df)).

Definition sum_nat (ns : list nat) : nat := fold_right Nat.add 0 ns.

(** [cell_leb] as a relation. *)
Definition cell_le (a b : cell) : Prop := cell_leb a b = true.

(** The assignee column of a frame. *)
Definition names_of (df : DataFrame) : list cell :=
  map (fun r => cell_of df r "Naam") (rows df).

(** The identifiers of an assignee in a table, as the specification
    words it: the distinct values, as strings, that the rows with that
    assignee hold in the identifier column, empty cells aside. *)
Definition ids_of (timestamp_str : Z -> string) (df : DataFrame)
    (ob_col : string) (name : cell) : gset string :=
  list_to_set
    (map (fun r => astype_str timestamp_str (cell_of df r ob_col))
       (List.filter
          (fun r => bool_decide (cell_of df r "Naam" = name)
                    && negb (isna (cell_of df r ob_col)))
          (rows df))).

(** Every cell of a column is a text or empty. *)
Definition TextColumn (df : DataFrame) (name : string) : Prop :=
  forall r, In r (rows df) ->
    cell_of df r name = NaN \/ exists s, cell_of df r name = Text s.

(** The texts that the rows of an assignee hold in a column. *)
Definition texts_of (df : DataFrame) (ob_col : string) (name : cell)
  : gset string :=
  list_to_set
    (flat_map
       (fun r =>
          if bool_decide (cell_of df r "Naam" = name)
          then match cell_of df r ob_col with Text s => [s] | _ => [] end
          else [])
       (rows df)).

(** The identifiers the comparison works with: those of the assignee,
    and none at all for the missing assignee. *)
Definition compared_ids (timestamp_str : Z -> string) (df : DataFrame)
    (ob_col : string) (name : cell) : gset string :=
  if isna name then ∅ else ids_of timestamp_str df ob_col name.

(** The comparison row of one assignee, in closed form. *)
Definition row_for (timestamp_str : Z -> string)
    (set_iter : gset string -> list string) (rnd : Q -> Q)
    (current_df previous_df : DataFrame) (ob_col : string) (name : cell)
  : ComparisonRow :=
  let C := compared_ids timestamp_str current_df ob_col name in
  let P := compared_ids timestamp_str previous_df ob_col name in
  {| Naam := name;
     new_tasks := size (C ∖ P);
     old_tasks := size (C ∩ P);
     previous_total := size P;
     edited_tasks := size (P ∖ C);
     percentage := percentage_of rnd (size (P ∖ C)) (size P);
     oude_taken_key := ob_col +:+ " (oude taken)";
     oude_taken := if bool_decide (C ∩ P = ∅) then ""
                   else Str.join ", " (set_iter (C ∩ P)) |}.

(** [col] is the first label of [cols] in which [pat] occurs. *)
Definition FirstWith (pat : string) (cols : list string) (col : string)
  : Prop :=
  exists before after,
    cols = (before ++ col :: after)%list /\ Occurs pat col
    /\ forall c, In c before -> ~ Occurs pat c.

(** The identifier column as the specification words it. *)
Definition IdentifierColumn (cols : list string) (col : string) : Prop :=
  FirstWith "Obligo extern formaa" cols col
  \/ (col = "OH-order"
      /\ forall c, In c cols -> ~ Occurs "Obligo extern formaa" c).

(** A row cut down to the selected columns. *)
Definition project_row (df : DataFrame) (selected_cols : list string)
    (r : Row) : Row :=
  {| label := label r; values := map (cell_of df r) selected_cols |}.

(** The rows of a frame whose assignee is [k]. *)
Definition rows_of (df : DataFrame) (k : cell) : list Row :=
  List.filter (fun r => bool_decide (cell_of df r "Naam" = k)) (rows df).

(** [x] is one of [xs]. *)
Definition among (x : cell) (xs : list cell) : bool :=
  existsb (fun k => bool_decide (x = k)) xs.

(** The assignees [groupby] makes groups for, in its order. *)
Definition group_keys (df : DataFrame) : list cell :=
  sort_keys (dropna (unique (names_of df))).

(** The groups of a frame cut down to the selected columns: per
    assignee, the projected rows of that assignee. *)
Definition groups_of (df : DataFrame) (selected_cols : list string)
  : list (cell * DataFrame) :=
  map (fun k => (k, {| columns := selected_cols;
                       rows := map (project_row df selected_cols)
                                 (rows_of df k) |}))
      (group_keys df).

(** The value rows of a list of groups, one group after the other. *)
Definition group_values (groups : list (cell * DataFrame))
  : list (list cell) :=
  concat (map (fun g => map values (rows (snd g))) groups).

(* ================================================================== *)
(** * Sample sheets and tables *)
(* ================================================================== *)

(** A frame built from its labels and value rows, rows numbered from 0. *)
Definition frame (cols : list string) (body : list (list cell)) : DataFrame :=
  {| columns := cols; rows := range_index 0 body |}.

(** The dtype pandas gives a column built from these cells: objects
    for a column without rows, numbers when every cell is a whole number
    or empty, [datetime64[ns]] when every cell is a timestamp or empty
    and one is a timestamp, objects otherwise. *)
Definition column_dtype (series : list cell) : dtype :=
  match series with
  | [] => object
  | _ :: _ =>
      if forallb is_num (dropna series) then number
      else if forallb is_timestamp (dropna series) then datetime64
      else object
  end.

(** A frame with the dtypes it has when built from its cells. *)
Definition as_read (df : DataFrame) : TypedFrame :=
  {| content := df;
     dtypes := map (fun i => column_dtype (map (fun r => iat r i) (rows df)))
                   (seq 0 (length (columns df))) |}.

(** A date conversion for columns that hold their dates as timestamps:
    a moment within bounds stays, every other cell becomes [NaT].  No
    sample holds a number, or a text that reads as a date, in its date
    column. *)
Definition timestamps_only (dt : dtype) (series : list cell) : list cell :=
  map (fun c =>
         match c with
         | Timestamp ns =>
             if ((- 2 ^ 63 <? ns) && (ns <? 2 ^ 63))%Z then c else NaN
         | _ => NaN
         end) series.

Definition order_columns : list string :=
  ["Naam"; "Verantw. Werkplek"; "Status"; "Leverdatum";
   "Omschrijving middel"; "OH-order"].

(** Four orders: one kept, one with an unreadable date, one with a
    description ending in ["12w"], one of another workplace. *)
Definition sample_orders : DataFrame :=
  frame order_columns
    [[Text "Jan"; Text "VKS-01"; Text "OPEN"; Timestamp 5; Text "pomp"; Num 41];
     [Text "Jan"; Text "VKS-01"; Text "VRIJ"; Text "geen datum"; NaN; Num 42];
     [Text "Piet"; Text "VKS-02"; Text "OPEN"; Timestamp 7; Text "klep 12w";
      Num 43];
     [Text "Piet"; NaN; Text "OPEN"; Timestamp 7; Text "klep"; Num 44]].

(** One order whose description ends in ["12w"] and a line feed. *)
Definition order_12w_newline : Row :=
  {| label := 0;
     values := [Text "Jan"; Text "VKS-01"; Text "OPEN"; Timestamp 5;
                Text ("12w" +:+ String Str.LF ""); Num 41] |}.

Definition sample_newline : DataFrame :=
  {| columns := order_columns; rows := [order_12w_newline] |}.

(** One order due at 15:00 on the first day of the epoch, in nanoseconds;
    10:00 of that day is 36000000000000. *)
Definition order_due_at_three : Row :=
  {| label := 0;
     values := [Text "Jan"; Text "VKS-01"; Text "OPEN";
                Timestamp 54000000000000; Text "pomp"; Num 41] |}.

Definition sample_same_day : DataFrame :=
  {| columns := order_columns; rows := [order_due_at_three] |}.

(** One order whose description is a number, so that the description
    column holds numbers only. *)
Definition order_numbered : Row :=
  {| label := 0;
     values := [Text "Jan"; Text "VKS-01"; Text "OPEN"; Timestamp 5;
                Num 7; Num 41] |}.

Definition sample_numbered : DataFrame :=
  {| columns := order_columns; rows := [order_numbered] |}.

(** One order without workplace, so that the workplace column holds no
    text. *)
Definition sample_no_workplace : DataFrame :=
  frame order_columns
    [[Text "Jan"; NaN; Text "OPEN"; Timestamp 5; Text "pomp"; Num 41]].

(** Two orders that pass the fixed tests: the description of the first
    ends in ["12w"], that of the second is a number. *)
Definition sample_mixed_descriptions : DataFrame :=
  frame order_columns
    [[Text "Jan"; Text "VKS-01"; Text "OPEN"; Timestamp 5; Text "klep 12w";
      Num 41];
     [Text "Piet"; Text "VKS-02"; Text "OPEN"; Timestamp 5; Num 5; Num 42]].

(** Assignees out of order, one of them missing. *)
Definition sample_names : DataFrame :=
  frame ["Naam"; "OH-order"]
    [[Text "Piet"; Num 1]; [Text "Jan"; Num 2]; [NaN; Num 3];
     [Text "Piet"; Num 4]].

(** Stand-ins for the comparison's surroundings: timestamps printed as
    their nanosecond count (no sample identifier is a timestamp), sets
    iterated in the order of [elements], floats computed exactly. *)
Definition sample_timestamp_str : Z -> string := Str.of_Z.
Definition sample_set_iter : gset string -> list string := elements.
Definition exact_rnd : Q -> Q := fun q => q.

(** The scenario of two weeks: A holds 1 and 2 now, held 2 and 3. *)
Definition week_now : DataFrame :=
  frame ["Naam"; "OH-order"] [[Text "A"; Text "1"]; [Text "A"; Text "2"]].
Definition week_before : DataFrame :=
  frame ["Naam"; "OH-order"] [[Text "A"; Text "2"]; [Text "A"; Num 3]].

(** Last week with every identifier kept as text, and one order
    without assignee. *)
Definition last_week : DataFrame :=
  frame ["Naam"; "OH-order"]
    [[Text "A"; Text "2"]; [Text "A"; Text "3"]; [NaN; Text "7"]].

(** An order without assignee, and nothing the week before. *)
Definition unassigned_now : DataFrame :=
  frame ["Naam"; "OH-order"] [[NaN; Text "9"]].
Definition nothing_before : DataFrame := frame ["Naam"; "OH-order"] [].

(** Two empty filtered tables; only the current one has the preferred
    identifier column. *)
Definition empty_now : DataFrame :=
  frame ["Naam"; "OH-order"; "Obligo extern formaat"] [].
Definition empty_before : DataFrame := frame ["Naam"; "OH-order"] [].

(** The same, with one order in the current table. *)
Definition one_now : DataFrame :=
  frame ["Naam"; "OH-order"; "Obligo extern formaat"]
    [[Text "A"; Num 1; Text "x1"]].

(** Header promotion for a header of distinct texts, which the reader
    takes over as they are. *)
Definition text_labels (header : list cell) : list string :=
  map (fun c => match c with Text s => s | _ => "Unnamed" end) header.

(** A sheet with a title row, a header row in which one label is spelt
    once with a line feed and once with a space, and one order. *)
Definition sample_sheet : list (list cell) :=
  [[Text "Rapport week 12"];
   (map Text required_columns
    ++ [Text ("Obligo" +:+ String Str.LF "EUR"); Text "Obligo EUR"])%list;
   [Text "G1"; Text "Jan"; Text "OPEN"; Text "pomp"; Text "VKS-01";
    Timestamp 5; Num 41; Num 100; Num 200]].

(** The rows the comparison returns for the two sample weeks. *)
Definition two_weeks_rows : list ComparisonRow :=
  Eval vm_compute in
    match compare_tasks_grouped_by_name sample_timestamp_str sample_set_iter
            exact_rnd week_now week_before with
    | Ok out => out
    | KeyError _ => []
    end.

(** The sample orders through the filter at moment 10 with the flag
    set: the caller's frame afterwards, and the frame returned. *)
Definition orders_after : TypedFrame :=
  Eval vm_compute in
    fst (apply_filters timestamps_only 10 (as_read sample_orders) true).

Definition orders_kept : TypedFrame :=
  Eval vm_compute in
    match snd (apply_filters timestamps_only 10 (as_read sample_orders) true)
    with
    | Returns out => out
    | Raises _ => as_read sample_orders
    end.

(** The same without the flag. *)
Definition orders_passing : TypedFrame :=
  Eval vm_compute in
    match snd (apply_filters timestamps_only 10 (as_read sample_orders) false)
    with
    | Returns out => out
    | Raises _ => as_read sample_orders
    end.

(** The orders with mixed descriptions through the filter, flag set. *)
Definition mixed_after : TypedFrame :=
  Eval vm_compute in
    fst (apply_filters timestamps_only 10
           (as_read sample_mixed_descriptions) true).

Definition mixed_kept : TypedFrame :=
  Eval vm_compute in
    match snd (apply_filters timestamps_only 10
                 (as_read sample_mixed_descriptions) true) with
    | Returns out => out
    | Raises _ => as_read sample_mixed_descriptions
    end.

(** The rows the comparison returns when last week's two tasks of A are
    all gone. *)
Definition all_gone_rows : list ComparisonRow :=
  Eval vm_compute in
    match compare_tasks_grouped_by_name sample_timestamp_str sample_set_iter
            exact_rnd nothing_before week_before with
    | Ok out => out
    | KeyError _ => []
    end.

(** A sheet with a title row, a header of distinct labels without line
    feeds, and two orders, one of them of another workplace. *)
Definition plain_sheet : list (list cell) :=
  [[Text "Rapport week 12"];
   (map Text required_columns ++ [Text "Leverancier"])%list;
   [Text "G1"; Text "Jan"; Text "OPEN"; Text "pomp"; Text "VKS-01";
    Timestamp 5; Num 41; Text "ACME"];
   [Text "G1"; Text "Piet"; Text "OPEN"; Text "klep"; Text "XYZ-01";
    Timestamp 5; Num 42; Text "ACME"]].

(* ================================================================== *)
(** * Lists, labels and strings *)
(* ================================================================== *)

Section ListFacts.

Context {A B C : Type}.

Lemma select_map (p : A -> bool) (l : list A) :
  select l (map p l) = List.filter p l.
Proof.
  induction l as [|x l IH]; simpl; [reflexivity|].
  destruct (p x); now rewrite IH.
Qed.

Lemma filter_filter (p q : A -> bool) (l : list A) :
  List.filter q (List.filter p l) = List.filter (fun x => p x && q x) l.
Proof.
  induction l as [|x l IH]; simpl; [reflexivity|].
  destruct (p x); simpl; [destruct (q x)|]; now rewrite IH.
Qed.

Lemma filter_all (p : A -> bool) (l : list A) :
  (forall x, In x l -> p x = true) -> List.filter p l = l.
Proof.
  induction l as [|x l IH]; simpl; intros H; [reflexivity|].
  rewrite (H x) by now left. f_equal. apply IH. intros; apply H; now right.
Qed.

End ListFacts.

Lemma map2_andb_map {A : Type} (p q : A -> bool) (l : list A) :
  map2 andb (map p l) (map q l) = map (fun x => p x && q x) l.
Proof. induction l as [|x l IH]; simpl; [reflexivity | now rewrite IH]. Qed.

Lemma get_loc_In cols name :
  In name cols -> exists i, get_loc cols name = Some i.
Proof.
  induction cols as [|c cols IH]; simpl; [intros []|].
  intros H. destruct (String.eqb_spec c name) as [->|Hne]; [now exists 0|].
  destruct H as [H|H]; [congruence|].
  destruct (IH H) as [i ->]. now exists (S i).
Qed.

Lemma get_loc_None cols name :
  ~ In name cols -> get_loc cols name = None.
Proof.
  induction cols as [|c cols IH]; simpl; [reflexivity|].
  intros H. destruct (String.eqb_spec c name) as [->|Hne]; [tauto|].
  rewrite IH; [reflexivity | tauto].
Qed.

Lemma get_loc_Some cols name i :
  get_loc cols name = Some i -> cols !! i = Some name.
Proof.
  revert i. induction cols as [|c cols IH]; simpl; [discriminate|].
  intros i. destruct (String.eqb_spec c name) as [->|Hne].
  - now intros [= <-].
  - destruct (get_loc cols name) as [j|] eqn:E; simpl; [|discriminate].
    intros [= <-]. simpl. now apply IH.
Qed.

Lemma get_loc_inj cols a b i :
  get_loc cols a = Some i -> get_loc cols b = Some i -> a = b.
Proof.
  intros Ha Hb. apply get_loc_Some in Ha, Hb. congruence.
Qed.

Lemma values_range_index start body :
  map values (range_index start body) = body.
Proof.
  revert start. induction body as [|vs body IH]; intros start; simpl;
    [reflexivity | now rewrite IH].
Qed.

Lemma label_range_index start body :
  map label (range_index start body) = seq start (length body).
Proof.
  revert start. induction body as [|vs body IH]; intros start; simpl;
    [reflexivity | now rewrite IH].
Qed.

(* ================================================================== *)
(** * Locating the table *)
(* ================================================================== *)

Section Locator.

Variable header_labels : list cell -> list string.

Lemma in_values_In col vals :
  in_values col vals = true <-> In (Text col) vals.
Proof.
  unfold in_values. rewrite existsb_exists. split.
  - intros (c & Hc & Heq). apply bool_decide_eq_true in Heq. now subst.
  - intros H. exists (Text col). split; [exact H|].
    now apply bool_decide_eq_true.
Qed.

Lemma forallb_HoldsAll required vals :
  forallb (fun col => in_values col vals) required = true
  <-> HoldsAll required vals.
Proof.
  rewrite forallb_forall. unfold HoldsAll.
  split; intros H col Hcol; apply in_values_In, H, Hcol.
Qed.

Lemma scan_rows_seq sheet_data required n : forall start,
  match scan_rows header_labels sheet_data required (seq start n) with
  | Some table =>
      exists i, start <= i < start + n
        /\ HoldsAll required (iloc_row sheet_data i)
        /\ (forall j, start <= j < i ->
              ~ HoldsAll required (iloc_row sheet_data j))
        /\ table = read_excel_header header_labels sheet_data i
  | None =>
      forall j, start <= j < start + n ->
        ~ HoldsAll required (iloc_row sheet_data j)
  end.
Proof.
  induction n as [|n IH]; intros start; simpl.
  - intros j Hj. lia.
  - destruct (forallb _ required) eqn:Hrow.
    + exists start. repeat split; try lia.
      now apply forallb_HoldsAll.
    + assert (Hno : ~ HoldsAll required (iloc_row sheet_data start)).
      { intros H. apply forallb_HoldsAll in H. congruence. }
      specialize (IH (S start)).
      destruct (scan_rows _ _ _ (seq (S start) n)) as [table|].
      * destruct IH as (i & Hi & Hall & Hfirst & ->).
        exists i. repeat split; try lia; [exact Hall|].
        intros j Hj. destruct (Nat.eq_dec j start) as [->|Hne];
          [exact Hno | apply Hfirst; lia].
      * intros j Hj. destruct (Nat.eq_dec j start) as [->|Hne];
          [exact Hno | apply IH; lia].
Qed.

(** The rows above, at and below a position of the grid. *)
Lemma grid_split (sheet_data : list (list cell)) i :
  i < length sheet_data ->
  sheet_data
  = (firstn i sheet_data
     ++ iloc_row sheet_data i :: skipn (S i) sheet_data)%list
  /\ forall vals, In vals (firstn i sheet_data) ->
       exists j, j < i /\ iloc_row sheet_data j = vals.
Proof.
  intros Hi. unfold iloc_row. split.
  - rewrite <- (firstn_skipn i sheet_data) at 1. f_equal.
    destruct (sheet_data !! i) as [row|] eqn:E.
    + rewrite nth_lookup, E. cbn [default].
      now apply drop_S.
    + apply lookup_ge_None in E. lia.
  - intros vals Hin. apply list_elem_of_In in Hin.
    apply list_elem_of_lookup in Hin as [j Hj].
    pose proof (lookup_lt_Some _ _ _ Hj) as Hlt.
    rewrite length_take in Hlt.
    rewrite lookup_take_lt in Hj by lia.
    exists j. split; [lia|]. now rewrite nth_lookup, Hj.
Qed.

(** C3. Rows are scanned from the top; the header is the first row in
    which every required column name is the value of some cell: the grid
    splits into the rows above the header, none of which holds all the
    required names, the header row, and the rows below it; the returned
    table takes its labels from the header row and has as body exactly
    the rows below it, in their order and numbered from 0; and nothing
    is returned exactly when no row of the grid holds all the required
    names. *)
Theorem find_table_topmost_header sheet_data required :
  match find_table_starting_from_columns header_labels sheet_data required
  with
  | Some table =>
      exists above header below,
        sheet_data = (above ++ header :: below)%list
        /\ HoldsAll required header
        /\ (forall vals, In vals above -> ~ HoldsAll required vals)
        /\ columns table = header_labels header
        /\ map values (rows table) = below
        /\ labels table = seq 0 (length below)
  | None =>
      forall vals, In vals sheet_data -> ~ HoldsAll required vals
  end.
Proof.
  unfold find_table_starting_from_columns.
  pose proof (scan_rows_seq sheet_data required (length sheet_data) 0) as H.
  destruct (scan_rows _ _ _ _) as [table|].
  - destruct H as (i & Hi & Hall & Hfirst & ->).
    destruct (grid_split sheet_data i) as [Hsplit Habove]; [lia|].
    exists (firstn i sheet_data), (iloc_row sheet_data i),
      (skipn (S i) sheet_data).
    split; [exact Hsplit|]. split; [exact Hall|]. split.
    { intros vals Hin. destruct (Habove vals Hin) as (j & Hj & <-).
      apply Hfirst. lia. }
    split; [reflexivity|]. split.
    + simpl. apply values_range_index.
    + unfold labels. simpl. now rewrite label_range_index.
  - intros vals Hin. apply list_elem_of_In in Hin.
    apply list_elem_of_lookup in Hin as [j Hj].
    pose proof (lookup_lt_Some _ _ _ Hj) as Hlt.
    replace vals with (iloc_row sheet_data j)
      by (unfold iloc_row; now rewrite nth_lookup, Hj).
    apply H. lia.
Qed.

End Locator.

(** The plain sheet: the title row is passed over, the second row is
    the header, and the two orders below it are the body. *)
Example find_table_plain_sheet :
  find_table_starting_from_columns text_labels plain_sheet required_columns
  = Some (frame (required_columns ++ ["Leverancier"])
            [[Text "G1"; Text "Jan"; Text "OPEN"; Text "pomp"; Text "VKS-01";
              Timestamp 5; Num 41; Text "ACME"];
             [Text "G1"; Text "Piet"; Text "OPEN"; Text "klep"; Text "XYZ-01";
              Timestamp 5; Num 42; Text "ACME"]]).
Proof. vm_compute. reflexivity. Qed.

(* ================================================================== *)
(** * Substrings and the description pattern *)
(* ================================================================== *)

#[local] Arguments String.append !s1 s2 : simpl nomatch.

Lemma append_assoc (a b c : string) : (a +:+ b) +:+ c = a +:+ (b +:+ c).
Proof. induction a as [|x a IH]; simpl; [reflexivity | now rewrite IH]. Qed.

Lemma prefix_append (p s : string) :
  String.prefix p s = true <-> exists b, s = p +:+ b.
Proof.
  revert s. induction p as [|x p IH]; intros s.
  - split; [intros _; now exists s | intros _; destruct s; reflexivity].
  - destruct s as [|y s]; simpl.
    + split; [discriminate | intros [b Hb]; discriminate].
    + destruct (Ascii.ascii_dec x y) as [->|Hne].
      * rewrite IH. split; intros [b Hb]; exists b; congruence.
      * split; [discriminate | intros [b Hb]; congruence].
Qed.

Lemma contains_unfold pat s :
  Str.contains pat s =
  String.prefix pat s ||
  match s with EmptyString => false | String _ s' => Str.contains pat s' end.
Proof. destruct s; reflexivity. Qed.

Lemma contains_Occurs pat s : Str.contains pat s = true <-> Occurs pat s.
Proof.
  unfold Occurs. split.
  - induction s as [|c s IH]; rewrite contains_unfold, orb_true_iff.
    + intros [H|H]; [|discriminate].
      apply prefix_append in H as [b Hb]. now exists "", b.
    + intros [H|H].
      * apply prefix_append in H as [b Hb]. now exists "", b.
      * destruct (IH H) as (a & b & ->). now exists (String c a), b.
  - intros (a & b & ->). induction a as [|c a IH].
    + rewrite contains_unfold. simpl.
      replace (String.prefix pat (pat +:+ b)) with true; [reflexivity|].
      symmetry. apply prefix_append. now exists b.
    + rewrite contains_unfold. simpl. rewrite IH. apply orb_true_r.
Qed.

Lemma is_digit_w : Str.is_digit "w" = false.
Proof. reflexivity. Qed.

Lemma at_dollar_cases tail :
  Str.at_dollar tail = true <-> tail = "" \/ tail = String Str.LF "".
Proof.
  destruct tail as [|c [|d tail]]; simpl.
  - split; [now left | reflexivity].
  - rewrite Ascii.eqb_eq. split; [intros ->; now right|].
    intros [H|H]; [discriminate | congruence].
  - split; [discriminate | intros [H|H]; discriminate].
Qed.

Lemma match_digits_w_spec s : forall seen,
  Str.match_digits_w seen s = true <->
  exists ds tail, s = ds +:+ String "w" tail /\ all_digits ds = true
    /\ (seen = true \/ ds <> "") /\ Str.at_dollar tail = true.
Proof.
  induction s as [|c s IH]; intros seen; simpl.
  - split; [discriminate|].
    intros (ds & tail & H & _). destruct ds; discriminate.
  - destruct (Str.is_digit c) eqn:Hc.
    + rewrite IH. split.
      * intros (ds & tail & -> & Hds & _ & Htail).
        exists (String c ds), tail. simpl. rewrite Hc, Hds.
        repeat split; [now right | exact Htail].
      * intros (ds & tail & Hs & Hds & _ & Htail).
        destruct ds as [|d ds]; simpl in Hs; injection Hs as -> ->.
        -- rewrite is_digit_w in Hc. discriminate.
        -- simpl in Hds. apply andb_true_iff in Hds as [_ Hds].
           exists ds, tail. repeat split; [exact Hds | now left | exact Htail].
    + rewrite !andb_true_iff, Ascii.eqb_eq. split.
      * intros [[-> ->] Htail]. exists "", s.
        repeat split; [now left | exact Htail].
      * intros (ds & tail & Hs & Hds & Hseen & Htail).
        destruct ds as [|d ds]; simpl in Hs; injection Hs as -> ->.
        -- destruct Hseen as [->|Hne]; [now repeat split | congruence].
        -- simpl in Hds. rewrite Hc in Hds. discriminate.
Qed.

Lemma search_digits_w_unfold s :
  Str.search_digits_w s =
  Str.match_digits_w false s ||
  match s with EmptyString => false | String _ s' => Str.search_digits_w s' end.
Proof. destruct s; reflexivity. Qed.

Lemma search_digits_w_spec s :
  Str.search_digits_w s = true <->
  exists pre ds tail, s = pre +:+ ds +:+ String "w" tail /\ ds <> ""
    /\ all_digits ds = true /\ Str.at_dollar tail = true.
Proof.
  split.
  - induction s as [|c s IH]; rewrite search_digits_w_unfold, orb_true_iff.
    + intros [H|H]; [|discriminate]. simpl in H. discriminate.
    + intros [H|H].
      * apply match_digits_w_spec in H as (ds & tail & -> & Hds & Hne & Ht).
        exists "", ds, tail. simpl. repeat split; try assumption.
        destruct Hne as [Hne|Hne]; [discriminate | exact Hne].
      * destruct (IH H) as (pre & ds & tail & -> & Hne & Hds & Ht).
        exists (String c pre), ds, tail. now repeat split.
  - intros (pre & ds & tail & -> & Hne & Hds & Ht).
    induction pre as [|c pre IH]; rewrite search_digits_w_unfold.
    + simpl. apply orb_true_iff. left. apply match_digits_w_spec.
      exists ds, tail. repeat split; [exact Hds | now right | exact Ht].
    + simpl. rewrite IH. apply orb_true_r.
Qed.

(** The regular expression [\d+w$] finds a match exactly in the strings
    that end in digits and ["w"], possibly followed by one line feed. *)
Lemma search_digits_w_EndsDigitsWLine s :
  Str.search_digits_w s = true <-> EndsDigitsWLine s.
Proof.
  rewrite search_digits_w_spec. unfold EndsDigitsWLine, EndsDigitsW. split.
  - intros (pre & ds & tail & -> & Hne & Hds & Ht).
    apply at_dollar_cases in Ht as [->| ->].
    + left. exists pre, ds. now repeat split.
    + right. exists (pre +:+ ds +:+ "w"). split.
      * now rewrite !append_assoc.
      * exists pre, ds. now repeat split.
  - intros [(pre & ds & Hne & Hds & ->)|(s' & -> & pre & ds & Hne & Hds & ->)].
    + exists pre, ds, "". now repeat split.
    + exists pre, ds, (String Str.LF ""). repeat split; try assumption.
      now rewrite !append_assoc.
Qed.

Lemma EndsDigitsW_last s : EndsDigitsW s -> exists p, s = p +:+ "w".
Proof.
  intros (pre & ds & _ & _ & ->). exists (pre +:+ ds).
  now rewrite append_assoc.
Qed.

(* ================================================================== *)
(** * The filter *)
(* ================================================================== *)

Lemma iat_set_cell_ne i j r v : i <> j -> iat (set_cell i r v) j = iat r j.
Proof.
  intros Hne. unfold iat, set_cell. simpl.
  now rewrite !nth_lookup, list_lookup_insert_ne.
Qed.

Lemma iat_set_cell_eq i r v :
  i < length (values r) -> iat (set_cell i r v) i = v.
Proof.
  intros Hlt. unfold iat, set_cell. simpl.
  now rewrite nth_lookup, list_lookup_insert_eq.
Qed.

Lemma set_cell_same i r : set_cell i r (iat r i) = r.
Proof.
  unfold set_cell, iat. destruct r as [l vs]. simpl. f_equal.
  rewrite nth_lookup. destruct (vs !! i) as [v|] eqn:E; simpl.
  - now apply list_insert_id.
  - apply list_insert_ge. now apply lookup_ge_None.
Qed.

Lemma filter_map_comm {A B : Type} (f : A -> B) (p : B -> bool) (l : list A) :
  List.filter p (map f l) = map f (List.filter (fun x => p (f x)) l).
Proof.
  induction l as [|x l IH]; simpl; [reflexivity|].
  destruct (p (f x)); simpl; now rewrite IH.
Qed.

Lemma getitem_cell_of df name :
  In name (columns df) ->
  getitem df name = Ok (map (fun r => cell_of df r name) (rows df)).
Proof.
  intros H. unfold getitem, cell_of.
  destruct (get_loc_In _ _ H) as [i ->]. reflexivity.
Qed.

Lemma getitem_missing df name :
  ~ In name (columns df) -> getitem df name = KeyError name.
Proof. intros H. unfold getitem. now rewrite get_loc_None. Qed.

Lemma sublist_map_filter {A B : Type} (f : A -> B) (p : A -> bool) l :
  sublist (map f (List.filter p l)) (map f l).
Proof.
  induction l as [|x l IH]; simpl; [constructor|].
  destruct (p x); simpl; now constructor.
Qed.

Lemma filter_nothing {A : Type} (p : A -> bool) (l : list A) :
  (forall x, In x l -> p x = false) -> List.filter p l = [].
Proof.
  induction l as [|x l IH]; simpl; intros H; [reflexivity|].
  rewrite (H x) by now left. apply IH. intros; apply H; now right.
Qed.

Lemma sublist_keep {A : Type} (p : A -> bool) l :
  sublist (List.filter p l) l.
Proof.
  induction l as [|x l IH]; simpl; [constructor|].
  destruct (p x); now constructor.
Qed.

Lemma sublist_filter_imp {A : Type} (p q : A -> bool) l :
  (forall x, p x = true -> q x = true) ->
  sublist (List.filter p l) (List.filter q l).
Proof.
  intros Himp. induction l as [|x l IH]; simpl; [constructor|].
  destruct (p x) eqn:Hp.
  - rewrite (Himp x Hp). now constructor.
  - destruct (q x); [now constructor | exact IH].
Qed.

(** ** Assigning a column *)

Lemma map2_set_cell_label i rs : forall series,
  length series = length rs ->
  map label (map2 (set_cell i) rs series) = map label rs.
Proof.
  induction rs as [|r rs IH]; intros [|v series]; simpl; try discriminate;
    [reflexivity|].
  intros [= H]. now rewrite IH.
Qed.

Lemma map2_set_cell_other i j rs : forall series,
  length series = length rs -> i <> j ->
  map (fun r => iat r j) (map2 (set_cell i) rs series)
  = map (fun r => iat r j) rs.
Proof.
  induction rs as [|r rs IH]; intros [|v series]; simpl; try discriminate;
    [reflexivity|].
  intros [= H] Hne. now rewrite IH, iat_set_cell_ne.
Qed.

Lemma map2_set_cell_at i rs : forall series,
  length series = length rs ->
  (forall r, In r rs -> i < length (values r)) ->
  map (fun r => iat r i) (map2 (set_cell i) rs series) = series.
Proof.
  induction rs as [|r rs IH]; intros [|v series]; simpl; try discriminate;
    [reflexivity|].
  intros [= H] Hwide. rewrite IH, iat_set_cell_eq; auto.
Qed.

Lemma map2_set_cell_same i rs :
  map2 (set_cell i) rs (map (fun r => iat r i) rs) = rs.
Proof.
  induction rs as [|r rs IH]; simpl; [reflexivity|].
  now rewrite set_cell_same, IH.
Qed.

Lemma get_loc_lt cols name i : get_loc cols name = Some i -> i < length cols.
Proof.
  intros H. apply get_loc_Some in H. now apply lookup_lt_Some in H.
Qed.

Lemma nth_insert_ne {A : Type} (l : list A) i j x d :
  i <> j -> nth j (<[i := x]> l) d = nth j l d.
Proof. intros H. now rewrite !nth_lookup, list_lookup_insert_ne. Qed.

Lemma nth_insert_eq {A : Type} (l : list A) i x d :
  i < length l -> nth i (<[i := x]> l) d = x.
Proof. intros H. now rewrite nth_lookup, list_lookup_insert_eq. Qed.

(** ** The tests on one cell *)

Lemma contains_at_Occurs pat c :
  contains_at pat c = true <-> exists s, c = Text s /\ Occurs pat s.
Proof.
  destruct c as [|s|z|ns]; simpl;
    try (split; [discriminate | intros (s' & Hs & _); discriminate]).
  rewrite contains_Occurs. split.
  - intros H. now exists s.
  - now intros (s' & [= <-] & H).
Qed.

Lemma isin_status c :
  isin ["VRIJ"; "OPEN"] c = true <-> c = Text "VRIJ" \/ c = Text "OPEN".
Proof.
  destruct c as [|s|z|ns]; simpl;
    try (split; [discriminate | intros [H|H]; discriminate]).
  rewrite orb_false_r, orb_true_iff, !String.eqb_eq.
  split; (intros [H|H]; [left | right]; congruence).
Qed.

Lemma le_timestamp_spec today c :
  le_timestamp today c = true <-> exists ns, c = Timestamp ns /\ (ns <= today)%Z.
Proof.
  destruct c as [|s|z|ns]; simpl;
    try (split; [discriminate | intros (n & Hn & _); discriminate]).
  rewrite Z.leb_le. split.
  - intros H. now exists ns.
  - now intros (n & [= <-] & H).
Qed.

Lemma le_timestamp_later t1 t2 c :
  (t1 <= t2)%Z -> le_timestamp t1 c = true -> le_timestamp t2 c = true.
Proof.
  intros Hle. destruct c; simpl; try discriminate.
  rewrite !Z.leb_le. lia.
Qed.

Lemma digits_w_at_spec c :
  digits_w_at c = true <-> exists s, c = Text s /\ EndsDigitsWLine s.
Proof.
  destruct c as [|s|z|ns]; simpl;
    try (split; [discriminate | intros (s' & Hs & _); discriminate]).
  rewrite search_digits_w_EndsDigitsWLine. split.
  - intros H. now exists s.
  - now intros (s' & [= <-] & H).
Qed.

(** The masks of [apply_filters] say what the specification says, with
    the description pattern read as Python reads [\d+w$] and the date
    compared as a moment. *)
Lemma keep_SurvivesWith today flag df r :
  keep today flag df r = true
  <-> SurvivesWith EndsDigitsWLine (fun ns => (ns <= today)%Z) flag df r.
Proof.
  unfold keep, passes, matches_w, SurvivesWith.
  rewrite !andb_true_iff, contains_at_Occurs, isin_status, le_timestamp_spec.
  assert (Hflag :
    (if flag
     then negb (digits_w_at (cell_of df r "Omschrijving middel"))
     else true) = true
    <-> (flag = true ->
         ~ exists s, cell_of df r "Omschrijving middel" = Text s
                     /\ EndsDigitsWLine s)).
  { destruct flag.
    - rewrite negb_true_iff, <- not_true_iff_false, digits_w_at_spec.
      tauto.
    - split; [discriminate | reflexivity]. }
  rewrite Hflag. tauto.
Qed.

Lemma keep_passes today flag df r :
  keep today flag df r = true -> passes today df r = true.
Proof. unfold keep. now intros [H _]%andb_true_iff. Qed.

Lemma keep_later t1 t2 flag df r :
  (t1 <= t2)%Z -> keep t1 flag df r = true -> keep t2 flag df r = true.
Proof.
  intros Hle. unfold keep, passes. rewrite !andb_true_iff.
  intros [[[HW HS] HL] HO]. repeat split; try assumption.
  eapply le_timestamp_later; eassumption.
Qed.

(** The returned rows by one test. *)
Lemma filter_keep today flag df :
  List.filter (keep today flag df) (rows df)
  = if flag
    then List.filter (fun r => negb (matches_w df r)) (passing today df)
    else passing today df.
Proof.
  unfold passing, keep. destruct flag.
  - now rewrite filter_filter.
  - apply List.filter_ext. intros r. apply andb_true_r.
Qed.

(** ** The [.str] accessor *)

Lemma filter_texts series :
  forallb is_text series = true ->
  List.filter (fun c => negb (isna c)) series = series.
Proof.
  intros H. apply filter_all. intros c Hc.
  rewrite forallb_forall in H. specialize (H c Hc). now destruct c.
Qed.

(** A column of texts is searchable as soon as it holds objects. *)
Lemma str_accessor_texts series :
  forallb is_text series = true -> str_accessor object series = true.
Proof.
  intros H. unfold str_accessor, infer_dtype. rewrite filter_texts by exact H.
  destruct series as [|c series]; [reflexivity|].
  rewrite H. simpl in H. apply andb_true_iff in H as [Hc _].
  now destruct c.
Qed.

(** Only an object column is searchable. *)
Lemma str_accessor_object dt series :
  str_accessor dt series = true -> dt = object.
Proof. now destruct dt. Qed.

(** An object column is searchable unless what it holds, empty cells
    aside, is whole numbers only or timestamps only. *)
Lemma str_accessor_spec series :
  str_accessor object series = true <->
  dropna series = []
  \/ (forallb is_num (dropna series) = false
      /\ forallb is_timestamp (dropna series) = false).
Proof.
  unfold str_accessor, infer_dtype, dropna.
  destruct (List.filter _ series) as [|c vals] eqn:E.
  - split; [now left | reflexivity].
  - assert (Hc : isna c = false).
    { assert (Hin : In c (List.filter (fun c => negb (isna c)) series))
        by (rewrite E; now left).
      apply filter_In in Hin as [_ Hin]. now apply negb_true_iff in Hin. }
    destruct c as [|s|z|ns]; [discriminate|..]; cbn [forallb is_num is_timestamp
      is_text andb].
    + split; [intros _; right; now split|intros _].
      destruct (forallb is_text vals); [reflexivity|].
      now destruct (existsb is_num _).
    + destruct (forallb is_num vals).
      * split; [discriminate | intros [H|[H _]]; discriminate].
      * split; [intros _; right; now split | reflexivity].
    + destruct (forallb is_timestamp vals).
      * split; [discriminate | intros [H|[_ H]]; discriminate].
      * split; [intros _; right; now split|intros _].
        now destruct (existsb is_num _).
Qed.

(** ** The call in closed form *)

Section Filter.

Variable to_datetime : dtype -> list cell -> list cell.

#[local] Abbreviation dated := (dated to_datetime).
#[local] Abbreviation apply_filters := (apply_filters to_datetime).

Lemma dated_columns df : columns (content (dated df)) = columns (content df).
Proof.
  unfold dated, getitem, setitem_typed, setitem.
  destruct (get_loc (columns (content df)) "Leverdatum"); reflexivity.
Qed.

Lemma dated_missing df :
  ~ In "Leverdatum" (columns (content df)) -> dated df = df.
Proof. intros H. unfold dated. now rewrite getitem_missing. Qed.

(** The rows and dtypes after the assignment. *)
Lemma dated_at df i :
  get_loc (columns (content df)) "Leverdatum" = Some i ->
  rows (content (dated df))
  = map2 (set_cell i) (rows (content df))
      (to_datetime (dtype_of df "Leverdatum")
         (map (fun r => iat r i) (rows (content df))))
  /\ dtypes (dated df) = <[i := datetime64]> (dtypes df).
Proof.
  intros Hi. unfold dated, getitem. rewrite Hi.
  unfold setitem_typed, setitem. rewrite Hi. now split.
Qed.

(** The caller's frame is left as the first statement leaves it. *)
Lemma apply_filters_fst today df flag :
  fst (apply_filters today df flag) = dated df.
Proof.
  unfold apply_filters, dated.
  now destruct (getitem (content df) "Leverdatum").
Qed.

Lemma cell_of_with_rows df rs r name :
  cell_of (content (with_rows df rs)) r name = cell_of (content df) r name.
Proof. reflexivity. Qed.

Lemma loc_mask_typed_filter df (p : Row -> bool) :
  loc_mask_typed df (map p (rows (content df)))
  = with_rows df (List.filter p (rows (content df))).
Proof.
  unfold loc_mask_typed, loc_mask, with_rows. now rewrite select_map.
Qed.

(** What the call computes when the columns it reads are there: it
    raises on a workplace column, or on a description column of the rows
    passing the fixed tests, that is not searchable, and otherwise
    returns the rows that pass, in their original order. *)
Lemma apply_filters_eq today df flag :
  FilterColumns flag (content df) ->
  apply_filters today df flag =
  (dated df,
   if searchable (dated df) "Verantw. Werkplek" (rows (content (dated df)))
   then
     if flag then
       if searchable (dated df) "Omschrijving middel"
            (passing today (content (dated df)))
       then Returns
              (with_rows (dated df)
                 (List.filter
                    (fun r => negb (matches_w (content (dated df)) r))
                    (passing today (content (dated df)))))
       else Raises attribute_error
     else Returns (with_rows (dated df) (passing today (content (dated df))))
   else Raises attribute_error).
Proof.
  intros (HL & HW & HS & HO).
  pose proof (dated_columns df) as Hcols.
  unfold apply_filters, dated in *.
  rewrite (getitem_cell_of (content df)) in * by exact HL.
  set (D := setitem_typed df "Leverdatum" _ datetime64) in *.
  f_equal.
  rewrite (getitem_cell_of (content D) "Verantw. Werkplek")
    by (rewrite Hcols; exact HW).
  cbn [or_raise mbind attempt_bind]. unfold str_contains, searchable.
  destruct (str_accessor _ _); cbn [mbind attempt_bind]; [|reflexivity].
  rewrite (getitem_cell_of (content D) "Status") by (rewrite Hcols; exact HS).
  rewrite (getitem_cell_of (content D) "Leverdatum")
    by (rewrite Hcols; exact HL).
  cbn [or_raise mbind attempt_bind].
  rewrite !map_map, !map2_andb_map.
  change (map _ (rows (content D)))
    with (map (passes today (content D)) (rows (content D))).
  rewrite loc_mask_typed_filter. fold (passing today (content D)).
  destruct flag; [|reflexivity].
  rewrite (getitem_cell_of (content (with_rows D _)) "Omschrijving middel")
    by (cbn [content columns with_rows]; rewrite Hcols; now apply HO).
  cbn [or_raise mbind attempt_bind]. unfold str_contains_digits_w.
  change (dtype_of (with_rows D (passing today (content D)))
            "Omschrijving middel")
    with (dtype_of D "Omschrijving middel").
  change (map (fun r => cell_of (content (with_rows D _)) r
                          "Omschrijving middel")
              (rows (content (with_rows D (passing today (content D))))))
    with (map (fun r => cell_of (content D) r "Omschrijving middel")
              (passing today (content D))).
  destruct (str_accessor _ _); cbn [mbind attempt_bind]; [|reflexivity].
  rewrite !map_map.
  change (map _ (passing today (content D)))
    with (map (fun r => negb (matches_w (content D) r))
              (rows (content (with_rows D (passing today (content D)))))).
  now rewrite loc_mask_typed_filter.
Qed.

(** A call that returns has found its columns. *)
Lemma apply_filters_Returns_columns today df flag out :
  snd (apply_filters today df flag) = Returns out ->
  FilterColumns flag (content df).
Proof.
  intros Hret. pose proof (dated_columns df) as Hcols.
  unfold apply_filters, dated in *.
  destruct (in_dec string_dec "Leverdatum" (columns (content df)))
    as [HL|HL].
  2:{ rewrite getitem_missing in Hret by exact HL. discriminate. }
  rewrite (getitem_cell_of (content df)) in * by exact HL.
  set (D := setitem_typed df "Leverdatum" _ datetime64) in *.
  cbn [snd] in Hret.
  destruct (in_dec string_dec "Verantw. Werkplek" (columns (content df)))
    as [HW|HW].
  2:{ rewrite (getitem_missing (content D) "Verantw. Werkplek") in Hret
        by (rewrite Hcols; exact HW). discriminate. }
  rewrite (getitem_cell_of (content D) "Verantw. Werkplek") in Hret
    by (rewrite Hcols; exact HW).
  cbn [or_raise mbind attempt_bind] in Hret. unfold str_contains in Hret.
  destruct (str_accessor _ _); cbn [mbind attempt_bind] in Hret;
    [|discriminate].
  destruct (in_dec string_dec "Status" (columns (content df))) as [HS|HS].
  2:{ rewrite (getitem_missing (content D) "Status") in Hret
        by (rewrite Hcols; exact HS). discriminate. }
  rewrite (getitem_cell_of (content D) "Status") in Hret
    by (rewrite Hcols; exact HS).
  rewrite (getitem_cell_of (content D) "Leverdatum") in Hret
    by (rewrite Hcols; exact HL).
  cbn [or_raise mbind attempt_bind] in Hret.
  repeat split; try assumption. intros ->.
  destruct (in_dec string_dec "Omschrijving middel" (columns (content df)))
    as [HO|HO]; [exact HO|].
  rewrite getitem_missing in Hret
    by (cbn [content columns loc_mask_typed loc_mask]; rewrite Hcols; exact HO).
  discriminate.
Qed.

End Filter.

(** ** The caller's frame after the call *)

Section FilterFrame.

Variable to_datetime : dtype -> list cell -> list cell.

#[local] Abbreviation dated := (dated to_datetime).
#[local] Abbreviation apply_filters := (apply_filters to_datetime).

Hypothesis to_datetime_length :
  forall dt series, length (to_datetime dt series) = length series.

Lemma dated_labels df : labels (content (dated df)) = labels (content df).
Proof.
  unfold labels.
  destruct (get_loc (columns (content df)) "Leverdatum") as [i|] eqn:Hi.
  - destruct (dated_at to_datetime df i Hi) as [-> _].
    apply map2_set_cell_label. now rewrite to_datetime_length, length_map.
  - rewrite dated_missing; [reflexivity|].
    intros H. apply get_loc_In in H as [i H]. congruence.
Qed.

Lemma dated_getitem_other df name :
  name <> "Leverdatum" ->
  getitem (content (dated df)) name = getitem (content df) name.
Proof.
  intros Hne.
  destruct (get_loc (columns (content df)) "Leverdatum") as [i|] eqn:Hi.
  - unfold getitem. rewrite dated_columns.
    destruct (get_loc (columns (content df)) name) as [j|] eqn:Hj;
      [|reflexivity].
    destruct (dated_at to_datetime df i Hi) as [-> _]. f_equal.
    apply map2_set_cell_other.
    + now rewrite to_datetime_length, length_map.
    + intros ->. apply Hne. eapply get_loc_inj; eassumption.
  - rewrite dated_missing; [reflexivity|].
    intros H. apply get_loc_In in H as [i H]. congruence.
Qed.

Lemma dated_dtype_other df name :
  name <> "Leverdatum" -> dtype_of (dated df) name = dtype_of df name.
Proof.
  intros Hne.
  destruct (get_loc (columns (content df)) "Leverdatum") as [i|] eqn:Hi.
  - unfold dtype_of. rewrite dated_columns.
    destruct (get_loc (columns (content df)) name) as [j|] eqn:Hj;
      [|reflexivity].
    destruct (dated_at to_datetime df i Hi) as [_ ->].
    apply nth_insert_ne. intros ->. apply Hne. eapply get_loc_inj; eassumption.
  - rewrite dated_missing; [reflexivity|].
    intros H. apply get_loc_In in H as [i H]. congruence.
Qed.

(** The delivery-date column after the call is the converted column. *)
Lemma dated_leverdatum df series :
  WellFormed df ->
  getitem (content df) "Leverdatum" = Ok series ->
  getitem (content (dated df)) "Leverdatum"
  = Ok (to_datetime (dtype_of df "Leverdatum") series)
  /\ dtype_of (dated df) "Leverdatum" = datetime64.
Proof.
  intros (Hdt & _ & Hrect) Hget. unfold getitem in Hget.
  destruct (get_loc (columns (content df)) "Leverdatum") as [i|] eqn:Hi;
    [|discriminate].
  injection Hget as <-.
  destruct (dated_at to_datetime df i Hi) as [Hrows Hdts].
  pose proof (get_loc_lt _ _ _ Hi) as Hlt.
  split.
  - unfold getitem. rewrite dated_columns, Hi, Hrows. f_equal.
    apply map2_set_cell_at.
    + now rewrite to_datetime_length, length_map.
    + intros r Hr. now rewrite (Hrect r Hr).
  - unfold dtype_of at 1. rewrite dated_columns, Hi, Hdts.
    apply nth_insert_eq. now rewrite Hdt.
Qed.

End FilterFrame.

(** ** Filtering what was filtered *)

Section FilterAgain.

Variable to_datetime : dtype -> list cell -> list cell.

#[local] Abbreviation dated := (dated to_datetime).
#[local] Abbreviation apply_filters := (apply_filters to_datetime).

Hypothesis to_datetime_ok : ToDatetime to_datetime.

(** The delivery-date column of the frame the call leaves. *)
Lemma dated_column df i :
  WellFormed df ->
  get_loc (columns (content df)) "Leverdatum" = Some i ->
  map (fun r => iat r i) (rows (content (dated df)))
  = to_datetime (dtype_of df "Leverdatum")
      (map (fun r => iat r i) (rows (content df))).
Proof.
  intros (_ & _ & Hrect) Hi.
  destruct to_datetime_ok as (Hlen & _).
  destruct (dated_at to_datetime df i Hi) as [Hrows _].
  pose proof (get_loc_lt _ _ _ Hi) as Hlt.
  rewrite Hrows. apply map2_set_cell_at.
  - now rewrite Hlen, length_map.
  - intros r0 Hr0. now rewrite (Hrect r0 Hr0).
Qed.

(** A selection of rows of the frame the call leaves is left as it is
    by the first statement of a further call. *)
Lemma dated_again df rs :
  WellFormed df ->
  sublist rs (rows (content (dated df))) ->
  dated (with_rows (dated df) rs) = with_rows (dated df) rs.
Proof.
  intros Hwf Hsub.
  destruct (get_loc (columns (content df)) "Leverdatum") as [i|] eqn:Hi.
  2:{ apply dated_missing. cbn [content columns with_rows].
      rewrite dated_columns. intros H. apply get_loc_In in H as [i H].
      congruence. }
  assert (Hi' : get_loc (columns (content (with_rows (dated df) rs)))
                  "Leverdatum" = Some i).
  { cbn [content columns with_rows]. now rewrite dated_columns. }
  destruct (dated_at to_datetime _ i Hi') as [Hrows Hdts].
  destruct (dated_at to_datetime df i Hi) as [_ Hdts0].
  pose proof (get_loc_lt _ _ _ Hi) as Hlt.
  pose proof (dated_column df i Hwf Hi) as Hcol.
  destruct Hwf as (Hdt & Hnd & Hrect).
  destruct to_datetime_ok as (_ & Hfix).
  assert (Hkind : dtype_of (with_rows (dated df) rs) "Leverdatum"
                  = datetime64).
  { unfold dtype_of. rewrite Hi'. cbn [dtypes with_rows]. rewrite Hdts0.
    apply nth_insert_eq. now rewrite Hdt. }
  cbn [content rows with_rows] in Hrows.
  rewrite Hkind in Hrows.
  rewrite (Hfix (dtype_of df "Leverdatum")
             (map (fun r => iat r i) (rows (content df)))) in Hrows.
  2:{ rewrite <- Hcol. now apply (fmap_sublist (fun r => iat r i)). }
  rewrite map2_set_cell_same in Hrows.
  cbn [dtypes with_rows] in Hdts.
  rewrite Hdts0, list_insert_insert_eq, <- Hdts0 in Hdts.
  pose proof (dated_columns to_datetime (with_rows (dated df) rs)) as Hcols.
  cbn [content columns with_rows] in Hcols.
  destruct (dated (with_rows (dated df) rs)) as [[cols rws] dts].
  cbn [content columns rows dtypes] in *. subst. reflexivity.
Qed.

End FilterAgain.

(** ** The claims about the filter *)

Section FilterClaims.

Variable to_datetime : dtype -> list cell -> list cell.

#[local] Abbreviation dated := (dated to_datetime).
#[local] Abbreviation apply_filters := (apply_filters to_datetime).

(** What a call that returns has found and done. *)
Lemma apply_filters_Returns today df flag df' out :
  apply_filters today df flag = (df', Returns out) ->
  df' = dated df
  /\ FilterColumns flag (content df)
  /\ searchable df' "Verantw. Werkplek" (rows (content df')) = true
  /\ (flag = true ->
      searchable df' "Omschrijving middel" (passing today (content df'))
      = true)
  /\ out = with_rows df'
             (List.filter (keep today flag (content df')) (rows (content df'))).
Proof.
  intros Hcall.
  assert (Hcols : FilterColumns flag (content df)).
  { apply (apply_filters_Returns_columns to_datetime today df flag out).
    now rewrite Hcall. }
  rewrite apply_filters_eq in Hcall by exact Hcols.
  injection Hcall as <- Hres. split; [reflexivity|]. split; [exact Hcols|].
  rewrite filter_keep.
  destruct (searchable (dated df) "Verantw. Werkplek" _); [|discriminate].
  split; [reflexivity|]. destruct flag.
  - destruct (searchable (dated df) "Omschrijving middel" _); [|discriminate].
    injection Hres as <-. now split.
  - injection Hres as <-. split; [discriminate | reflexivity].
Qed.

(** C2 (amended). When [apply_filters] returns, the delivery-date
    column of the table holds the converted dates, and a row of the table
    is among the returned rows exactly when: its workplace is text
    holding ["VKS"]; its status is exactly ["VRIJ"] or ["OPEN"]; its
    delivery date was converted to a moment not later than [today] (a
    date that cannot be read fails); and, only with the flag set, its
    description is not a text ending in digits and ["w"], where one line
    feed may follow the ["w"].  The returned rows are rows of the table,
    in their order. *)
Theorem apply_filters_survivors today df flag df' out :
  WellFormed df ->
  (forall dt series, length (to_datetime dt series) = length series) ->
  apply_filters today df flag = (df', Returns out) ->
  (exists series,
     getitem (content df) "Leverdatum" = Ok series
     /\ getitem (content df') "Leverdatum"
        = Ok (to_datetime (dtype_of df "Leverdatum") series))
  /\ sublist (rows (content out)) (rows (content df'))
  /\ forall r, In r (rows (content df')) ->
       (In r (rows (content out))
        <-> SurvivesWith EndsDigitsWLine (fun ns => (ns <= today)%Z) flag
              (content df') r).
Proof.
  intros Hwf Hlen Hcall.
  apply apply_filters_Returns in Hcall as (-> & Hcols & _ & _ & ->).
  split; [|split].
  - destruct Hcols as (HL & _). eexists.
    split; [now apply getitem_cell_of|].
    now apply dated_leverdatum; [| |apply getitem_cell_of].
  - cbn [content rows with_rows]. apply sublist_keep.
  - intros r Hr. cbn [content rows with_rows].
    rewrite filter_In, keep_SurvivesWith. tauto.
Qed.

(** C5 (amended). Whether it returns or raises, [apply_filters] leaves
    the caller's frame with the same labels and row identities and with
    every column but the delivery date as it was, and with the
    delivery-date column overwritten by the converted column.  When the
    columns it reads are there and searchable, it returns a frame of its
    own, and that frame has no rows when no row passes. *)
Theorem apply_filters_frame today df flag df' res :
  WellFormed df ->
  (forall dt series, length (to_datetime dt series) = length series) ->
  apply_filters today df flag = (df', res) ->
  columns (content df') = columns (content df)
  /\ labels (content df') = labels (content df)
  /\ (forall name, name <> "Leverdatum" ->
        getitem (content df') name = getitem (content df) name
        /\ dtype_of df' name = dtype_of df name)
  /\ (forall series,
        getitem (content df) "Leverdatum" = Ok series ->
        getitem (content df') "Leverdatum"
        = Ok (to_datetime (dtype_of df "Leverdatum") series))
  /\ (FilterColumns flag (content df) ->
      searchable df' "Verantw. Werkplek" (rows (content df')) = true ->
      (flag = true ->
       searchable df' "Omschrijving middel" (passing today (content df'))
       = true) ->
      exists out,
        res = Returns out
        /\ columns (content out) = columns (content df)
        /\ ((forall r, In r (rows (content df')) ->
               ~ SurvivesWith EndsDigitsWLine (fun ns => (ns <= today)%Z)
                   flag (content df') r) ->
            rows (content out) = [])).
Proof.
  intros Hwf Hlen Hcall.
  assert (Hfst : df' = dated df).
  { rewrite <- (apply_filters_fst to_datetime today df flag).
    now rewrite Hcall. }
  subst df'.
  split; [apply dated_columns|].
  split; [now apply dated_labels|].
  split.
  { intros name Hne.
    split; [now apply dated_getitem_other | now apply dated_dtype_other]. }
  split.
  { intros series Hget. now apply dated_leverdatum. }
  intros Hcols HW HO.
  rewrite apply_filters_eq in Hcall by exact Hcols.
  injection Hcall as <-. rewrite HW.
  exists (with_rows (dated df)
            (List.filter (keep today flag (content (dated df)))
               (rows (content (dated df))))).
  split.
  { rewrite filter_keep. destruct flag; [|reflexivity].
    now rewrite (HO eq_refl). }
  split; [apply dated_columns|].
  intros Hnone. cbn [content rows with_rows].
  apply filter_nothing. intros r Hr.
  apply not_true_iff_false. rewrite keep_SurvivesWith. now apply Hnone.
Qed.

(** C7 (amended). When [apply_filters] returns, the rows it returns are
    a sub-selection of the rows it was given, by row label and in the
    same order, each of them a row of the caller's frame as the call
    leaves it.  Filtering the returned frame again with the same flag, at
    the same moment or later, leaves that frame as it is and returns it
    unchanged - unless the flag is set and the description column of the
    returned frame is not searchable, in which case the second call
    raises [AttributeError]; it is searchable when every description left
    is a text or empty. *)
Theorem apply_filters_subset_idempotent t1 t2 df flag df' out :
  WellFormed df -> ToDatetime to_datetime -> (t1 <= t2)%Z ->
  apply_filters t1 df flag = (df', Returns out) ->
  sublist (labels (content out)) (labels (content df))
  /\ sublist (rows (content out)) (rows (content df'))
  /\ apply_filters t2 out flag
     = (out,
        if flag && negb (searchable out "Omschrijving middel"
                           (rows (content out)))
        then Raises attribute_error else Returns out)
  /\ ((forall r, In r (rows (content out)) ->
         cell_of (content out) r "Omschrijving middel" = NaN
         \/ exists s, cell_of (content out) r "Omschrijving middel" = Text s) ->
      apply_filters t2 out flag = (out, Returns out)).
Proof.
  intros Hwf Htd Hle Hcall.
  apply apply_filters_Returns in Hcall as (-> & Hcols & HW & HO & ->).
  set (D := dated df) in *.
  set (rs := List.filter (keep t1 flag (content D)) (rows (content D))).
  assert (Hsub : sublist rs (rows (content D))) by apply sublist_keep.
  assert (Hkeep : forall r, In r rs -> keep t2 flag (content D) r = true).
  { intros r Hr. apply filter_In in Hr as [_ Hr].
    eapply keep_later; eassumption. }
  assert (Hsecond :
    apply_filters t2 (with_rows D rs) flag
    = (with_rows D rs,
       if flag && negb (searchable (with_rows D rs) "Omschrijving middel" rs)
       then Raises attribute_error else Returns (with_rows D rs))).
  { rewrite apply_filters_eq
      by (unfold FilterColumns; cbn [content columns with_rows];
          unfold D; rewrite dated_columns; exact Hcols).
    unfold D. rewrite dated_again by assumption. fold D.
    cbn [content rows with_rows].
    assert (Hpass : passing t2 (content (with_rows D rs)) = rs).
    { unfold passing. cbn [content rows with_rows]. apply filter_all.
      intros r Hr. apply (keep_passes t2 flag). now apply Hkeep. }
    cbn [content with_rows] in Hpass. rewrite Hpass.
    assert (Hw : searchable (with_rows D rs) "Verantw. Werkplek" rs = true).
    { unfold searchable in *.
      change (dtype_of (with_rows D rs) "Verantw. Werkplek")
        with (dtype_of D "Verantw. Werkplek").
      rewrite (str_accessor_object _ _ HW). apply str_accessor_texts.
      apply forallb_forall. intros c Hc.
      apply in_map_iff in Hc as (r & <- & Hr).
      apply Hkeep, keep_passes in Hr. unfold passes in Hr.
      rewrite !andb_true_iff in Hr. destruct Hr as [[Hr _] _].
      rewrite cell_of_with_rows.
      now destruct (cell_of (content D) r "Verantw. Werkplek"). }
    rewrite Hw. f_equal. destruct flag; [|reflexivity]. cbn [andb].
    destruct (searchable (with_rows D rs) "Omschrijving middel" rs);
      [|reflexivity].
    cbn [negb]. do 2 f_equal. apply filter_all. intros r Hr.
    apply Hkeep in Hr. unfold keep in Hr.
    apply andb_true_iff in Hr as [_ Hr]. exact Hr. }
  split; [|split; [|split]].
  - cbn [content rows with_rows]. unfold D.
    rewrite <- (dated_labels to_datetime) by apply Htd.
    fold D. unfold labels, rs. apply sublist_map_filter.
  - cbn [content rows with_rows]. apply sublist_keep.
  - exact Hsecond.
  - intros Htexts. rewrite Hsecond. destruct flag; [|reflexivity].
    replace (searchable (with_rows D rs) "Omschrijving middel" rs) with true;
      [reflexivity|].
    symmetry. specialize (HO eq_refl). unfold searchable in *.
    change (dtype_of (with_rows D rs) "Omschrijving middel")
      with (dtype_of D "Omschrijving middel").
    rewrite (str_accessor_object _ _ HO). apply str_accessor_spec.
    destruct (dropna _) as [|c vals] eqn:E; [now left | right].
    assert (Hc : In c (dropna (map (fun r => cell_of (content (with_rows D rs))
                                       r "Omschrijving middel") rs)))
      by (rewrite E; now left).
    apply filter_In in Hc as [Hc Hna].
    apply in_map_iff in Hc as (r & <- & Hr).
    destruct (Htexts r Hr) as [Hnan|[s Hs]].
    + rewrite Hnan in Hna. discriminate.
    + rewrite Hs. now split.
Qed.

End FilterClaims.

(* ================================================================== *)
(** * The filter on the sample orders *)
(* ================================================================== *)

Ltac in_list := simpl; repeat first [left; reflexivity | right].

Ltac decide_closed :=
  match goal with
  | |- ?P => apply (bool_decide_eq_true_1 P); vm_compute; reflexivity
  end.

Ltac well_formed :=
  let r := fresh "r" in
  let H := fresh "H" in
  split; [reflexivity|];
  split; [apply NoDup_ListNoDup; decide_closed|];
  intros r H; simpl in H;
  repeat (destruct H as [<-|H]; [reflexivity|]); destruct H.

Lemma timestamps_only_length dt series :
  length (timestamps_only dt series) = length series.
Proof. apply length_map. Qed.

(** The stand-in behaves as the properties ask of the conversion. *)
Lemma timestamps_only_ok : ToDatetime timestamps_only.
Proof.
  split; [exact timestamps_only_length|].
  intros dt series selected Hsub. unfold timestamps_only at 1.
  rewrite <- (map_id selected) at 2. apply map_ext_in. intros c Hc.
  assert (Hin : In c (timestamps_only dt series)).
  { apply list_elem_of_In. eapply elem_of_sublist; [|exact Hsub].
    now apply list_elem_of_In. }
  apply in_map_iff in Hin as (c0 & <- & _).
  destruct c0 as [|s|z|ns]; try reflexivity.
  destruct ((- 2 ^ 63 <? ns)%Z && (ns <? 2 ^ 63)%Z) eqn:E; [|reflexivity].
  now rewrite E.
Qed.

Lemma apply_filters_survivors_sample :
  WellFormed (as_read sample_orders)
  /\ (forall dt series, length (timestamps_only dt series) = length series)
  /\ apply_filters timestamps_only 10 (as_read sample_orders) true
     = (orders_after, Returns orders_kept)
  /\ (exists series,
        getitem (content (as_read sample_orders)) "Leverdatum" = Ok series
        /\ getitem (content orders_after) "Leverdatum"
           = Ok (timestamps_only
                   (dtype_of (as_read sample_orders) "Leverdatum") series))
  /\ sublist (rows (content orders_kept)) (rows (content orders_after))
  /\ forall r, In r (rows (content orders_after)) ->
       (In r (rows (content orders_kept))
        <-> SurvivesWith EndsDigitsWLine (fun ns => (ns <= 10)%Z) true
              (content orders_after) r).
Proof.
  assert (H1 : WellFormed (as_read sample_orders)) by well_formed.
  assert (H2 : apply_filters timestamps_only 10 (as_read sample_orders) true
               = (orders_after, Returns orders_kept))
    by (vm_compute; reflexivity).
  split; [exact H1|]. split; [exact timestamps_only_length|].
  split; [exact H2|].
  exact (apply_filters_survivors timestamps_only 10 (as_read sample_orders)
           true orders_after orders_kept H1 timestamps_only_length H2).
Defined.

Lemma apply_filters_frame_sample :
  WellFormed (as_read sample_orders)
  /\ (forall dt series, length (timestamps_only dt series) = length series)
  /\ apply_filters timestamps_only 10 (as_read sample_orders) false
     = (orders_after, Returns orders_passing)
  /\ columns (content orders_after) = columns (content (as_read sample_orders))
  /\ labels (content orders_after) = labels (content (as_read sample_orders))
  /\ (forall name, name <> "Leverdatum" ->
        getitem (content orders_after) name
        = getitem (content (as_read sample_orders)) name
        /\ dtype_of orders_after name = dtype_of (as_read sample_orders) name)
  /\ (forall series,
        getitem (content (as_read sample_orders)) "Leverdatum" = Ok series ->
        getitem (content orders_after) "Leverdatum"
        = Ok (timestamps_only
                (dtype_of (as_read sample_orders) "Leverdatum") series))
  /\ (FilterColumns false (content (as_read sample_orders)) ->
      searchable orders_after "Verantw. Werkplek"
        (rows (content orders_after)) = true ->
      (false = true ->
       searchable orders_after "Omschrijving middel"
         (passing 10 (content orders_after)) = true) ->
      exists out,
        Returns orders_passing = Returns out
        /\ columns (content out) = columns (content (as_read sample_orders))
        /\ ((forall r, In r (rows (content orders_after)) ->
               ~ SurvivesWith EndsDigitsWLine (fun ns => (ns <= 10)%Z)
                   false (content orders_after) r) ->
            rows (content out) = [])).
Proof.
  assert (H1 : WellFormed (as_read sample_orders)) by well_formed.
  assert (H2 : apply_filters timestamps_only 10 (as_read sample_orders) false
               = (orders_after, Returns orders_passing))
    by (vm_compute; reflexivity).
  split; [exact H1|]. split; [exact timestamps_only_length|].
  split; [exact H2|].
  exact (apply_filters_frame timestamps_only 10 (as_read sample_orders)
           false orders_after (Returns orders_passing) H1
           timestamps_only_length H2).
Defined.

Lemma apply_filters_subset_idempotent_sample :
  WellFormed (as_read sample_orders) /\ ToDatetime timestamps_only
  /\ (10 <= 20)%Z
  /\ apply_filters timestamps_only 10 (as_read sample_orders) true
     = (orders_after, Returns orders_kept)
  /\ sublist (labels (content orders_kept))
       (labels (content (as_read sample_orders)))
  /\ sublist (rows (content orders_kept)) (rows (content orders_after))
  /\ apply_filters timestamps_only 20 orders_kept true
     = (orders_kept,
        if true && negb (searchable orders_kept "Omschrijving middel"
                           (rows (content orders_kept)))
        then Raises attribute_error else Returns orders_kept)
  /\ ((forall r, In r (rows (content orders_kept)) ->
         cell_of (content orders_kept) r "Omschrijving middel" = NaN
         \/ exists s,
              cell_of (content orders_kept) r "Omschrijving middel" = Text s) ->
      apply_filters timestamps_only 20 orders_kept true
      = (orders_kept, Returns orders_kept)).
Proof.
  assert (H1 : WellFormed (as_read sample_orders)) by well_formed.
  assert (Hle : (10 <= 20)%Z) by lia.
  assert (H2 : apply_filters timestamps_only 10 (as_read sample_orders) true
               = (orders_after, Returns orders_kept))
    by (vm_compute; reflexivity).
  split; [exact H1|]. split; [exact timestamps_only_ok|].
  split; [exact Hle|]. split; [exact H2|].
  exact (apply_filters_subset_idempotent timestamps_only 10 20
           (as_read sample_orders) true orders_after orders_kept H1
           timestamps_only_ok Hle H2).
Defined.

(** The sample orders through the filter, flag set: only the first order
    stays; the second has no readable date, the third ends in ["12w"],
    the fourth has no workplace. *)
Example apply_filters_sample_orders :
  snd (apply_filters timestamps_only 10 (as_read sample_orders) true)
  = Returns orders_kept
  /\ rows (content orders_kept)
     = [{| label := 0;
           values := [Text "Jan"; Text "VKS-01"; Text "OPEN"; Timestamp 5;
                      Text "pomp"; Num 41] |}].
Proof. split; vm_compute; reflexivity. Qed.

Lemma not_EndsDigitsW_12w_newline :
  ~ EndsDigitsW ("12w" +:+ String Str.LF "").
Proof.
  intros Hends. apply EndsDigitsW_last in Hends as [p Hp].
  do 4 (destruct p as [|? p]; simpl in Hp; [discriminate|];
        injection Hp as _ Hp).
  destruct p; discriminate.
Qed.

(** C2 as stated fails, in three ways.  A description ["12w"] followed
    by a line feed does not end in digits and ["w"], the row meets the
    three fixed conditions, and the flagged filter removes it.  An order
    due at 15:00 is due on the current date when the call is made at
    10:00 of that day, and the filter removes it.  And an order whose
    description is a number has no description matching the pattern, but
    on a description column of numbers the flagged call raises and no row
    survives. *)
Lemma apply_filters_not_as_stated :
  (In order_12w_newline (rows (content (as_read sample_newline)))
   /\ SurvivesWith EndsDigitsW (fun ns => (day_of ns <= day_of 10)%Z) true
        (content (as_read sample_newline)) order_12w_newline
   /\ apply_filters timestamps_only 10 (as_read sample_newline) true
      = (as_read sample_newline,
         Returns (with_rows (as_read sample_newline) [])))
  /\ (In order_due_at_three (rows (content (as_read sample_same_day)))
      /\ SurvivesWith EndsDigitsW
           (fun ns => (day_of ns <= day_of 36000000000000)%Z) true
           (content (as_read sample_same_day)) order_due_at_three
      /\ apply_filters timestamps_only 36000000000000
           (as_read sample_same_day) true
         = (as_read sample_same_day,
            Returns (with_rows (as_read sample_same_day) [])))
  /\ (In order_numbered (rows (content (as_read sample_numbered)))
      /\ SurvivesWith EndsDigitsW (fun ns => (day_of ns <= day_of 10)%Z) true
           (content (as_read sample_numbered)) order_numbered
      /\ apply_filters timestamps_only 10 (as_read sample_numbered) true
         = (as_read sample_numbered, Raises attribute_error)).
Proof.
  split; [|split].
  - split; [now left|]. split; [|vm_compute; reflexivity].
    unfold SurvivesWith. repeat split.
    + exists "VKS-01". split; [reflexivity|]. now exists "", "-01".
    + now right.
    + exists 5%Z. split; [reflexivity | vm_compute; discriminate].
    + intros _ (s & Hs & Hends). vm_compute in Hs. injection Hs as Hs.
      subst s. now apply not_EndsDigitsW_12w_newline.
  - split; [now left|]. split; [|vm_compute; reflexivity].
    unfold SurvivesWith. repeat split.
    + exists "VKS-01". split; [reflexivity|]. now exists "", "-01".
    + now right.
    + exists 54000000000000%Z.
      split; [reflexivity | vm_compute; discriminate].
    + intros _ (s & Hs & Hends). vm_compute in Hs. injection Hs as Hs.
      subst s. apply EndsDigitsW_last in Hends as [p Hp].
      do 4 (destruct p as [|? p]; simpl in Hp; [discriminate|];
            injection Hp as _ Hp).
      destruct p; discriminate.
  - split; [now left|]. split; [|vm_compute; reflexivity].
    unfold SurvivesWith. repeat split.
    + exists "VKS-01". split; [reflexivity|]. now exists "", "-01".
    + now right.
    + exists 5%Z. split; [reflexivity | vm_compute; discriminate].
    + intros _ (s & Hs & _). vm_compute in Hs. discriminate Hs.
Qed.

(** C5 as stated fails, in two ways.  After the call the caller's
    delivery-date column holds the converted dates, here an empty cell
    where the text was.  And on a table whose only order has no
    workplace, so that no row passes, the call raises instead of
    returning a table without rows. *)
Lemma apply_filters_overwrites_leverdatum :
  (getitem (content (as_read sample_orders)) "Leverdatum"
   = Ok [Timestamp 5; Text "geen datum"; Timestamp 7; Timestamp 7]
   /\ apply_filters timestamps_only 10 (as_read sample_orders) false
      = (orders_after, Returns orders_passing)
   /\ getitem (content orders_after) "Leverdatum"
      = Ok [Timestamp 5; NaN; Timestamp 7; Timestamp 7]
   /\ orders_after <> as_read sample_orders)
  /\ ((forall r, In r (rows (content (as_read sample_no_workplace))) ->
         ~ SurvivesWith EndsDigitsW (fun ns => (day_of ns <= day_of 10)%Z)
             false (content (as_read sample_no_workplace)) r)
      /\ apply_filters timestamps_only 10 (as_read sample_no_workplace) false
         = (as_read sample_no_workplace, Raises attribute_error)).
Proof.
  split.
  - split; [reflexivity|]. split; [vm_compute; reflexivity|].
    split; [reflexivity|]. intros H.
    apply (f_equal (fun d => getitem (content d) "Leverdatum")) in H.
    vm_compute in H. discriminate H.
  - split; [|vm_compute; reflexivity].
    intros r [<-|[]] ((s & Hs & _) & _). vm_compute in Hs. discriminate Hs.
Qed.

(** C7 as stated fails: of two orders that pass the fixed tests, the
    flagged filter removes the one whose description ends in ["12w"] and
    returns the one whose description is a number; filtering that result
    again with the flag raises, the description column holding a number
    and no text. *)
Lemma apply_filters_twice_raises :
  apply_filters timestamps_only 10 (as_read sample_mixed_descriptions) true
  = (mixed_after, Returns mixed_kept)
  /\ map label (rows (content mixed_kept)) = [1]
  /\ apply_filters timestamps_only 10 mixed_kept true
     = (mixed_kept, Raises attribute_error).
Proof. repeat split; vm_compute; reflexivity. Qed.

(* ================================================================== *)
(** * Grouping by assignee *)
(* ================================================================== *)

Lemma cell_leb_total a b : cell_leb a b = true \/ cell_leb b a = true.
Proof.
  destruct a as [|x|x|x], b as [|y|y|y]; simpl; auto.
  - apply String.leb_total.
  - destruct (Z.leb_spec x y); [now left | right; apply Z.leb_le; lia].
  - destruct (Z.leb_spec x y); [now left | right; apply Z.leb_le; lia].
Qed.

Lemma insert_key_perm k keys : Permutation (insert_key k keys) (k :: keys).
Proof.
  induction keys as [|k' keys IH]; simpl; [reflexivity|].
  destruct (cell_leb k k'); [reflexivity|].
  rewrite IH. apply perm_swap.
Qed.

Lemma sort_keys_perm keys : Permutation (sort_keys keys) keys.
Proof.
  induction keys as [|k keys IH]; simpl; [reflexivity|].
  now rewrite insert_key_perm, IH.
Qed.

Lemma insert_key_HdRel a k keys :
  cell_le a k -> HdRel cell_le a keys -> HdRel cell_le a (insert_key k keys).
Proof.
  intros Hak Hhd. destruct keys as [|k' keys]; simpl; [now constructor|].
  destruct (cell_leb k k'); constructor; [exact Hak|].
  now inversion Hhd.
Qed.

Lemma insert_key_sorted k keys :
  Sorted cell_le keys -> Sorted cell_le (insert_key k keys).
Proof.
  induction keys as [|k' keys IH]; simpl; intros Hs.
  - repeat constructor.
  - destruct (cell_leb k k') eqn:Hle.
    + constructor; [exact Hs | now constructor].
    + inversion Hs as [|? ? Hs' Hhd]; subst.
      constructor; [now apply IH|].
      apply insert_key_HdRel; [|exact Hhd].
      destruct (cell_leb_total k k') as [H|H]; [congruence | exact H].
Qed.

Lemma sort_keys_sorted keys : Sorted cell_le (sort_keys keys).
Proof.
  induction keys as [|k keys IH]; simpl;
    [constructor | now apply insert_key_sorted].
Qed.

Lemma In_unique x xs : In x (unique xs) <-> In x xs.
Proof.
  induction xs as [|y xs IH]; simpl; [reflexivity|].
  rewrite filter_In, IH, negb_true_iff, bool_decide_eq_false.
  destruct (decide (x = y)) as [->|Hne]; [tauto|].
  split; [intros [H|[H _]]; auto | intros [H|H]; [auto | right; auto]].
Qed.

Lemma NoDup_filter_list {A : Type} (p : A -> bool) (l : list A) :
  List.NoDup l -> List.NoDup (List.filter p l).
Proof.
  induction 1 as [|x l Hx Hl IH]; simpl; [constructor|].
  destruct (p x); [|exact IH].
  constructor; [|exact IH]. rewrite filter_In. tauto.
Qed.

Lemma NoDup_unique xs : List.NoDup (unique xs).
Proof.
  induction xs as [|y xs IH]; simpl; constructor.
  - rewrite filter_In, negb_true_iff, bool_decide_eq_false. tauto.
  - now apply NoDup_filter_list.
Qed.

Lemma In_dropna c series : In c (dropna series) <-> c <> NaN /\ In c series.
Proof.
  unfold dropna. rewrite filter_In, negb_true_iff.
  destruct c; simpl; split; intros []; split; congruence.
Qed.

(** The keys [groupby] iterates over. *)
Lemma group_keys_spec series :
  let keys := sort_keys (dropna (unique series)) in
  List.NoDup keys /\ Sorted cell_le keys
  /\ forall k, In k keys <-> k <> NaN /\ In k series.
Proof.
  simpl. split; [|split].
  - eapply Permutation_NoDup; [symmetry; apply sort_keys_perm|].
    apply NoDup_filter_list, NoDup_unique.
  - apply sort_keys_sorted.
  - intros k. rewrite <- (In_unique k series), <- In_dropna.
    split; apply Permutation_in;
      [apply sort_keys_perm | symmetry; apply sort_keys_perm].
Qed.

Lemma eq_elem_decide k c :
  k <> NaN -> eq_elem k c = bool_decide (c = k).
Proof.
  intros Hk. unfold eq_elem. destruct k; [congruence|..];
    destruct c; simpl; try reflexivity;
    apply bool_decide_ext; split; congruence.
Qed.

Lemma groupby_eq df by_ :
  In by_ (columns df) ->
  groupby df by_ =
  Ok (map (fun k => (k, {| columns := columns df;
                           rows := List.filter
                                     (fun r => eq_elem k (cell_of df r by_))
                                     (rows df) |}))
          (sort_keys (dropna (unique
             (map (fun r => cell_of df r by_) (rows df)))))).
Proof.
  intros H. unfold groupby. rewrite getitem_cell_of by exact H.
  cbn [mbind result_bind]. f_equal. apply map_ext. intros k.
  unfold loc_mask. now rewrite map_map, select_map.
Qed.

Lemma filter_orb_length {A : Type} (p q : A -> bool) (l : list A) :
  (forall x, In x l -> p x = true -> q x = false) ->
  length (List.filter (fun x => p x || q x) l)
  = length (List.filter p l) + length (List.filter q l).
Proof.
  induction l as [|x l IH]; simpl; intros Hdis; [reflexivity|].
  assert (IH' := IH (fun y Hy => Hdis y (or_intror Hy))).
  destruct (p x) eqn:Hp; simpl.
  - rewrite (Hdis x (or_introl eq_refl) Hp). simpl. now rewrite IH'.
  - destruct (q x); simpl; rewrite IH'; lia.
Qed.

Lemma existsb_decide_In (c : cell) keys :
  existsb (fun k => bool_decide (c = k)) keys = true <-> In c keys.
Proof.
  rewrite existsb_exists. split.
  - intros (k & Hk & Heq). apply bool_decide_eq_true in Heq. now subst.
  - intros H. exists c. split; [exact H | now apply bool_decide_eq_true].
Qed.

(** Counting per key and adding up counts the rows whose key is listed. *)
Lemma sum_counts {A : Type} (f : A -> cell) (l : list A) keys :
  List.NoDup keys ->
  sum_nat (map (fun k => length
                  (List.filter (fun r => bool_decide (f r = k)) l)) keys)
  = length (List.filter
              (fun r => existsb (fun k => bool_decide (f r = k)) keys) l).
Proof.
  induction 1 as [|k keys Hk Hnd IH]; simpl.
  - induction l as [|r l IHl]; [reflexivity | exact IHl].
  - rewrite IH. symmetry. apply filter_orb_length.
    intros r _ Heq. apply bool_decide_eq_true in Heq. subst k.
    apply not_true_iff_false. now rewrite existsb_decide_In.
Qed.

(** C4 (amended). With a ["Naam"] column present,
    [create_aggregated_data] returns one row per distinct assignee that
    is not missing (the empty text is a key like any other; rows without
    an assignee are left out), holding the assignee and the number of
    rows with that assignee; the rows come in ascending order of the
    assignee, not in order of first appearance; and the counts add up to
    the number of rows that have an assignee. *)
Theorem create_aggregated_data_counts df :
  In "Naam" (columns df) ->
  exists agg keys,
    create_aggregated_data df = Ok agg
    /\ columns agg = ["Naam"; "Aantal Taken"]
    /\ map values (rows agg)
       = map (fun k => [k; Num (Z.of_nat (count_rows df k))]) keys
    /\ List.NoDup keys
    /\ (forall k, In k keys <->
          k <> NaN /\ exists r, In r (rows df) /\ cell_of df r "Naam" = k)
    /\ Sorted cell_le keys
    /\ sum_nat (map (count_rows df) keys)
       = length (List.filter
                   (fun r => negb (isna (cell_of df r "Naam"))) (rows df)).
Proof.
  intros HN. unfold create_aggregated_data.
  rewrite groupby_eq by exact HN. cbn [mbind result_bind].
  set (series := map (fun r => cell_of df r "Naam") (rows df)).
  destruct (group_keys_spec series) as (Hnd & Hsorted & Hin).
  set (keys := sort_keys (dropna (unique series))) in *.
  assert (Hmem : forall k, In k keys <->
            k <> NaN /\ exists r, In r (rows df) /\ cell_of df r "Naam" = k).
  { intros k. rewrite Hin. unfold series. rewrite in_map_iff.
    split; intros [Hk (r & H1 & H2)]; (split; [exact Hk|]); now exists r. }
  eexists. exists keys. split; [reflexivity|]. split; [reflexivity|].
  split.
  { cbn [rows]. rewrite values_range_index, map_map.
    apply map_ext_in. intros k Hk. cbn [fst snd rows].
    do 3 f_equal. unfold count_rows. do 2 f_equal. apply List.filter_ext.
    intros r. apply eq_elem_decide. now apply Hmem in Hk. }
  split; [exact Hnd|]. split; [exact Hmem|]. split; [exact Hsorted|].
  unfold count_rows. rewrite sum_counts by exact Hnd.
  f_equal. apply filter_ext_in. intros r Hr.
  apply eq_true_iff_eq. rewrite existsb_decide_In, Hmem, negb_true_iff.
  split.
  - intros [Hne _]. now destruct (cell_of df r "Naam").
  - intros Hna. split; [intros Heq; now rewrite Heq in Hna | now exists r].
Qed.

Lemma create_aggregated_data_counts_sample :
  In "Naam" (columns sample_names) /\
  exists agg keys,
    create_aggregated_data sample_names = Ok agg
    /\ columns agg = ["Naam"; "Aantal Taken"]
    /\ map values (rows agg)
       = map (fun k => [k; Num (Z.of_nat (count_rows sample_names k))]) keys
    /\ List.NoDup keys
    /\ (forall k, In k keys <->
          k <> NaN /\ exists r, In r (rows sample_names)
                                /\ cell_of sample_names r "Naam" = k)
    /\ Sorted cell_le keys
    /\ sum_nat (map (count_rows sample_names) keys)
       = length (List.filter
                   (fun r => negb (isna (cell_of sample_names r "Naam")))
                   (rows sample_names)).
Proof.
  assert (H : In "Naam" (columns sample_names)) by in_list.
  split; [exact H | exact (create_aggregated_data_counts sample_names H)].
Defined.

(** C4 as stated fails: on assignees Piet, Jan, (none), Piet the result
    lists Jan before Piet although Piet appears first, has no row for
    the missing assignee, and its counts add up to 3 for 4 rows. *)
Lemma create_aggregated_data_sorts_and_drops :
  create_aggregated_data sample_names
  = Ok (frame ["Naam"; "Aantal Taken"]
          [[Text "Jan"; Num 1]; [Text "Piet"; Num 2]])
  /\ unique (map (fun r => cell_of sample_names r "Naam") (rows sample_names))
     = [Text "Piet"; Text "Jan"; NaN]
  /\ length (rows sample_names) = 4.
Proof. repeat split; vm_compute; reflexivity. Qed.

(* ================================================================== *)
(** * Projection and grouping *)
(* ================================================================== *)

Lemma get_locs_ok cols selected :
  (forall c, In c selected -> In c cols) ->
  exists locs, get_locs cols selected = Ok locs.
Proof.
  induction selected as [|c selected IH]; simpl; intros H; [now eexists|].
  destruct (get_loc_In cols c) as [i ->]; [apply H; now left|].
  destruct IH as [locs ->]; [intros; apply H; now right|].
  now eexists.
Qed.

Lemma fold_add_group groups : forall combined grouped,
  exists combined',
    fold_left add_group groups (combined, grouped)
    = (combined', (grouped ++ groups)%list)
    /\ columns combined' = columns combined.
Proof.
  induction groups as [|g groups IH]; intros combined grouped; simpl.
  - exists combined. now rewrite app_nil_r.
  - unfold add_group at 2. simpl.
    destruct (IH (concat_ignore_index combined (snd g))
                 (grouped ++ [g])%list) as (c' & -> & Hc).
    exists c'. split; [now rewrite <- app_assoc | exact Hc].
Qed.

(** C8 (amended). With no column selected, [process_filtered_data] does
    not return groups without columns: whatever the table, the call
    fails with the missing-column error for ["Naam"], the column by which
    it groups the projected table. *)
Theorem process_filtered_data_selection df :
  process_filtered_data df [] true = KeyError "Naam".
Proof.
  unfold process_filtered_data, getitem_list.
  cbn [get_locs mbind result_bind]. unfold groupby.
  rewrite getitem_missing; [reflexivity|]. cbn [columns]. intros [].
Qed.

(** The sample regrouped on two columns: Jan's row, then Piet's two. *)
Example process_filtered_data_sample :
  exists groups,
    process_filtered_data sample_names ["OH-order"; "Naam"] true
    = Ok (frame ["OH-order"; "Naam"]
            [[Num 2; Text "Jan"]; [Num 1; Text "Piet"]; [Num 4; Text "Piet"]],
          Some groups)
    /\ map fst groups = [Text "Jan"; Text "Piet"].
Proof. eexists. split; vm_compute; reflexivity. Qed.

(** C8 as stated fails: with no column selected the call does not
    return degenerate groups, it fails on the grouping column. *)
Lemma process_filtered_data_empty_selection_fails :
  process_filtered_data sample_orders [] true = KeyError "Naam".
Proof. reflexivity. Qed.

(* ================================================================== *)
(** * The percentage *)
(* ================================================================== *)

Section Percentage.

Variable rnd : Q -> Q.

(** Rounding to the nearest float is monotone and leaves the whole
    numbers up to 100 alone. *)
Hypothesis rnd_mono : forall x y, (x <= y)%Q -> (rnd x <= rnd y)%Q.
Hypothesis rnd_whole :
  forall z, (0 <= z <= 100)%Z -> (rnd (inject_Z z) == inject_Z z)%Q.

Lemma rnd_between (lo hi : Z) x :
  (0 <= lo <= 100)%Z -> (0 <= hi <= 100)%Z ->
  (inject_Z lo <= x <= inject_Z hi)%Q ->
  (inject_Z lo <= rnd x <= inject_Z hi)%Q.
Proof.
  intros Hlo Hhi [H1 H2]. split.
  - rewrite <- (rnd_whole lo Hlo). now apply rnd_mono.
  - rewrite <- (rnd_whole hi Hhi). now apply rnd_mono.
Qed.

Lemma round_half_even_between (a b : Z) q :
  (inject_Z a <= q <= inject_Z b)%Q ->
  (a <= round_half_even q <= b)%Z.
Proof.
  intros [Ha Hb]. unfold round_half_even.
  assert (Hfa : (a <= Qfloor q)%Z).
  { rewrite <- (Qfloor_Z a). now apply Qfloor_resp_le. }
  assert (Hfb : (Qfloor q <= b)%Z).
  { rewrite <- (Qfloor_Z b). now apply Qfloor_resp_le. }
  assert (Hup : (0 < q - inject_Z (Qfloor q))%Q -> (Qfloor q + 1 <= b)%Z).
  { intros Hpos.
    assert (Hlt : (inject_Z (Qfloor q) < inject_Z b)%Q) by lra.
    rewrite <- Zlt_Qlt in Hlt. lia. }
  destruct (Qcompare_spec (q - inject_Z (Qfloor q)) (1 # 2)) as [He|Hl|Hg].
  - destruct (Z.even (Qfloor q)); [lia|].
    split; [lia | apply Hup; lra].
  - lia.
  - split; [lia | apply Hup; lra].
Qed.

(** The float computation of the percentage stays within [0, 100 u]
    when the exact quotient lies within [0, u], for [u] at most 1. *)
Lemma round1_percent_between (u : Z) x :
  (0 <= u <= 1)%Z -> (0 <= x <= inject_Z u)%Q ->
  (0 <= round1 rnd (fmul rnd (rnd x) 100) <= inject_Z (100 * u))%Q.
Proof.
  intros Hu Hx. unfold round1, fmul.
  assert (H1 : (inject_Z 0 <= rnd x <= inject_Z u)%Q).
  { apply rnd_between; [lia | lia | exact Hx]. }
  assert (H2 : (inject_Z 0 <= rnd (rnd x * 100) <= inject_Z (100 * u))%Q).
  { apply rnd_between; [lia | lia |].
    rewrite inject_Z_mult. change (inject_Z 0) with 0%Q in *.
    change (inject_Z 100) with 100%Q. lra. }
  assert (H3 : (0 <= round_half_even (rnd (rnd x * 100) * 10)
                <= 1000 * u)%Z).
  { apply round_half_even_between.
    replace (1000 * u)%Z with (100 * u * 10)%Z by lia.
    rewrite (inject_Z_mult (100 * u) 10).
    change (inject_Z 0) with 0%Q in *. change (inject_Z 10) with 10%Q. lra. }
  change 0%Q with (inject_Z 0).
  apply rnd_between; [lia | lia |].
  destruct H3 as [H3 H4]. rewrite Zle_Qle in H3, H4.
  rewrite inject_Z_mult in H4. rewrite inject_Z_mult.
  change (inject_Z 0) with 0%Q in *. change (inject_Z 1000) with 1000%Q in H4.
  change (inject_Z 100) with 100%Q.
  split.
  - apply Qle_shift_div_l; lra.
  - apply Qle_shift_div_r; lra.
Qed.

Lemma quotient_between (e p : nat) :
  0 < p -> e <= p ->
  (0 <= inject_Z (Z.of_nat e) / inject_Z (Z.of_nat p) <= inject_Z 1)%Q.
Proof.
  intros Hp Hep.
  assert (H0 : (0 < inject_Z (Z.of_nat p))%Q).
  { change 0%Q with (inject_Z 0). rewrite <- Zlt_Qlt. lia. }
  assert (H1 : (0 <= inject_Z (Z.of_nat e))%Q).
  { change 0%Q with (inject_Z 0). rewrite <- Zle_Qle. lia. }
  assert (H2 : (inject_Z (Z.of_nat e) <= inject_Z (Z.of_nat p))%Q).
  { rewrite <- Zle_Qle. lia. }
  change (inject_Z 1) with 1%Q. split.
  - apply Qle_shift_div_l; lra.
  - apply Qle_shift_div_r; lra.
Qed.

Lemma percentage_of_range e p :
  e <= p -> (0 <= percentage_of rnd e p <= 100)%Q.
Proof.
  intros Hep. unfold percentage_of, fdiv.
  destruct (Nat.ltb_spec 0 p) as [Hp|Hp]; [|lra].
  apply (round1_percent_between 1); [lia|].
  now apply quotient_between.
Qed.

Lemma percentage_of_no_previous e : (percentage_of rnd e 0 == 0)%Q.
Proof. reflexivity. Qed.

Lemma percentage_of_none_edited p : (percentage_of rnd 0 p == 0)%Q.
Proof.
  unfold percentage_of, fdiv.
  destruct (Nat.ltb_spec 0 p) as [Hp|Hp]; [|reflexivity].
  assert (H : (0 <= round1 rnd (fmul rnd
                 (rnd (inject_Z (Z.of_nat 0) / inject_Z (Z.of_nat p))) 100)
               <= inject_Z (100 * 0))%Q).
  { apply round1_percent_between; [lia|].
    change (inject_Z (Z.of_nat 0)) with 0%Q. change (inject_Z 0) with 0%Q.
    assert (Hz : (0 / inject_Z (Z.of_nat p) == 0)%Q) by (unfold Qdiv; ring).
    rewrite Hz. lra. }
  change (inject_Z (100 * 0)) with 0%Q in H. lra.
Qed.

End Percentage.

(* ================================================================== *)
(** * The comparison *)
(* ================================================================== *)

Lemma find_first {A : Type} (f : A -> bool) (l : list A) x :
  List.find f l = Some x ->
  exists before after,
    l = (before ++ x :: after)%list /\ f x = true
    /\ forall c, In c before -> f c = false.
Proof.
  induction l as [|y l IH]; simpl; [discriminate|].
  destruct (f y) eqn:Hy.
  - intros [= <-]. exists [], l. repeat split; [exact Hy | intros c []].
  - intros H. destruct (IH H) as (before & after & -> & Hx & Hb).
    exists (y :: before), after. repeat split; [exact Hx|].
    intros c [<-|Hc]; [exact Hy | now apply Hb].
Qed.

(** The column [pick_ob_col] settles on is the one the specification
    names. *)
Lemma pick_ob_col_spec cols : IdentifierColumn cols (pick_ob_col cols).
Proof.
  unfold pick_ob_col, IdentifierColumn.
  destruct (List.find _ cols) as [col|] eqn:Hfind.
  - apply find_first in Hfind as (before & after & -> & Hcol & Hb).
    destruct (String.eqb_spec col "") as [->|Hne]; [discriminate Hcol|].
    left. exists before, after. repeat split.
    + now apply contains_Occurs.
    + intros c Hc Hocc. apply contains_Occurs in Hocc.
      rewrite (Hb c Hc) in Hocc. discriminate.
  - right. split; [reflexivity|]. intros c Hc Hocc.
    apply contains_Occurs in Hocc.
    pose proof (find_none _ _ Hfind c Hc) as Hnone. simpl in Hnone.
    congruence.
Qed.

Lemma eq_elem_decide_r c name :
  name <> NaN -> eq_elem c name = bool_decide (c = name).
Proof.
  intros Hk. unfold eq_elem. destruct name; [congruence|..];
    destruct c; simpl; try reflexivity;
    apply bool_decide_ext; split; congruence.
Qed.

Lemma eq_elem_NaN c : eq_elem c NaN = false.
Proof. unfold eq_elem. simpl. now rewrite andb_false_r. Qed.

Lemma filter_none {A : Type} (l : list A) :
  List.filter (fun _ => false) l = [].
Proof. induction l; [reflexivity | assumption]. Qed.

Section ComparisonFacts.

Variable timestamp_str : Z -> string.
Variable set_iter : gset string -> list string.
Variable rnd : Q -> Q.

#[local] Abbreviation compare_name := (compare_name timestamp_str set_iter rnd).
#[local] Abbreviation for_names := (for_names timestamp_str set_iter rnd).
#[local] Abbreviation compare_tasks_grouped_by_name :=
  (compare_tasks_grouped_by_name timestamp_str set_iter rnd).
#[local] Abbreviation row_for := (row_for timestamp_str set_iter rnd).
#[local] Abbreviation compared_ids := (compared_ids timestamp_str).

Lemma tasks_of_eq df name :
  In "Naam" (columns df) ->
  tasks_of df name =
  Ok {| columns := columns df;
        rows := List.filter (fun r => eq_elem (cell_of df r "Naam") name)
                  (rows df) |}.
Proof.
  intros H. unfold tasks_of. rewrite getitem_cell_of by exact H.
  cbn [mbind result_bind]. unfold loc_mask.
  now rewrite map_map, select_map.
Qed.

(** The set built by the loop body is the set of the specification, and
    empty for the missing assignee. *)
Lemma id_set_compared df ob_col name :
  In ob_col (columns df) ->
  id_set timestamp_str
    {| columns := columns df;
       rows := List.filter (fun r => eq_elem (cell_of df r "Naam") name)
                 (rows df) |} ob_col
  = Ok (compared_ids df ob_col name).
Proof.
  intros H. unfold id_set.
  set (tasks := {| columns := columns df; rows := _ |}).
  rewrite (getitem_cell_of tasks) by exact H.
  change (fun r => cell_of tasks r ob_col) with (fun r => cell_of df r ob_col).
  subst tasks. cbn [mbind result_bind rows]. f_equal.
  unfold dropna. rewrite filter_map_comm, map_map, filter_filter.
  unfold compared_ids. destruct (isna name) eqn:Hna.
  - destruct name; try discriminate.
    rewrite (List.filter_ext _ (fun _ => false)), filter_none; [reflexivity|].
    intros r. now rewrite eq_elem_NaN.
  - unfold ids_of. f_equal. f_equal.
    apply List.filter_ext. intros r. f_equal.
    apply eq_elem_decide_r. intros ->. discriminate.
Qed.

Lemma compare_name_eq current_df previous_df ob_col name :
  In "Naam" (columns current_df) -> In "Naam" (columns previous_df) ->
  In ob_col (columns current_df) -> In ob_col (columns previous_df) ->
  compare_name current_df previous_df ob_col name
  = Ok (row_for current_df previous_df ob_col name).
Proof.
  intros HNc HNp Hoc Hop. unfold compare_name.
  rewrite !tasks_of_eq by assumption. cbn [mbind result_bind].
  rewrite !id_set_compared by assumption. reflexivity.
Qed.

Lemma for_names_eq current_df previous_df ob_col names :
  In "Naam" (columns current_df) -> In "Naam" (columns previous_df) ->
  In ob_col (columns current_df) -> In ob_col (columns previous_df) ->
  for_names current_df previous_df ob_col names
  = Ok (map (row_for current_df previous_df ob_col) names).
Proof.
  intros HNc HNp Hoc Hop. induction names as [|name names IH]; simpl;
    [reflexivity|].
  rewrite compare_name_eq by assumption. cbn [mbind result_bind].
  now rewrite IH.
Qed.

(** The comparison in closed form, when every column it reads is there. *)
Lemma compare_eq current_df previous_df :
  In "Naam" (columns current_df) -> In "Naam" (columns previous_df) ->
  In (pick_ob_col (columns current_df)) (columns current_df) ->
  In (pick_ob_col (columns current_df)) (columns previous_df) ->
  compare_tasks_grouped_by_name current_df previous_df
  = Ok (map (row_for current_df previous_df
               (pick_ob_col (columns current_df)))
            (unique (names_of current_df ++ names_of previous_df))).
Proof.
  intros HNc HNp Hoc Hop. unfold compare_tasks_grouped_by_name.
  rewrite !getitem_cell_of by assumption. cbn [mbind result_bind].
  now apply for_names_eq.
Qed.

(** Whatever the columns, a row the loop body returns carries counts of
    two sets and the percentage computed from them. *)
Lemma compare_name_fields current_df previous_df ob_col name row :
  compare_name current_df previous_df ob_col name = Ok row ->
  exists C P : gset string,
    edited_tasks row = size (P ∖ C) /\ previous_total row = size P
    /\ percentage row = percentage_of rnd (size (P ∖ C)) (size P).
Proof.
  unfold compare_name.
  destruct (tasks_of current_df name) as [ct|]; [|discriminate].
  destruct (tasks_of previous_df name) as [pt|]; [|discriminate].
  cbn [mbind result_bind].
  destruct (id_set timestamp_str ct ob_col) as [C|]; [|discriminate].
  destruct (id_set timestamp_str pt ob_col) as [P|]; [|discriminate].
  cbn [mbind result_bind]. intros [= <-]. now exists C, P.
Qed.

Lemma for_names_rows current_df previous_df ob_col names out :
  for_names current_df previous_df ob_col names = Ok out ->
  forall row, In row out ->
    exists name, In name names
      /\ compare_name current_df previous_df ob_col name = Ok row.
Proof.
  revert out. induction names as [|name names IH]; simpl; intros out.
  - intros [= <-] row [].
  - destruct (compare_name current_df previous_df ob_col name) as [r|] eqn:Hr;
      [|discriminate].
    cbn [mbind result_bind].
    destruct (for_names current_df previous_df ob_col names) as [rs|];
      [|discriminate].
    cbn [mbind result_bind]. intros [= <-] row [<-|Hin].
    + exists name. split; [now left | exact Hr].
    + destruct (IH rs eq_refl row Hin) as (n & Hn & Hrow).
      exists n. split; [now right | exact Hrow].
Qed.

Lemma compare_rows_from_names current_df previous_df out :
  compare_tasks_grouped_by_name current_df previous_df = Ok out ->
  forall row, In row out ->
    exists name,
      compare_name current_df previous_df
        (pick_ob_col (columns current_df)) name = Ok row.
Proof.
  unfold compare_tasks_grouped_by_name.
  destruct (getitem current_df "Naam") as [cn|]; [|discriminate].
  destruct (getitem previous_df "Naam") as [pn|]; [|discriminate].
  cbn [mbind result_bind]. intros Hout row Hrow.
  destruct (for_names_rows _ _ _ _ _ Hout row Hrow) as (name & _ & H).
  now exists name.
Qed.

End ComparisonFacts.

Lemma elem_of_ids_of timestamp_str df ob_col name s :
  s ∈ ids_of timestamp_str df ob_col name <->
  exists r, In r (rows df) /\ cell_of df r "Naam" = name
            /\ cell_of df r ob_col <> NaN
            /\ astype_str timestamp_str (cell_of df r ob_col) = s.
Proof.
  unfold ids_of. rewrite elem_of_list_to_set, list_elem_of_In, in_map_iff.
  split.
  - intros (r & Hs & Hr). apply filter_In in Hr as [Hr Hp].
    apply andb_true_iff in Hp as [Hn Hna].
    apply bool_decide_eq_true in Hn. apply negb_true_iff in Hna.
    exists r. repeat split; try assumption. intros Heq.
    rewrite Heq in Hna. discriminate.
  - intros (r & Hr & Hn & Hna & Hs). exists r. split; [exact Hs|].
    apply filter_In. split; [exact Hr|]. apply andb_true_iff. split.
    + now apply bool_decide_eq_true.
    + apply negb_true_iff. now destruct (cell_of df r ob_col).
Qed.

Section ComparisonClaims.

Variable timestamp_str : Z -> string.
Variable set_iter : gset string -> list string.
Variable rnd : Q -> Q.

#[local] Abbreviation compare_name := (compare_name timestamp_str set_iter rnd).
#[local] Abbreviation compare_tasks_grouped_by_name :=
  (compare_tasks_grouped_by_name timestamp_str set_iter rnd).
#[local] Abbreviation row_for := (row_for timestamp_str set_iter rnd).
#[local] Abbreviation compared_ids := (compared_ids timestamp_str).

(** C6 (amended). In every row the comparison returns, the percentage
    lies between 0 and 100, and it is 0 whenever the previous total is
    0; it is also 0 when the previous total is positive and no task was
    edited, so a percentage of 0 does not tell that the previous total
    is 0. *)
Theorem compare_percentage_range current_df previous_df out :
  (forall x y, (x <= y)%Q -> (rnd x <= rnd y)%Q) ->
  (forall z, (0 <= z <= 100)%Z -> (rnd (inject_Z z) == inject_Z z)%Q) ->
  compare_tasks_grouped_by_name current_df previous_df = Ok out ->
  forall row, In row out ->
    (0 <= percentage row <= 100)%Q
    /\ (previous_total row = 0 -> (percentage row == 0)%Q)
    /\ (edited_tasks row = 0 -> (percentage row == 0)%Q).
Proof.
  intros Hmono Hwhole Hout row Hrow.
  destruct (compare_rows_from_names _ _ _ _ _ _ Hout row Hrow)
    as (name & Hname).
  apply compare_name_fields in Hname as (C & P & -> & -> & ->).
  split; [|split].
  - apply percentage_of_range; [exact Hmono | exact Hwhole |].
    apply subseteq_size. intros s Hs. now apply elem_of_difference in Hs.
  - intros ->. apply percentage_of_no_previous.
  - intros ->. now apply percentage_of_none_edited.
Qed.

Lemma compare_name_missing current_df previous_df ob_col name :
  In "Naam" (columns current_df) -> In "Naam" (columns previous_df) ->
  ~ In ob_col (columns current_df) \/ ~ In ob_col (columns previous_df) ->
  compare_name current_df previous_df ob_col name = KeyError ob_col.
Proof.
  intros HNc HNp Hmiss. unfold compare_name.
  rewrite !(tasks_of_eq) by assumption. cbn [mbind result_bind].
  destruct (in_dec string_dec ob_col (columns current_df)) as [Hc|Hc].
  - rewrite (id_set_compared timestamp_str current_df) by exact Hc.
    cbn [mbind result_bind].
    unfold id_set, getitem. cbn [columns].
    rewrite get_loc_None; [reflexivity | tauto].
  - unfold id_set, getitem. cbn [columns].
    now rewrite (get_loc_None (columns current_df)) by exact Hc.
Qed.

(** C10 (amended). The identifier column is chosen from the current
    table's labels alone, with ["OH-order"] as unchecked fallback.  When
    both tables have the assignee column and the chosen column is absent
    from the current or from the previous table, the comparison fails
    with the missing-column error for that column as soon as either
    table has a row; when neither table has a row it returns the empty
    result, the column never being looked up. *)
Theorem compare_missing_identifier_column current_df previous_df :
  In "Naam" (columns current_df) -> In "Naam" (columns previous_df) ->
  ~ In (pick_ob_col (columns current_df)) (columns current_df)
  \/ ~ In (pick_ob_col (columns current_df)) (columns previous_df) ->
  compare_tasks_grouped_by_name current_df previous_df
  = match rows current_df, rows previous_df with
    | [], [] => Ok []
    | _, _ => KeyError (pick_ob_col (columns current_df))
    end.
Proof.
  intros HNc HNp Hmiss. unfold compare_tasks_grouped_by_name.
  rewrite !getitem_cell_of by assumption. cbn [mbind result_bind].
  destruct (rows current_df) as [|r rs]; [destruct (rows previous_df)|];
    simpl; [reflexivity|..];
    now rewrite compare_name_missing.
Qed.

End ComparisonClaims.

(* ================================================================== *)
(** * The comparison on the samples *)
(* ================================================================== *)

(** The scenario of the two weeks: one new, one kept, two before, one
    edited, 50 percent, and ["2"] in common. *)
Example compare_two_weeks :
  exists pct,
    compare_tasks_grouped_by_name sample_timestamp_str sample_set_iter
      exact_rnd week_now week_before
    = Ok [{| Naam := Text "A"; new_tasks := 1; old_tasks := 1;
             previous_total := 2; edited_tasks := 1; percentage := pct;
             oude_taken_key := "OH-order (oude taken)";
             oude_taken := "2" |}]
    /\ (pct == 50)%Q.
Proof. eexists. split; [vm_compute; reflexivity | reflexivity]. Qed.

(** C1, the code at the failing input.  The only order of the current
    table has no assignee and carries identifier ["9"]; nothing was there
    the week before.  The missing assignee is one of the assignee values,
    and the identifiers of its rows are one more than those of the week
    before; but in the row the comparison returns for it no task counts
    as new, because the rows of an assignee are picked with [==], which a
    missing name does not even satisfy with itself.  The summary of the
    same table, which groups by assignee, has no row for the missing
    assignee at all. *)
Lemma compare_missing_assignee_counts_nothing :
  names_of unassigned_now = [NaN]
  /\ size (ids_of sample_timestamp_str unassigned_now "OH-order" NaN
           ∖ ids_of sample_timestamp_str nothing_before "OH-order" NaN) = 1
  /\ (exists row,
        compare_tasks_grouped_by_name sample_timestamp_str sample_set_iter
          exact_rnd unassigned_now nothing_before = Ok [row]
        /\ Naam row = NaN /\ new_tasks row = 0)
  /\ create_aggregated_data unassigned_now
     = Ok (frame ["Naam"; "Aantal Taken"] []).
Proof.
  split; [reflexivity|]. split; [vm_compute; reflexivity|]. split.
  - eexists. split; [vm_compute; reflexivity|]. split; reflexivity.
  - vm_compute. reflexivity.
Qed.

Lemma compare_percentage_range_sample :
  (forall x y, (x <= y)%Q -> (exact_rnd x <= exact_rnd y)%Q)
  /\ (forall z, (0 <= z <= 100)%Z ->
        (exact_rnd (inject_Z z) == inject_Z z)%Q)
  /\ compare_tasks_grouped_by_name sample_timestamp_str sample_set_iter
       exact_rnd week_now week_before = Ok two_weeks_rows
  /\ forall row, In row two_weeks_rows ->
       (0 <= percentage row <= 100)%Q
       /\ (previous_total row = 0 -> (percentage row == 0)%Q)
       /\ (edited_tasks row = 0 -> (percentage row == 0)%Q).
Proof.
  assert (H0 : forall x y, (x <= y)%Q -> (exact_rnd x <= exact_rnd y)%Q)
    by (intros x y H; exact H).
  assert (H1 : forall z, (0 <= z <= 100)%Z ->
                 (exact_rnd (inject_Z z) == inject_Z z)%Q)
    by (intros z _; reflexivity).
  assert (H2 : compare_tasks_grouped_by_name sample_timestamp_str
                 sample_set_iter exact_rnd week_now week_before
               = Ok two_weeks_rows) by (vm_compute; reflexivity).
  repeat (split; [assumption|]).
  exact (compare_percentage_range sample_timestamp_str sample_set_iter
           exact_rnd week_now week_before two_weeks_rows H0 H1 H2).
Defined.

(** C6 as stated fails: with the same two orders in both weeks the
    previous total is 2 and the percentage is 0. *)
Lemma compare_percentage_zero_with_previous_tasks :
  exists row,
    compare_tasks_grouped_by_name sample_timestamp_str sample_set_iter
      exact_rnd week_before week_before = Ok [row]
    /\ previous_total row = 2 /\ (percentage row == 0)%Q.
Proof.
  eexists. split; [vm_compute; reflexivity|]. split; reflexivity.
Qed.

Lemma compare_missing_identifier_column_sample :
  In "Naam" (columns one_now) /\ In "Naam" (columns empty_before)
  /\ (~ In (pick_ob_col (columns one_now)) (columns one_now)
      \/ ~ In (pick_ob_col (columns one_now)) (columns empty_before))
  /\ compare_tasks_grouped_by_name sample_timestamp_str sample_set_iter
       exact_rnd one_now empty_before
     = match rows one_now, rows empty_before with
       | [], [] => Ok []
       | _, _ => KeyError (pick_ob_col (columns one_now))
       end.
Proof.
  assert (H1 : In "Naam" (columns one_now)) by in_list.
  assert (H2 : In "Naam" (columns empty_before)) by in_list.
  assert (H3 : ~ In (pick_ob_col (columns one_now)) (columns one_now)
               \/ ~ In (pick_ob_col (columns one_now)) (columns empty_before)).
  { right. decide_closed. }
  repeat (split; [assumption|]).
  exact (compare_missing_identifier_column sample_timestamp_str
           sample_set_iter exact_rnd one_now empty_before H1 H2 H3).
Defined.

(** C10 as stated fails: the current table has the preferred identifier
    column, the previous one has not, neither has a row, and the
    comparison returns the empty result instead of failing. *)
Lemma compare_empty_tables_skip_lookup :
  pick_ob_col (columns empty_now) = "Obligo extern formaat"
  /\ ~ In "Obligo extern formaat" (columns empty_before)
  /\ compare_tasks_grouped_by_name sample_timestamp_str sample_set_iter
       exact_rnd empty_now empty_before = Ok [].
Proof.
  split; [reflexivity|]. split; [decide_closed | reflexivity].
Qed.

(* ================================================================== *)
(** * Column labels through the pipeline *)
(* ================================================================== *)

(** ** Labels that the clean-up makes equal *)

Lemma replace_newline_char (x y : ascii) :
  (if Ascii.eqb x Str.LF then " "%char else x)
  = (if Ascii.eqb y Str.LF then " "%char else y)
  <-> Ascii.eqb x y || (blank x && blank y) = true.
Proof.
  unfold blank. rewrite orb_true_iff, andb_true_iff, !orb_true_iff.
  rewrite !Ascii.eqb_eq.
  destruct (Ascii.eqb_spec x Str.LF) as [Hx|Hx];
    destruct (Ascii.eqb_spec y Str.LF) as [Hy|Hy].
  - split; [intros _; left; congruence | reflexivity].
  - split; [intros H; right; split; [now left | now right]|].
    intros [H|[_ [H|H]]]; congruence.
  - split; [intros H; right; split; [now right | now left]|].
    intros [H|[[H|H] _]]; congruence.
  - split; [intros H; now left|].
    intros [H|[[H|H] [H'|H']]]; congruence.
Qed.

(** The clean-up gives two labels the same name exactly when they are
    alike. *)
Lemma replace_newline_alike a : forall b,
  Str.replace_newline a = Str.replace_newline b <-> alike a b = true.
Proof.
  induction a as [|x a IH]; intros [|y b]; simpl;
    try (split; [discriminate | discriminate]); [tauto|].
  rewrite andb_true_iff, <- IH, <- replace_newline_char.
  split; [intros [= H1 H2]; now split | intros [-> ->]; reflexivity].
Qed.

Lemma NoDup_map_lookup {A B : Type} (f : A -> B) (l : list A) :
  List.NoDup (map f l) <->
  forall i j a b, i <> j -> l !! i = Some a -> l !! j = Some b -> f a <> f b.
Proof.
  rewrite <- NoDup_ListNoDup, NoDup_alt. split.
  - intros H i j a b Hne Ha Hb Heq. apply Hne, (H i j (f a)).
    + change (map f l) with (f <$> l). now rewrite list_lookup_fmap, Ha.
    + change (map f l) with (f <$> l).
      rewrite list_lookup_fmap, Hb. simpl. now rewrite Heq.
  - intros H i j x Hi Hj.
    change (map f l) with (f <$> l) in Hi, Hj.
    rewrite list_lookup_fmap in Hi, Hj.
    destruct (l !! i) as [a|] eqn:Ha; [|discriminate].
    destruct (l !! j) as [b|] eqn:Hb; [|discriminate].
    injection Hi as <-. injection Hj as Hj.
    destruct (Nat.eq_dec i j) as [|Hne]; [assumption|].
    exfalso. apply (H i j a b Hne Ha Hb). now symmetry.
Qed.

Lemma normalize_columns_NoneAlike df :
  List.NoDup (columns (normalize_columns df)) <-> NoneAlike (columns df).
Proof.
  cbn [columns normalize_columns]. rewrite NoDup_map_lookup. unfold NoneAlike.
  split; intros H i j a b Hne Ha Hb.
  - apply not_true_iff_false. rewrite <- replace_newline_alike.
    now apply (H i j).
  - rewrite replace_newline_alike, (H i j a b Hne Ha Hb). discriminate.
Qed.

(** ** Labels of the tables made from the cleaned table *)

Lemma process_filtered_data_columns df selected combined_df groups_dict :
  process_filtered_data df selected true = Ok (combined_df, groups_dict) ->
  columns combined_df = selected
  /\ forall groups name group,
       groups_dict = Some groups -> In (name, group) groups ->
       columns group = selected.
Proof.
  unfold process_filtered_data, getitem_list.
  destruct (get_locs (columns df) selected) as [locs|]; [|discriminate].
  cbn [mbind result_bind]. unfold groupby.
  destruct (getitem _ "Naam") as [keys|]; [|discriminate].
  cbn [mbind result_bind].
  match goal with
  | |- context [fold_left add_group ?gs (?c, ?acc)] =>
      destruct (fold_add_group gs c acc) as (combined & Hfold & Hcols);
      rewrite Hfold
  end.
  intros [= <- <-]. split; [exact Hcols|].
  intros groups name group [= <-] Hin. simpl in Hin.
  apply in_map_iff in Hin as (k & [= _ <-] & _). reflexivity.
Qed.

Lemma create_aggregated_data_columns df aggregated_df :
  create_aggregated_data df = Ok aggregated_df ->
  columns aggregated_df = ["Naam"; "Aantal Taken"].
Proof.
  unfold create_aggregated_data.
  destruct (groupby df "Naam") as [groups|]; [|discriminate].
  now intros [= <-].
Qed.

Lemma select_columns_NoDup checkbox df :
  List.NoDup (columns df) -> List.NoDup (select_columns checkbox df).
Proof. apply NoDup_filter_list. Qed.

(** The last character of a string. *)
Lemma append_last a c b d :
  a +:+ String c "" = b +:+ String d "" -> c = d.
Proof.
  revert b. induction a as [|x a IH]; intros [|y b]; simpl; intros H.
  - now injection H.
  - injection H as _ H. destruct b; discriminate.
  - injection H as _ H. destruct a; discriminate.
  - injection H as _ H. now apply (IH b).
Qed.

Lemma oude_taken_key_fresh ob_col :
  ~ In (ob_col +:+ " (oude taken)")
       ["Naam"; "Aantal nieuwe taken"; "Aantal oude taken";
        "Aantal taken vorige week"; "Aantal bewerkte taken";
        "Percentage bewerkt"].
Proof.
  intros Hin.
  assert (Hends : forall fixed c,
            fixed +:+ String c "" = ob_col +:+ " (oude taken)" -> c = ")"%char).
  { intros fixed c H.
    change " (oude taken)" with (" (oude taken" +:+ String ")" "") in H.
    rewrite <- append_assoc in H. now apply append_last in H. }
  simpl in Hin.
  destruct Hin as [H|[H|[H|[H|[H|[H|[]]]]]]].
  - apply (Hends "Naa" "m"%char) in H. discriminate H.
  - apply (Hends "Aantal nieuwe take" "n"%char) in H. discriminate H.
  - apply (Hends "Aantal oude take" "n"%char) in H. discriminate H.
  - apply (Hends "Aantal taken vorige wee" "k"%char) in H. discriminate H.
  - apply (Hends "Aantal bewerkte take" "n"%char) in H. discriminate H.
  - apply (Hends "Percentage bewerk" "t"%char) in H. discriminate H.
Qed.

Section ComparisonLabels.

Variable timestamp_str : Z -> string.
Variable set_iter : gset string -> list string.
Variable rnd : Q -> Q.

Lemma compare_name_key current_df previous_df ob_col name row :
  compare_name timestamp_str set_iter rnd current_df previous_df ob_col name
  = Ok row ->
  oude_taken_key row = ob_col +:+ " (oude taken)".
Proof.
  unfold compare_name.
  destruct (tasks_of current_df name) as [ct|]; [|discriminate].
  destruct (tasks_of previous_df name) as [pt|]; [|discriminate].
  cbn [mbind result_bind].
  destruct (id_set timestamp_str ct ob_col) as [C|]; [|discriminate].
  destruct (id_set timestamp_str pt ob_col) as [P|]; [|discriminate].
  cbn [mbind result_bind]. now intros [= <-].
Qed.

Lemma comparison_columns_NoDup current_df previous_df comparison_data :
  compare_tasks_grouped_by_name timestamp_str set_iter rnd current_df
    previous_df = Ok comparison_data ->
  List.NoDup (comparison_columns comparison_data).
Proof.
  intros Hout. destruct comparison_data as [|row rest]; [constructor|].
  destruct (compare_rows_from_names _ _ _ _ _ _ Hout row (or_introl eq_refl))
    as (name & Hname).
  apply compare_name_key in Hname. cbn [comparison_columns]. rewrite Hname.
  pose proof (oude_taken_key_fresh (pick_ob_col (columns current_df))) as Hnew.
  apply NoDup_ListNoDup.
  assert (Hfixed : NoDup ["Naam"; "Aantal nieuwe taken"; "Aantal oude taken";
                          "Aantal taken vorige week"; "Aantal bewerkte taken";
                          "Percentage bewerkt"]) by decide_closed.
  change (NoDup (["Naam"; "Aantal nieuwe taken"; "Aantal oude taken";
                  "Aantal taken vorige week"; "Aantal bewerkte taken";
                  "Percentage bewerkt"]
                 ++ [pick_ob_col (columns current_df) +:+ " (oude taken)"])).
  apply NoDup_app. split; [exact Hfixed|]. split.
  - intros c Hc [<-|[]]%list_elem_of_In. apply Hnew.
    now apply list_elem_of_In.
  - apply NoDup_singleton.
Qed.

End ComparisonLabels.

Lemma concat_columns_from acc prev_dfs :
  List.NoDup acc ->
  (forall prev, In prev prev_dfs -> List.NoDup (columns prev)) ->
  List.NoDup
    (fold_left
       (fun acc df =>
          (acc ++ List.filter (fun c => negb (existsb (String.eqb c) acc))
                    (columns df))%list)
       prev_dfs acc)
  /\ forall c,
       In c (fold_left
               (fun acc df =>
                  (acc ++ List.filter
                            (fun c => negb (existsb (String.eqb c) acc))
                            (columns df))%list)
               prev_dfs acc)
       <-> In c acc \/ exists prev, In prev prev_dfs /\ In c (columns prev).
Proof.
  revert acc. induction prev_dfs as [|df prev_dfs IH]; intros acc Hacc Hall.
  - simpl. split; [exact Hacc|]. intros c. split; [now left|].
    intros [H|(prev & [] & _)]. exact H.
  - cbn [fold_left].
    assert (Hnext : List.NoDup
              (acc ++ List.filter
                        (fun c => negb (existsb (String.eqb c) acc))
                        (columns df))).
    { apply NoDup_ListNoDup, NoDup_app. split; [now apply NoDup_ListNoDup|].
      split.
      - intros c Hc Hin. apply list_elem_of_In in Hc, Hin.
        apply filter_In in Hin as [_ Hin]. apply negb_true_iff in Hin.
        apply not_true_iff_false in Hin. apply Hin.
        apply existsb_exists. exists c. split; [exact Hc|].
        apply String.eqb_refl.
      - apply NoDup_ListNoDup, NoDup_filter_list, Hall. now left. }
    destruct (IH _ Hnext (fun prev H => Hall prev (or_intror H)))
      as [Hnd Hin].
    split; [exact Hnd|]. intros c. rewrite Hin, in_app_iff, filter_In.
    split.
    + intros [[H|[H _]]|(prev & Hprev & Hc)];
        [now left | right; exists df; split; [now left | exact H]
        | right; exists prev; split; [now right | exact Hc]].
    + intros [H|(prev & [<-|Hprev] & Hc)].
      * now left; left.
      * destruct (existsb (String.eqb c) acc) eqn:E.
        -- left; left. apply existsb_exists in E as (x & Hx & Heq).
           apply String.eqb_eq in Heq. now subst.
        -- left; right. now split.
      * right. now exists prev.
Qed.

Lemma concat_columns_NoDup prev_dfs :
  (forall prev, In prev prev_dfs -> List.NoDup (columns prev)) ->
  List.NoDup (concat_columns prev_dfs)
  /\ forall c, In c (concat_columns prev_dfs)
               <-> exists prev, In prev prev_dfs /\ In c (columns prev).
Proof.
  intros Hall.
  destruct (concat_columns_from [] prev_dfs (List.NoDup_nil _) Hall)
    as [Hnd Hin].
  split; [exact Hnd|]. intros c. unfold concat_columns. rewrite Hin.
  split; [intros [[]|H]; exact H | now right].
Qed.

(** C9 (amended). After the clean-up the column names are pairwise
    distinct exactly when no two labels of the located table are alike,
    that is, differ at most in a line feed against a space.  When they
    are distinct, every later operation hands on distinct names: the
    filter keeps the names, in the caller's frame and in the frame it
    returns; the combined table and every per-person table have the
    checked columns, a selection of the table's; the summary and the
    comparison have their own fixed, distinct names; and the
    concatenation of previous tables with distinct names has each of
    their names once. *)
Theorem normalize_columns_distinct df :
  (List.NoDup (columns (normalize_columns df)) <-> NoneAlike (columns df))
  /\ (List.NoDup (columns (normalize_columns df)) ->
      forall to_datetime today flag dts df' res,
        apply_filters to_datetime today
          {| content := normalize_columns df; dtypes := dts |} flag
        = (df', res) ->
        List.NoDup (columns (content df'))
        /\ forall filtered_df,
             res = Returns filtered_df ->
             List.NoDup (columns (content filtered_df))
             /\ (forall checkbox combined_df groups_dict,
                   process_filtered_data (content filtered_df)
                     (select_columns checkbox (normalize_columns df)) true
                   = Ok (combined_df, groups_dict) ->
                   List.NoDup (columns combined_df)
                   /\ forall groups name group,
                        groups_dict = Some groups ->
                        In (name, group) groups ->
                        List.NoDup (columns group))
             /\ (forall aggregated_df,
                   create_aggregated_data (content filtered_df)
                   = Ok aggregated_df ->
                   List.NoDup (columns aggregated_df))
             /\ (forall timestamp_str set_iter rnd previous_df
                        comparison_data,
                   compare_tasks_grouped_by_name timestamp_str set_iter rnd
                     (content filtered_df) previous_df = Ok comparison_data ->
                   List.NoDup (comparison_columns comparison_data)))
  /\ (forall prev_dfs,
        (forall prev, In prev prev_dfs -> List.NoDup (columns prev)) ->
        List.NoDup (concat_columns prev_dfs)
        /\ forall c, In c (concat_columns prev_dfs)
                     <-> exists prev, In prev prev_dfs /\ In c (columns prev)).
Proof.
  split; [apply normalize_columns_NoneAlike|].
  split; [|apply concat_columns_NoDup].
  intros Hnd to_datetime today flag dts df' res Hcall.
  assert (Hfst : df' = dated to_datetime
                         {| content := normalize_columns df; dtypes := dts |}).
  { rewrite <- (apply_filters_fst to_datetime today _ flag).
    now rewrite Hcall. }
  assert (Hcols : columns (content df') = columns (normalize_columns df)).
  { rewrite Hfst. apply dated_columns. }
  split; [now rewrite Hcols|].
  intros filtered_df ->.
  apply apply_filters_Returns in Hcall as (_ & _ & _ & _ & ->).
  cbn [content columns with_rows]. rewrite Hcols.
  split; [exact Hnd|]. split; [|split].
  - intros checkbox combined_df groups_dict Hproc.
    apply process_filtered_data_columns in Hproc as [-> Hgroups].
    split; [now apply select_columns_NoDup|].
    intros groups name group Hsome Hin.
    rewrite (Hgroups groups name group Hsome Hin).
    now apply select_columns_NoDup.
  - intros aggregated_df Hagg.
    apply create_aggregated_data_columns in Hagg. rewrite Hagg.
    apply NoDup_ListNoDup. decide_closed.
  - intros timestamp_str set_iter rnd previous_df comparison_data Hcmp.
    now apply comparison_columns_NoDup in Hcmp.
Qed.

Lemma normalize_columns_distinct_sample :
  List.NoDup (columns (normalize_columns sample_orders))
  /\ NoneAlike (columns sample_orders)
  /\ apply_filters timestamps_only 10
       {| content := normalize_columns sample_orders;
          dtypes := dtypes (as_read sample_orders) |} true
     = (orders_after, Returns orders_kept)
  /\ List.NoDup (columns (content orders_after))
  /\ List.NoDup (columns (content orders_kept))
  /\ (forall combined_df groups_dict,
        process_filtered_data (content orders_kept)
          (select_columns untouched (normalize_columns sample_orders)) true
        = Ok (combined_df, groups_dict) ->
        List.NoDup (columns combined_df))
  /\ (forall aggregated_df,
        create_aggregated_data (content orders_kept) = Ok aggregated_df ->
        List.NoDup (columns aggregated_df)).
Proof.
  assert (H : List.NoDup (columns (normalize_columns sample_orders)))
    by (apply NoDup_ListNoDup; decide_closed).
  assert (Hcall : apply_filters timestamps_only 10
                    {| content := normalize_columns sample_orders;
                       dtypes := dtypes (as_read sample_orders) |} true
                  = (orders_after, Returns orders_kept))
    by (vm_compute; reflexivity).
  destruct (normalize_columns_distinct sample_orders) as (Hiff & Hkeep & _).
  destruct (Hkeep H timestamps_only 10%Z true (dtypes (as_read sample_orders))
              orders_after (Returns orders_kept) Hcall) as [Hafter Hret].
  destruct (Hret orders_kept eq_refl) as (Hkept & Hproc & Hagg & _).
  split; [exact H|]. split; [now apply Hiff|]. split; [exact Hcall|].
  split; [exact Hafter|]. split; [exact Hkept|]. split; [|exact Hagg].
  intros combined_df groups_dict Hp.
  now destruct (Hproc untouched combined_df groups_dict Hp).
Defined.

(** C9 as stated fails: the table located in the sample sheet has
    pairwise distinct labels, and after the clean-up the labels
    ["Obligo EUR"] and ["Obligo EUR"] coincide. *)
Lemma normalize_columns_merges_labels :
  exists table,
    find_table_starting_from_columns text_labels sample_sheet required_columns
    = Some table
    /\ List.NoDup (columns table)
    /\ ~ List.NoDup (columns (normalize_columns table)).
Proof.
  eexists. split; [vm_compute; reflexivity|].
  split; rewrite <- NoDup_ListNoDup; decide_closed.
Qed.

(* ================================================================== *)
(** * More on locating the table *)
(* ================================================================== *)

Section LocatorMore.

Variable header_labels : list cell -> list string.

#[local] Abbreviation scan_rows := (scan_rows header_labels).
#[local] Abbreviation read_excel_header := (read_excel_header header_labels).
#[local] Abbreviation find_table_starting_from_columns :=
  (find_table_starting_from_columns header_labels).

Lemma scan_rows_app sheet_data required l1 l2 :
  scan_rows sheet_data required (l1 ++ l2)
  = match scan_rows sheet_data required l1 with
    | Some table => Some table
    | None => scan_rows sheet_data required l2
    end.
Proof.
  induction l1 as [|i l1 IH]; simpl; [reflexivity|].
  now destruct (forallb _ required).
Qed.

Lemma iloc_row_app_r pre sheet_data i :
  iloc_row (pre ++ sheet_data) (length pre + i) = iloc_row sheet_data i.
Proof. unfold iloc_row. apply app_nth2_plus. Qed.

Lemma iloc_row_app_l sheet_data post i :
  i < length sheet_data ->
  iloc_row (sheet_data ++ post) i = iloc_row sheet_data i.
Proof. intros H. unfold iloc_row. now apply app_nth1. Qed.

Lemma skipn_app_plus {A : Type} (pre l : list A) n :
  skipn (length pre + n) (pre ++ l) = skipn n l.
Proof.
  induction pre as [|x pre IH]; simpl; [reflexivity | exact IH].
Qed.

Lemma read_excel_header_app_r pre sheet_data i :
  read_excel_header (pre ++ sheet_data) (length pre + i)
  = read_excel_header sheet_data i.
Proof.
  unfold read_excel_header. rewrite iloc_row_app_r. f_equal.
  now rewrite <- Nat.add_succ_r, skipn_app_plus.
Qed.

Lemma scan_rows_shift pre sheet_data required n : forall start,
  scan_rows (pre ++ sheet_data) required (seq (length pre + start) n)
  = scan_rows sheet_data required (seq start n).
Proof.
  induction n as [|n IH]; intros start; simpl; [reflexivity|].
  rewrite iloc_row_app_r, read_excel_header_app_r.
  now rewrite <- Nat.add_succ_r, IH.
Qed.

(** X1. Rows above the table do not matter: when none of the rows put
    on top of a sheet holds all the required names, the located table is
    the one located without them (same labels, same body, same row
    numbers), and nothing is found with them exactly when nothing was
    found without. *)
Theorem find_table_skips_rows_above pre sheet_data required :
  (forall vals, In vals pre -> ~ HoldsAll required vals) ->
  find_table_starting_from_columns (pre ++ sheet_data) required
  = find_table_starting_from_columns sheet_data required.
Proof.
  intros Hpre. unfold find_table_starting_from_columns.
  rewrite length_app, seq_app, scan_rows_app.
  pose proof (scan_rows_seq header_labels (pre ++ sheet_data) required
                (length pre) 0) as Hscan.
  destruct (scan_rows (pre ++ sheet_data) required (seq 0 (length pre)))
    as [table|].
  - destruct Hscan as (i & Hi & Hall & _). exfalso.
    apply (Hpre (iloc_row (pre ++ sheet_data) i)); [|exact Hall].
    unfold iloc_row. rewrite app_nth1 by lia. apply nth_In. lia.
  - simpl.
    replace (seq (length pre) (length sheet_data))
      with (seq (length pre + 0) (length sheet_data))
      by now rewrite Nat.add_0_r.
    apply scan_rows_shift.
Qed.

(** X2. Rows below the table do not change what is located: when a
    table is found in a sheet, the sheet with further rows appended
    gives the table with the same labels and with those rows appended to
    its body. *)
Theorem find_table_with_rows_below sheet_data post required table :
  find_table_starting_from_columns sheet_data required = Some table ->
  find_table_starting_from_columns (sheet_data ++ post) required
  = Some {| columns := columns table;
            rows := range_index 0 (map values (rows table) ++ post) |}.
Proof.
  intros Hfound.
  pose proof (scan_rows_seq header_labels sheet_data required
                (length sheet_data) 0) as H1.
  pose proof (scan_rows_seq header_labels (sheet_data ++ post) required
                (length (sheet_data ++ post)) 0) as H2.
  unfold find_table_starting_from_columns in *. rewrite Hfound in H1.
  destruct H1 as (i & Hi & Hall & Hfirst & ->).
  assert (Hlen : length (sheet_data ++ post)
                 = length sheet_data + length post) by apply length_app.
  destruct (scan_rows (sheet_data ++ post) required _) as [table'|].
  - destruct H2 as (j & Hj & Hallj & Hfirstj & ->).
    assert (Hij : j = i).
    { destruct (Nat.lt_trichotomy j i) as [Hlt|[Heq|Hgt]]; [|exact Heq|].
      - exfalso. apply (Hfirst j); [lia|].
        rewrite <- (iloc_row_app_l sheet_data post) by lia. exact Hallj.
      - exfalso. apply (Hfirstj i); [lia|].
        rewrite iloc_row_app_l by lia. exact Hall. }
    subst j. unfold read_excel_header. cbn [columns rows].
    rewrite iloc_row_app_l by lia. rewrite values_range_index.
    do 3 f_equal. rewrite skipn_app.
    replace (S i - length sheet_data) with 0 by lia. reflexivity.
  - exfalso. apply (H2 i); [lia|].
    rewrite iloc_row_app_l by lia. exact Hall.
Qed.

End LocatorMore.

(* ================================================================== *)
(** * More on the filter *)
(* ================================================================== *)

Section FilterMore.

Variable to_datetime : dtype -> list cell -> list cell.

#[local] Abbreviation dated := (dated to_datetime).
#[local] Abbreviation apply_filters := (apply_filters to_datetime).

(** The call on a table that lacks a column it reads. *)
Lemma apply_filters_no_leverdatum today df flag :
  ~ In "Leverdatum" (columns (content df)) ->
  apply_filters today df flag = (df, Raises (key_error "Leverdatum")).
Proof.
  intros HL. unfold apply_filters. now rewrite getitem_missing.
Qed.

Lemma apply_filters_no_werkplek today df flag :
  In "Leverdatum" (columns (content df)) ->
  ~ In "Verantw. Werkplek" (columns (content df)) ->
  snd (apply_filters today df flag)
  = Raises (key_error "Verantw. Werkplek").
Proof.
  intros HL HW. pose proof (dated_columns to_datetime df) as Hcols.
  unfold apply_filters, dated in *.
  rewrite (getitem_cell_of (content df)) in * by exact HL. cbn [snd].
  now rewrite (getitem_missing _ "Verantw. Werkplek")
    by (rewrite Hcols; exact HW).
Qed.

Lemma apply_filters_no_status today df flag :
  In "Leverdatum" (columns (content df)) ->
  In "Verantw. Werkplek" (columns (content df)) ->
  ~ In "Status" (columns (content df)) ->
  snd (apply_filters today df flag)
  = if searchable (dated df) "Verantw. Werkplek" (rows (content (dated df)))
    then Raises (key_error "Status") else Raises attribute_error.
Proof.
  intros HL HW HS. pose proof (dated_columns to_datetime df) as Hcols.
  unfold apply_filters, dated in *.
  rewrite (getitem_cell_of (content df)) in * by exact HL. cbn [snd].
  set (D := setitem_typed df "Leverdatum" _ datetime64) in *.
  rewrite (getitem_cell_of (content D) "Verantw. Werkplek")
    by (rewrite Hcols; exact HW).
  cbn [or_raise mbind attempt_bind]. unfold str_contains, searchable.
  destruct (str_accessor _ _); cbn [mbind attempt_bind]; [|reflexivity].
  now rewrite (getitem_missing _ "Status") by (rewrite Hcols; exact HS).
Qed.

Lemma apply_filters_no_omschrijving today df :
  FilterColumns false (content df) ->
  ~ In "Omschrijving middel" (columns (content df)) ->
  snd (apply_filters today df true)
  = if searchable (dated df) "Verantw. Werkplek" (rows (content (dated df)))
    then Raises (key_error "Omschrijving middel") else Raises attribute_error.
Proof.
  intros (HL & HW & HS & _) HO.
  pose proof (dated_columns to_datetime df) as Hcols.
  unfold apply_filters, dated in *.
  rewrite (getitem_cell_of (content df)) in * by exact HL. cbn [snd].
  set (D := setitem_typed df "Leverdatum" _ datetime64) in *.
  rewrite (getitem_cell_of (content D) "Verantw. Werkplek")
    by (rewrite Hcols; exact HW).
  cbn [or_raise mbind attempt_bind]. unfold str_contains, searchable.
  destruct (str_accessor _ _); cbn [mbind attempt_bind]; [|reflexivity].
  rewrite (getitem_cell_of (content D) "Status") by (rewrite Hcols; exact HS).
  rewrite (getitem_cell_of (content D) "Leverdatum")
    by (rewrite Hcols; exact HL).
  cbn [or_raise mbind attempt_bind].
  now rewrite getitem_missing
    by (cbn [content columns loc_mask_typed loc_mask]; rewrite Hcols; exact HO).
Qed.

(** X3. How a call of [apply_filters] ends.  It returns exactly when
    the columns it reads are there, the workplace column is searchable
    and, with the flag set, so is the description column of the rows
    that pass the fixed tests.  It raises [KeyError] for the first
    column it misses, reading delivery date, workplace, status and, with
    the flag set, description in that order; and it raises
    [AttributeError] for a workplace column that is not searchable -
    before the status column is looked up - or for such a description
    column. *)
Theorem apply_filters_outcome today df flag :
  WellFormed df ->
  match snd (apply_filters today df flag) with
  | Returns out =>
      FilterColumns flag (content df)
      /\ searchable (dated df) "Verantw. Werkplek" (rows (content (dated df)))
         = true
      /\ (flag = true ->
          searchable (dated df) "Omschrijving middel"
            (passing today (content (dated df))) = true)
  | Raises (key_error key) =>
      ~ In key (columns (content df))
      /\ (key = "Leverdatum"
          \/ (key = "Verantw. Werkplek"
              /\ In "Leverdatum" (columns (content df)))
          \/ (In "Leverdatum" (columns (content df))
              /\ In "Verantw. Werkplek" (columns (content df))
              /\ searchable (dated df) "Verantw. Werkplek"
                   (rows (content (dated df))) = true
              /\ (key = "Status"
                  \/ (key = "Omschrijving middel" /\ flag = true
                      /\ In "Status" (columns (content df))))))
  | Raises attribute_error =>
      In "Leverdatum" (columns (content df))
      /\ In "Verantw. Werkplek" (columns (content df))
      /\ (searchable (dated df) "Verantw. Werkplek"
            (rows (content (dated df))) = false
          \/ (flag = true /\ In "Status" (columns (content df))
              /\ In "Omschrijving middel" (columns (content df))
              /\ searchable (dated df) "Omschrijving middel"
                   (passing today (content (dated df))) = false))
  end.
Proof.
  intros _.
  destruct (in_dec string_dec "Leverdatum" (columns (content df)))
    as [HL|HL].
  2:{ rewrite apply_filters_no_leverdatum by exact HL. cbn [snd].
      split; [exact HL | now left]. }
  destruct (in_dec string_dec "Verantw. Werkplek" (columns (content df)))
    as [HW|HW].
  2:{ rewrite apply_filters_no_werkplek by assumption.
      split; [exact HW | right; left; now split]. }
  destruct (in_dec string_dec "Status" (columns (content df))) as [HS|HS].
  2:{ rewrite apply_filters_no_status by assumption.
      destruct (searchable _ _ _) eqn:E.
      - split; [exact HS|]. right; right.
        repeat split; try assumption. now left.
      - repeat split; try assumption. now left. }
  destruct flag.
  - destruct (in_dec string_dec "Omschrijving middel" (columns (content df)))
      as [HO|HO].
    + rewrite apply_filters_eq
        by (unfold FilterColumns; repeat split; intros; assumption).
      cbn [snd].
      destruct (searchable _ "Verantw. Werkplek" _) eqn:EW.
      * destruct (searchable _ "Omschrijving middel" _) eqn:EO.
        -- unfold FilterColumns. repeat split; intros; assumption.
        -- repeat split; try assumption. right. now repeat split.
      * repeat split; try assumption. now left.
    + rewrite apply_filters_no_omschrijving;
        [|unfold FilterColumns; repeat split; try assumption; discriminate
         |exact HO].
      destruct (searchable _ _ _) eqn:E.
      * split; [exact HO|]. right; right.
        repeat split; try assumption. right. now repeat split.
      * repeat split; try assumption. now left.
  - rewrite apply_filters_eq
      by (unfold FilterColumns; repeat split; try assumption; discriminate).
    cbn [snd]. destruct (searchable _ "Verantw. Werkplek" _) eqn:EW.
    + unfold FilterColumns. repeat split; try assumption; discriminate.
    + repeat split; try assumption. now left.
Qed.

(** X4. The flag only takes rows away: when the flagged call returns,
    so does the call without the flag, the caller's frame is left the
    same, and the rows returned with the flag are the rows returned
    without it minus those whose description matches the pattern, in the
    same order. *)
Theorem apply_filters_flag_removes today df df' with_flag :
  WellFormed df ->
  apply_filters today df true = (df', Returns with_flag) ->
  exists without_flag,
    apply_filters today df false = (df', Returns without_flag)
    /\ rows (content with_flag)
       = List.filter (fun r => negb (matches_w (content df') r))
           (rows (content without_flag))
    /\ sublist (labels (content with_flag)) (labels (content without_flag)).
Proof.
  intros _ Hcall.
  apply apply_filters_Returns in Hcall as (-> & Hcols & HW & _ & ->).
  exists (with_rows (dated df) (passing today (content (dated df)))).
  split.
  { rewrite apply_filters_eq.
    - now rewrite HW.
    - destruct Hcols as (HL & HW' & HS & _).
      repeat split; try assumption. discriminate. }
  cbn [content rows with_rows]. rewrite filter_keep.
  split; [reflexivity|]. unfold labels. cbn [content rows with_rows].
  apply sublist_map_filter.
Qed.

(** X5. A later clock lets more rows through: when the call returns at
    one moment, the call on the same table with the same flag at a later
    moment leaves the caller's frame the same and returns the earlier
    rows and possibly more, in order - or, only with the flag set, it
    raises [AttributeError], more rows having reached the test of the
    description. *)
Theorem apply_filters_later_keeps_more t1 t2 df flag df' earlier :
  WellFormed df -> (t1 <= t2)%Z ->
  apply_filters t1 df flag = (df', Returns earlier) ->
  fst (apply_filters t2 df flag) = df'
  /\ match snd (apply_filters t2 df flag) with
     | Returns later => sublist (rows (content earlier)) (rows (content later))
     | Raises e => e = attribute_error /\ flag = true
     end.
Proof.
  intros _ Hle Hcall.
  apply apply_filters_Returns in Hcall as (-> & Hcols & HW & _ & ->).
  split; [apply apply_filters_fst|].
  rewrite apply_filters_eq by exact Hcols. cbn [snd]. rewrite HW.
  assert (Hsub : sublist
            (List.filter (keep t1 flag (content (dated df)))
               (rows (content (dated df))))
            (List.filter (keep t2 flag (content (dated df)))
               (rows (content (dated df))))).
  { apply sublist_filter_imp. intros r. now apply keep_later. }
  rewrite (filter_keep t2) in Hsub. destruct flag.
  - destruct (searchable _ "Omschrijving middel" _); [exact Hsub | now split].
  - exact Hsub.
Qed.

End FilterMore.

Section FilterSteps.

Variable to_datetime : dtype -> list cell -> list cell.

#[local] Abbreviation dated := (dated to_datetime).
#[local] Abbreviation apply_filters := (apply_filters to_datetime).

Hypothesis to_datetime_ok : ToDatetime to_datetime.

(** The rows that pass the fixed tests, as a frame of their own: a
    further call leaves it as it is, finds its workplace column
    searchable, and lets all its rows pass at any later moment. *)
Lemma passing_again t1 t2 df :
  WellFormed df -> (t1 <= t2)%Z ->
  searchable (dated df) "Verantw. Werkplek" (rows (content (dated df)))
  = true ->
  let out := with_rows (dated df) (passing t1 (content (dated df))) in
  dated out = out
  /\ searchable out "Verantw. Werkplek" (rows (content out)) = true
  /\ passing t2 (content out) = rows (content out).
Proof.
  intros Hwf Hle HW out. subst out. cbn [content rows with_rows].
  set (D := dated df) in *.
  assert (Hpass : forall r, In r (passing t1 (content D)) ->
                    passes t2 (content D) r = true).
  { intros r Hr. apply filter_In in Hr as [_ Hr].
    apply (keep_passes t2 false). apply (keep_later t1 t2); [exact Hle|].
    unfold keep. now rewrite Hr. }
  split; [|split].
  - unfold D. apply dated_again; [exact to_datetime_ok | exact Hwf |].
    apply sublist_keep.
  - unfold searchable in *.
    change (dtype_of (with_rows D (passing t1 (content D)))
              "Verantw. Werkplek")
      with (dtype_of D "Verantw. Werkplek").
    rewrite (str_accessor_object _ _ HW). apply str_accessor_texts.
    apply forallb_forall. intros c Hc.
    apply in_map_iff in Hc as (r & <- & Hr).
    apply Hpass in Hr. unfold passes in Hr.
    rewrite !andb_true_iff in Hr. destruct Hr as [[Hr _] _].
    rewrite cell_of_with_rows.
    now destruct (cell_of (content D) r "Verantw. Werkplek").
  - unfold passing at 1. cbn [content rows with_rows].
    apply filter_all. exact Hpass.
Qed.

(** X6. Filtering in two steps is filtering in one: the frame returned
    without the flag, filtered again with the flag at the same moment or
    later, is itself left as it is, and the second call ends as the
    flagged call on the table ends - with the same frame, or with the
    same exception. *)
Theorem apply_filters_in_two_steps t1 t2 df df' without_flag :
  WellFormed df -> (t1 <= t2)%Z ->
  apply_filters t1 df false = (df', Returns without_flag) ->
  apply_filters t2 without_flag true
  = (without_flag, snd (apply_filters t1 df true)).
Proof.
  intros Hwf Hle Hcall.
  apply apply_filters_Returns in Hcall as (-> & Hcols & HW & _ & ->).
  rewrite filter_keep.
  destruct (passing_again t1 t2 df Hwf Hle HW) as (Hdated & HW2 & Hpass).
  set (D := dated df) in *.
  set (out := with_rows D (passing t1 (content D))) in *.
  destruct Hcols as (HL & HWin & HS & _).
  assert (Hsame : columns (content out) = columns (content df)).
  { cbn [content columns with_rows out]. apply dated_columns. }
  apply injective_projections.
  { cbn [fst]. now rewrite apply_filters_fst. }
  cbn [snd].
  destruct (in_dec string_dec "Omschrijving middel" (columns (content df)))
    as [HO|HO].
  - rewrite !apply_filters_eq
      by (unfold FilterColumns; rewrite ?Hsame; repeat split; intros;
          assumption).
    cbn [snd]. rewrite Hdated, HW2, Hpass. fold D. rewrite HW.
    reflexivity.
  - rewrite !apply_filters_no_omschrijving;
      try (unfold FilterColumns; rewrite ?Hsame; repeat split;
           solve [assumption | discriminate]).
    rewrite Hdated, HW2. fold D. now rewrite HW.
Qed.

End FilterSteps.

(* ================================================================== *)
(** * More on projection and grouping *)
(* ================================================================== *)

Lemma get_locs_cells df selected locs :
  get_locs (columns df) selected = Ok locs ->
  forall r, map (iat r) locs = map (cell_of df r) selected.
Proof.
  revert locs. induction selected as [|c selected IH]; simpl; intros locs.
  - now intros [= <-].
  - destruct (get_loc (columns df) c) as [i|] eqn:Hi; [|discriminate].
    destruct (get_locs (columns df) selected) as [locs'|]; [|discriminate].
    cbn [mbind result_bind]. intros [= <-] r. cbn [map].
    unfold cell_of at 1. rewrite Hi. f_equal. now apply IH.
Qed.

Lemma getitem_list_eq df selected :
  (forall c, In c selected -> In c (columns df)) ->
  getitem_list df selected
  = Ok {| columns := selected;
          rows := map (project_row df selected) (rows df) |}.
Proof.
  intros Hsel. unfold getitem_list.
  destruct (get_locs_ok _ _ Hsel) as [locs Hlocs]. rewrite Hlocs.
  cbn [mbind result_bind]. do 2 f_equal. apply map_ext. intros r.
  unfold project_row. f_equal. now apply get_locs_cells.
Qed.

Lemma get_locs_missing cols selected c :
  In c selected -> ~ In c cols ->
  exists key, get_locs cols selected = KeyError key
              /\ In key selected /\ ~ In key cols.
Proof.
  intros Hc Hno. induction selected as [|x selected IH]; [destruct Hc|].
  simpl. destruct (in_dec string_dec x cols) as [Hx|Hx].
  - destruct (get_loc_In cols x Hx) as [i ->].
    destruct IH as (key & -> & Hkey & Hmiss).
    { destruct Hc as [->|Hc]; [contradiction | exact Hc]. }
    exists key. repeat split; [now right | exact Hmiss].
  - rewrite get_loc_None by exact Hx. exists x.
    repeat split; [now left | exact Hx].
Qed.

(** Reading a selected column off a projected row gives the cell of the
    full row. *)
Lemma cell_of_project df selected rs r c :
  In c selected ->
  cell_of {| columns := selected; rows := rs |} (project_row df selected r) c
  = cell_of df r c.
Proof.
  intros Hc. unfold cell_of at 1. cbn [columns].
  destruct (get_loc_In _ _ Hc) as [j Hj]. rewrite Hj.
  apply get_loc_Some in Hj. unfold iat, project_row. cbn [values].
  rewrite nth_lookup, list_lookup_fmap, Hj. reflexivity.
Qed.

Lemma fold_add_group_rows groups : forall combined grouped body,
  rows combined = range_index 0 body ->
  fold_left add_group groups (combined, grouped)
  = ({| columns := columns combined;
        rows := range_index 0 (body ++ group_values groups) |},
     (grouped ++ groups)%list).
Proof.
  induction groups as [|g groups IH]; intros combined grouped body Hrows;
    simpl.
  - unfold group_values. simpl. rewrite !app_nil_r, <- Hrows.
    now destruct combined.
  - unfold add_group at 2. cbn [fst snd].
    rewrite (IH _ _ (body ++ map values (rows (snd g)))%list).
    + cbn [columns concat_ignore_index]. unfold group_values. simpl.
      now rewrite <- !app_assoc.
    + cbn [rows concat_ignore_index].
      now rewrite map_app, Hrows, values_range_index.
Qed.

(** Grouping the projected frame, in closed form. *)
Lemma process_filtered_data_eq df selected :
  (forall c, In c selected -> In c (columns df)) ->
  In "Naam" selected ->
  process_filtered_data df selected true
  = Ok ({| columns := selected;
           rows := range_index 0 (group_values (groups_of df selected)) |},
        Some (groups_of df selected)).
Proof.
  intros Hsel HN. unfold process_filtered_data.
  rewrite getitem_list_eq by exact Hsel. cbn [mbind result_bind].
  rewrite groupby_eq by exact HN. cbn [mbind result_bind columns rows].
  assert (Hnames :
    map (fun r => cell_of {| columns := selected;
                             rows := map (project_row df selected) (rows df) |}
                    r "Naam")
        (map (project_row df selected) (rows df))
    = names_of df).
  { rewrite map_map. apply map_ext. intros r. now apply cell_of_project. }
  rewrite Hnames. fold (group_keys df).
  assert (Hgroups :
    map (fun k =>
           (k, {| columns := selected;
                  rows := List.filter
                    (fun r => eq_elem k
                       (cell_of {| columns := selected;
                                   rows := map (project_row df selected)
                                             (rows df) |} r "Naam"))
                    (map (project_row df selected) (rows df)) |}))
        (group_keys df)
    = groups_of df selected).
  { unfold groups_of. apply map_ext_in. intros k Hk.
    do 3 f_equal. rewrite filter_map_comm. f_equal.
    apply List.filter_ext. intros r.
    rewrite cell_of_project by exact HN.
    apply eq_elem_decide.
    destruct (group_keys_spec (names_of df)) as (_ & _ & Hin).
    now apply Hin in Hk. }
  rewrite Hgroups.
  rewrite (fold_add_group_rows (groups_of df selected) _ [] [])
    by reflexivity.
  reflexivity.
Qed.

Lemma filter_orb_perm {A : Type} (p q : A -> bool) (l : list A) :
  (forall x, In x l -> p x = true -> q x = false) ->
  Permutation (List.filter (fun x => p x || q x) l)
              (List.filter p l ++ List.filter q l).
Proof.
  induction l as [|x l IH]; simpl; intros Hdis; [reflexivity|].
  assert (IH' := IH (fun y Hy => Hdis y (or_intror Hy))).
  destruct (p x) eqn:Hp; simpl.
  - rewrite (Hdis x (or_introl eq_refl) Hp). now constructor.
  - destruct (q x); simpl; [|exact IH'].
    rewrite IH'. apply Permutation_middle.
Qed.

(** The rows of the listed assignees, assignee by assignee, are the rows
    whose assignee is listed, in another order. *)
Lemma concat_rows_perm {A : Type} (f : A -> cell) (l : list A) keys :
  List.NoDup keys ->
  Permutation
    (concat (map (fun k => List.filter (fun r => bool_decide (f r = k)) l)
                 keys))
    (List.filter (fun r => among (f r) keys) l).
Proof.
  induction 1 as [|k keys Hk Hnd IH]; simpl.
  - now rewrite filter_none.
  - rewrite IH. symmetry. apply filter_orb_perm.
    intros r _ Heq. apply bool_decide_eq_true in Heq. subst k.
    apply not_true_iff_false. unfold among. now rewrite existsb_decide_In.
Qed.

Lemma among_group_keys df r :
  In r (rows df) ->
  among (cell_of df r "Naam") (group_keys df)
  = negb (isna (cell_of df r "Naam")).
Proof.
  intros Hr. apply eq_true_iff_eq. unfold among, group_keys.
  destruct (group_keys_spec (names_of df)) as (_ & _ & Hin).
  rewrite existsb_decide_In, Hin, negb_true_iff. split.
  - intros [Hne _]. now destruct (cell_of df r "Naam").
  - intros Hna. split; [intros Heq; now rewrite Heq in Hna|].
    unfold names_of. apply in_map_iff. now exists r.
Qed.

Lemma group_values_groups_of df selected :
  group_values (groups_of df selected)
  = map (fun r => map (cell_of df r) selected)
        (concat (map (rows_of df) (group_keys df))).
Proof.
  unfold group_values, groups_of. rewrite map_map. cbn [snd rows].
  induction (group_keys df) as [|k keys IH]; simpl; [reflexivity|].
  now rewrite IH, map_app, map_map.
Qed.

(** X8. A selected column the table lacks makes [process_filtered_data]
    fail, grouped or not and whether or not ["Naam"] is selected, with a
    missing-column error for a selected column that the table lacks. *)
Theorem process_filtered_data_missing_column df selected per_naam c :
  In c selected -> ~ In c (columns df) ->
  exists key,
    process_filtered_data df selected per_naam = KeyError key
    /\ In key selected /\ ~ In key (columns df).
Proof.
  intros Hc Hno. unfold process_filtered_data, getitem_list.
  destruct (get_locs_missing (columns df) selected c Hc Hno)
    as (key & -> & Hkey & Hmiss).
  now exists key.
Qed.

(** X9. On a table with distinct labels and a selection of distinct
    columns of the table with ["Naam"] among them, the groups returned
    are keyed by the distinct assignees that are not
    missing, in ascending order, and the group of an assignee holds
    exactly the rows of that assignee, cut down to the selection, under
    their original labels and in their original order; no group is
    empty. *)
Theorem process_filtered_data_groups df selected :
  List.NoDup (columns df) -> List.NoDup selected ->
  (forall c, In c selected -> In c (columns df)) ->
  In "Naam" selected ->
  exists combined groups,
    process_filtered_data df selected true = Ok (combined, Some groups)
    /\ List.NoDup (map fst groups)
    /\ Sorted cell_le (map fst groups)
    /\ (forall k, In k (map fst groups) <->
          k <> NaN /\ In k (names_of df))
    /\ forall k g, In (k, g) groups ->
         rows g = map (project_row df selected) (rows_of df k)
         /\ rows g <> [].
Proof.
  intros _ _ Hsel HN. do 2 eexists.
  split; [now apply process_filtered_data_eq|].
  assert (Hkeys : map fst (groups_of df selected) = group_keys df).
  { unfold groups_of. rewrite map_map. apply map_id. }
  rewrite Hkeys.
  destruct (group_keys_spec (names_of df)) as (Hnd & Hsorted & Hin).
  split; [exact Hnd|]. split; [exact Hsorted|]. split; [exact Hin|].
  intros k g Hg. unfold groups_of in Hg.
  apply in_map_iff in Hg as (k' & [= -> <-] & Hk). cbn [rows].
  split; [reflexivity|].
  apply Hin in Hk as [Hne Hk]. unfold names_of in Hk.
  apply in_map_iff in Hk as (r & Hr & Hrin).
  assert (Hrow : In r (rows_of df k)).
  { unfold rows_of. apply filter_In. split; [exact Hrin|].
    now apply bool_decide_eq_true. }
  destruct (rows_of df k); [destruct Hrow | discriminate].
Qed.

(** X10. On a table with distinct labels and a selection of distinct
    columns of the table with ["Naam"] among them, the combined table
    holds the groups' rows one group after the other, renumbered from 0;
    taken together these are, in another order, the projected rows of
    the table that have an assignee, so rows without assignee are not in
    it. *)
Theorem process_filtered_data_combined df selected :
  List.NoDup (columns df) -> List.NoDup selected ->
  (forall c, In c selected -> In c (columns df)) ->
  In "Naam" selected ->
  exists combined groups,
    process_filtered_data df selected true = Ok (combined, Some groups)
    /\ map values (rows combined) = group_values groups
    /\ labels combined = seq 0 (length (rows combined))
    /\ Permutation (map values (rows combined))
         (map (fun r => map (cell_of df r) selected)
              (List.filter (fun r => negb (isna (cell_of df r "Naam")))
                 (rows df))).
Proof.
  intros _ _ Hsel HN. do 2 eexists.
  split; [now apply process_filtered_data_eq|]. cbn [rows].
  rewrite values_range_index. split; [reflexivity|]. split.
  - unfold labels. cbn [rows].
    now rewrite label_range_index, <- (length_map label), label_range_index,
      length_seq.
  - rewrite group_values_groups_of. apply Permutation_map.
    unfold rows_of.
    rewrite (concat_rows_perm (fun r => cell_of df r "Naam") (rows df)
               (group_keys df)).
    + erewrite filter_ext_in; [reflexivity|].
      intros r Hr. now apply among_group_keys.
    + apply group_keys_spec.
Qed.

(** X11. The summary agrees with the groups: on a table with distinct
    labels and a selection of distinct columns of the table with ["Naam"]
    among them, [create_aggregated_data] lists the assignees of the
    groups of [process_filtered_data] in the same order, each with the
    number of rows of its group. *)
Theorem aggregated_counts_match_groups df selected :
  List.NoDup (columns df) -> List.NoDup selected ->
  (forall c, In c selected -> In c (columns df)) ->
  In "Naam" selected ->
  exists combined groups aggregated,
    process_filtered_data df selected true = Ok (combined, Some groups)
    /\ create_aggregated_data df = Ok aggregated
    /\ map values (rows aggregated)
       = map (fun g => [fst g; Num (Z.of_nat (length (rows (snd g))))])
             groups.
Proof.
  intros _ _ Hsel HN. do 3 eexists.
  split; [now apply process_filtered_data_eq|].
  assert (HNdf : In "Naam" (columns df)) by now apply Hsel.
  unfold create_aggregated_data. rewrite groupby_eq by exact HNdf.
  cbn [mbind result_bind]. split; [reflexivity|].
  cbn [rows]. rewrite values_range_index. unfold groups_of.
  rewrite !map_map. fold (names_of df). fold (group_keys df).
  apply map_ext_in. intros k Hk. cbn [fst snd rows].
  rewrite length_map. do 5 f_equal. unfold rows_of.
  apply List.filter_ext. intros r. apply eq_elem_decide.
  destruct (group_keys_spec (names_of df)) as (_ & _ & Hin).
  now apply Hin in Hk.
Qed.

(* ================================================================== *)
(** * More on the summary *)
(* ================================================================== *)

(** X12. Every row of the summary counts at least one task and at most
    as many as the table has rows: an assignee is listed only when some
    row carries it. *)
Theorem create_aggregated_data_positive df :
  In "Naam" (columns df) ->
  exists aggregated,
    create_aggregated_data df = Ok aggregated
    /\ forall row, In row (rows aggregated) ->
         exists k n, values row = [k; Num (Z.of_nat n)]
                     /\ 1 <= n <= length (rows df).
Proof.
  intros HN. unfold create_aggregated_data.
  rewrite groupby_eq by exact HN. cbn [mbind result_bind].
  eexists. split; [reflexivity|]. intros row Hrow.
  apply (in_map values) in Hrow. cbn [rows] in Hrow.
  rewrite values_range_index, map_map in Hrow.
  apply in_map_iff in Hrow as (k & <- & Hk). cbn [fst snd rows].
  do 2 eexists. split; [reflexivity|].
  destruct (group_keys_spec (map (fun r => cell_of df r "Naam") (rows df)))
    as (_ & _ & Hin).
  apply Hin in Hk as [Hne Hk].
  apply in_map_iff in Hk as (r & Hr & Hrin). split.
  - assert (Hmem : In r (List.filter
                           (fun r0 => eq_elem k (cell_of df r0 "Naam"))
                           (rows df))).
    { apply filter_In. split; [exact Hrin|].
      rewrite eq_elem_decide by exact Hne. now apply bool_decide_eq_true. }
    destruct (List.filter _ (rows df)); [destruct Hmem | simpl; lia].
  - apply filter_length_le.
Qed.

(* ================================================================== *)
(** * More on the comparison *)
(* ================================================================== *)

Lemma unique_app a b :
  unique (a ++ b)
  = (unique a ++ List.filter (fun y => negb (among y a)) (unique b))%list.
Proof.
  induction a as [|x a IH]; simpl.
  - symmetry. now apply filter_all.
  - f_equal. rewrite IH, List.filter_app, filter_filter. f_equal.
    apply List.filter_ext. intros y.
    unfold among. simpl. now rewrite negb_orb, andb_comm.
Qed.

Lemma getitem_Ok_cells df name l :
  getitem df name = Ok l -> l = map (fun r => cell_of df r name) (rows df).
Proof.
  unfold getitem, cell_of.
  destruct (get_loc (columns df) name); [now intros [= <-] | discriminate].
Qed.

Lemma size_split (X Y : gset string) :
  size X = size (Y ∩ X) + size (X ∖ Y).
Proof.
  assert (Hd : size (X ∖ Y) = size X - size (X ∩ Y))
    by apply size_difference_alt.
  assert (Hi : size (X ∩ Y) <= size X).
  { apply subseteq_size. intros s Hs. now apply elem_of_intersection in Hs. }
  rewrite (comm_L (∩) Y X). lia.
Qed.

Section ComparisonMore.

Variable timestamp_str : Z -> string.
Variable set_iter : gset string -> list string.
Variable rnd : Q -> Q.

#[local] Abbreviation compare_name := (compare_name timestamp_str set_iter rnd).
#[local] Abbreviation for_names := (for_names timestamp_str set_iter rnd).
#[local] Abbreviation compare_tasks_grouped_by_name :=
  (compare_tasks_grouped_by_name timestamp_str set_iter rnd).
#[local] Abbreviation row_for := (row_for timestamp_str set_iter rnd).
#[local] Abbreviation compared_ids := (compared_ids timestamp_str).

(** A row of the loop body, whatever the columns: its assignee and its
    four counts over two sets. *)
Lemma compare_name_counts current_df previous_df ob_col name row :
  compare_name current_df previous_df ob_col name = Ok row ->
  Naam row = name
  /\ exists C P : gset string,
       new_tasks row = size (C ∖ P) /\ old_tasks row = size (C ∩ P)
       /\ previous_total row = size P /\ edited_tasks row = size (P ∖ C)
       /\ percentage row = percentage_of rnd (size (P ∖ C)) (size P).
Proof.
  unfold compare_name.
  destruct (tasks_of current_df name) as [ct|]; [|discriminate].
  destruct (tasks_of previous_df name) as [pt|]; [|discriminate].
  cbn [mbind result_bind].
  destruct (id_set timestamp_str ct ob_col) as [C|]; [|discriminate].
  destruct (id_set timestamp_str pt ob_col) as [P|]; [|discriminate].
  cbn [mbind result_bind]. intros [= <-].
  split; [reflexivity|]. now exists C, P.
Qed.

Lemma for_names_names current_df previous_df ob_col names : forall out,
  for_names current_df previous_df ob_col names = Ok out ->
  map Naam out = names.
Proof.
  induction names as [|name names IH]; simpl; intros out.
  - now intros [= <-].
  - destruct (compare_name current_df previous_df ob_col name) as [r|] eqn:Hr;
      [|discriminate].
    cbn [mbind result_bind].
    destruct (for_names current_df previous_df ob_col names) as [rs|];
      [|discriminate].
    cbn [mbind result_bind]. intros [= <-]. simpl.
    apply compare_name_counts in Hr as [-> _]. f_equal. now apply IH.
Qed.

(** X13. In every row the comparison returns, whatever the tables, the
    kept and the edited tasks add up to the previous total; so neither
    exceeds it. *)
Theorem compare_counts_add_up current_df previous_df out :
  compare_tasks_grouped_by_name current_df previous_df = Ok out ->
  forall row, In row out ->
    old_tasks row + edited_tasks row = previous_total row.
Proof.
  intros Hout row Hrow.
  destruct (compare_rows_from_names _ _ _ _ _ _ Hout row Hrow)
    as (name & Hname).
  apply compare_name_counts in Hname
    as (_ & C & P & _ & -> & -> & -> & _).
  symmetry. apply size_split.
Qed.

(** X14. The rows of the comparison come in a fixed order: first the
    assignees of the current table in order of first appearance, then
    the assignees found only in the previous table, in order of first
    appearance there. *)
Theorem compare_row_order current_df previous_df out :
  compare_tasks_grouped_by_name current_df previous_df = Ok out ->
  map Naam out
  = (unique (names_of current_df)
     ++ List.filter (fun n => negb (among n (names_of current_df)))
          (unique (names_of previous_df)))%list.
Proof.
  unfold compare_tasks_grouped_by_name.
  destruct (getitem current_df "Naam") as [cn|] eqn:Hcn; [|discriminate].
  destruct (getitem previous_df "Naam") as [pn|] eqn:Hpn; [|discriminate].
  cbn [mbind result_bind]. intros Hout.
  apply for_names_names in Hout. rewrite Hout.
  apply getitem_Ok_cells in Hcn, Hpn. subst cn pn.
  apply unique_app.
Qed.

(** X15. When all previous tasks of an assignee are gone from the
    current table (a positive previous total, nothing kept), the
    percentage is 100. *)
Theorem compare_all_edited current_df previous_df out :
  (forall x y, (x <= y)%Q -> (rnd x <= rnd y)%Q) ->
  (forall z, (0 <= z <= 100)%Z -> (rnd (inject_Z z) == inject_Z z)%Q) ->
  compare_tasks_grouped_by_name current_df previous_df = Ok out ->
  forall row, In row out ->
    0 < previous_total row -> old_tasks row = 0 ->
    (percentage row == 100)%Q.
Proof.
  intros Hmono Hwhole Hout row Hrow.
  destruct (compare_rows_from_names _ _ _ _ _ _ Hout row Hrow)
    as (name & Hname).
  apply compare_name_counts in Hname
    as (_ & C & P & _ & -> & -> & _ & ->).
  intros Hpos Hold.
  assert (Hall : size (P ∖ C) = size P).
  { pose proof (size_split P C). lia. }
  rewrite Hall. unfold percentage_of, fdiv.
  destruct (Nat.ltb_spec 0 (size P)) as [_|Hp]; [|lia].
  set (p := inject_Z (Z.of_nat (size P))).
  assert (Hp0 : ~ (p == 0)%Q).
  { unfold p. change 0%Q with (inject_Z 0). rewrite inject_Z_injective. lia. }
  assert (Hrnd : forall x y, (x == y)%Q -> (rnd x == rnd y)%Q).
  { intros x y Hxy. apply Qle_antisym; apply Hmono; rewrite Hxy; apply Qle_refl. }
  assert (H1 : (rnd (p / p) == 1)%Q).
  { transitivity (rnd 1); [|exact (Hwhole 1%Z ltac:(lia))].
    apply Hrnd. unfold Qdiv. now apply Qmult_inv_r. }
  unfold fmul, round1.
  assert (H2 : (rnd (rnd (p / p) * 100) == 100)%Q).
  { transitivity (rnd 100); [|exact (Hwhole 100%Z ltac:(lia))].
    apply Hrnd. rewrite H1. reflexivity. }
  assert (H3 : round_half_even (rnd (rnd (p / p) * 100) * 10) = 1000%Z).
  { assert (H := round_half_even_between 1000 1000
                   (rnd (rnd (p / p) * 100) * 10)).
    assert (Hq : (rnd (rnd (p / p) * 100) * 10 == inject_Z 1000)%Q)
      by (rewrite H2; reflexivity).
    destruct H as [Ha Hb]; [rewrite Hq; split; apply Qle_refl | lia]. }
  rewrite H3.
  transitivity (rnd (inject_Z 100)); [|exact (Hwhole 100%Z ltac:(lia))].
  apply Hrnd. reflexivity.
Qed.

End ComparisonMore.

Section ComparisonShape.

Variable timestamp_str : Z -> string.
Variable set_iter : gset string -> list string.
Variable rnd : Q -> Q.

#[local] Abbreviation compare_tasks_grouped_by_name :=
  (compare_tasks_grouped_by_name timestamp_str set_iter rnd).
#[local] Abbreviation row_for := (row_for timestamp_str set_iter rnd).
#[local] Abbreviation compared_ids := (compared_ids timestamp_str).

(** X16. A table compared with itself shows no change: for every
    assignee no task is new, none is edited, all previous tasks are
    kept, and the percentage is 0. *)
Theorem compare_with_itself df :
  (forall x y, (x <= y)%Q -> (rnd x <= rnd y)%Q) ->
  (forall z, (0 <= z <= 100)%Z -> (rnd (inject_Z z) == inject_Z z)%Q) ->
  In "Naam" (columns df) ->
  In (pick_ob_col (columns df)) (columns df) ->
  exists out,
    compare_tasks_grouped_by_name df df = Ok out
    /\ forall row, In row out ->
         new_tasks row = 0 /\ edited_tasks row = 0
         /\ old_tasks row = previous_total row
         /\ (percentage row == 0)%Q.
Proof.
  intros Hmono Hwhole HN Hob. eexists.
  split; [now apply compare_eq|].
  intros row Hrow. apply in_map_iff in Hrow as (name & <- & _).
  unfold row_for.
  cbn [new_tasks edited_tasks old_tasks previous_total percentage].
  set (C := compared_ids df (pick_ob_col (columns df)) name).
  assert (Hdiff : C ∖ C = ∅) by apply difference_diag_L.
  assert (Hinter : C ∩ C = C) by apply (idemp_L (∩)).
  rewrite Hdiff, Hinter, size_empty. repeat split.
  now apply percentage_of_none_edited.
Qed.

(** X17. Swapping the two tables swaps the roles: when both tables pick
    the same identifier column, every assignee's row of the swapped
    comparison has the new and the edited counts exchanged, the same
    kept count, and as previous total the number of the assignee's
    current tasks. *)
Theorem compare_swapped current_df previous_df :
  In "Naam" (columns current_df) -> In "Naam" (columns previous_df) ->
  pick_ob_col (columns previous_df) = pick_ob_col (columns current_df) ->
  In (pick_ob_col (columns current_df)) (columns current_df) ->
  In (pick_ob_col (columns current_df)) (columns previous_df) ->
  exists out swapped,
    compare_tasks_grouped_by_name current_df previous_df = Ok out
    /\ compare_tasks_grouped_by_name previous_df current_df = Ok swapped
    /\ forall row, In row out ->
         exists row', In row' swapped
           /\ Naam row' = Naam row
           /\ new_tasks row' = edited_tasks row
           /\ edited_tasks row' = new_tasks row
           /\ old_tasks row' = old_tasks row
           /\ previous_total row' = new_tasks row + old_tasks row.
Proof.
  intros HNc HNp Hpick Hoc Hop. do 2 eexists.
  split; [now apply compare_eq|].
  split; [apply compare_eq; try assumption; now rewrite Hpick|].
  intros row Hrow. apply in_map_iff in Hrow as (name & <- & Hname).
  rewrite Hpick.
  exists (row_for previous_df current_df
            (pick_ob_col (columns current_df)) name).
  split.
  { apply in_map. rewrite In_unique, in_app_iff.
    rewrite In_unique, in_app_iff in Hname. tauto. }
  unfold row_for.
  cbn [Naam new_tasks edited_tasks old_tasks previous_total].
  set (C := compared_ids current_df (pick_ob_col (columns current_df)) name).
  set (P := compared_ids previous_df (pick_ob_col (columns current_df)) name).
  repeat split.
  - now rewrite (comm_L (∩) P C).
  - rewrite (size_split C P), (comm_L (∩) P C). lia.
Qed.

(** X18. When the comparison returns and when it fails: it returns
    exactly when both tables have the assignee column and either both
    are without rows or both have the identifier column; it fails on
    ["Naam"] when a table lacks the assignee column, and otherwise on
    the identifier column, which is then missing from a table while some
    row exists. *)
Theorem compare_returns_or_fails current_df previous_df :
  match compare_tasks_grouped_by_name current_df previous_df with
  | Ok out =>
      In "Naam" (columns current_df) /\ In "Naam" (columns previous_df)
      /\ ((rows current_df = [] /\ rows previous_df = [])
          \/ (In (pick_ob_col (columns current_df)) (columns current_df)
              /\ In (pick_ob_col (columns current_df))
                    (columns previous_df)))
  | KeyError key =>
      (key = "Naam"
       /\ (~ In "Naam" (columns current_df)
           \/ ~ In "Naam" (columns previous_df)))
      \/ (key = pick_ob_col (columns current_df)
          /\ (rows current_df <> [] \/ rows previous_df <> [])
          /\ (~ In (pick_ob_col (columns current_df)) (columns current_df)
              \/ ~ In (pick_ob_col (columns current_df))
                      (columns previous_df)))
  end.
Proof.
  destruct (in_dec string_dec "Naam" (columns current_df)) as [HNc|HNc].
  2:{ unfold compare_tasks_grouped_by_name.
      rewrite (getitem_missing current_df) by exact HNc. left. tauto. }
  destruct (in_dec string_dec "Naam" (columns previous_df)) as [HNp|HNp].
  2:{ unfold compare_tasks_grouped_by_name.
      rewrite (getitem_cell_of current_df) by exact HNc.
      cbn [mbind result_bind].
      rewrite (getitem_missing previous_df) by exact HNp. left. tauto. }
  destruct (in_dec string_dec (pick_ob_col (columns current_df))
              (columns current_df)) as [Hoc|Hoc];
    [destruct (in_dec string_dec (pick_ob_col (columns current_df))
                 (columns previous_df)) as [Hop|Hop]|].
  - rewrite compare_eq by assumption. tauto.
  - unfold compare_tasks_grouped_by_name.
    rewrite !getitem_cell_of by assumption. cbn [mbind result_bind].
    destruct (rows current_df) as [|r rs]; [destruct (rows previous_df)|];
      simpl; [tauto|..];
      rewrite compare_name_missing by tauto; cbn [mbind result_bind];
      right; (split; [reflexivity|]); (split; [|tauto]);
      [right | left]; discriminate.
  - unfold compare_tasks_grouped_by_name.
    rewrite !getitem_cell_of by assumption. cbn [mbind result_bind].
    destruct (rows current_df) as [|r rs]; [destruct (rows previous_df)|];
      simpl; [tauto|..];
      rewrite compare_name_missing by tauto; cbn [mbind result_bind];
      right; (split; [reflexivity|]); (split; [|tauto]);
      [right | left]; discriminate.
Qed.

End ComparisonShape.

Lemma ids_of_texts timestamp_str df ob_col name :
  TextColumn df ob_col ->
  ids_of timestamp_str df ob_col name = texts_of df ob_col name.
Proof.
  intros Htext. apply set_eq. intros s. rewrite elem_of_ids_of.
  unfold texts_of. rewrite elem_of_list_to_set, list_elem_of_In, in_flat_map.
  split.
  - intros (r & Hr & Hn & Hna & Hs). exists r. split; [exact Hr|].
    rewrite bool_decide_eq_true_2 by exact Hn.
    destruct (Htext r Hr) as [Hc|[t Hc]]; [contradiction|].
    rewrite Hc in Hs |- *. simpl in Hs. subst. now left.
  - intros (r & Hr & Hin). exists r. split; [exact Hr|].
    case_bool_decide as Hn; [|destruct Hin].
    destruct (cell_of df r ob_col) as [|t|z|ns];
      [destruct Hin | | destruct Hin | destruct Hin].
    destruct Hin as [<-|[]]. repeat split; [exact Hn | discriminate].
Qed.

Section ComparisonTexts.

Variable timestamp_str : Z -> string.
Variable set_iter : gset string -> list string.
Variable rnd : Q -> Q.

#[local] Abbreviation compare_tasks_grouped_by_name :=
  (compare_tasks_grouped_by_name timestamp_str set_iter rnd).

(** X24. What the comparison counts, for identifiers kept as text.  On
    two tables with distinct labels that both have the assignee column
    and the identifier column - the first column of the current table
    whose name holds ["Obligo extern formaa"], else ["OH-order"] - and
    whose identifier cells are texts or empty, the row of an assignee
    that is not missing holds the sizes of current minus previous, of
    the intersection, of previous, and of previous minus current, where
    current and previous are the distinct identifiers of that assignee's
    rows in the two tables; and it holds the elements of the
    intersection, each once, joined with [", "]. *)
Theorem compare_sets_of_texts current_df previous_df :
  (forall X, Permutation (set_iter X) (elements X)) ->
  List.NoDup (columns current_df) -> List.NoDup (columns previous_df) ->
  In "Naam" (columns current_df) -> In "Naam" (columns previous_df) ->
  In (pick_ob_col (columns current_df)) (columns current_df) ->
  In (pick_ob_col (columns current_df)) (columns previous_df) ->
  TextColumn current_df (pick_ob_col (columns current_df)) ->
  TextColumn previous_df (pick_ob_col (columns current_df)) ->
  IdentifierColumn (columns current_df) (pick_ob_col (columns current_df))
  /\ exists out,
       compare_tasks_grouped_by_name current_df previous_df = Ok out
       /\ forall row, In row out -> Naam row <> NaN ->
            let C := texts_of current_df
                       (pick_ob_col (columns current_df)) (Naam row) in
            let P := texts_of previous_df
                       (pick_ob_col (columns current_df)) (Naam row) in
            new_tasks row = size (C ∖ P)
            /\ old_tasks row = size (C ∩ P)
            /\ previous_total row = size P
            /\ edited_tasks row = size (P ∖ C)
            /\ exists common,
                 Permutation common (elements (C ∩ P))
                 /\ oude_taken row = Str.join ", " common.
Proof.
  intros Hiter _ _ HNc HNp Hoc Hop Htc Htp.
  split; [apply pick_ob_col_spec|].
  eexists. split; [now apply compare_eq|].
  intros row Hrow Hname. apply in_map_iff in Hrow as (name & <- & _).
  cbn [Naam] in Hname. unfold row_for, compared_ids.
  cbn [Naam new_tasks old_tasks previous_total edited_tasks oude_taken].
  replace (isna name) with false by (now destruct name).
  rewrite !(ids_of_texts timestamp_str) by assumption.
  repeat split.
  case_bool_decide as Hempty.
  - exists []. rewrite Hempty, elements_empty. now split.
  - eexists. split; [apply Hiter | reflexivity].
Qed.

End ComparisonTexts.

(* ================================================================== *)
(** * The run of main on the current file *)
(* ================================================================== *)

Lemma default_checked_Naam : default_checked "Naam" = true.
Proof. reflexivity. Qed.

Lemma select_columns_In checkbox df c :
  In c (select_columns checkbox df)
  <-> In c (columns df) /\ checkbox c (default_checked c) = true.
Proof. unfold select_columns. apply filter_In. Qed.

(** Grouping a projection succeeds with ["Naam"] selected and fails on
    ["Naam"] without. *)
Lemma process_filtered_data_Naam df selected :
  (forall c, In c selected -> In c (columns df)) ->
  match process_filtered_data df selected true with
  | Ok _ => In "Naam" selected
  | KeyError key => key = "Naam" /\ ~ In "Naam" selected
  end.
Proof.
  intros Hsel.
  destruct (in_dec string_dec "Naam" selected) as [Hyes|Hno].
  - now rewrite process_filtered_data_eq.
  - unfold process_filtered_data.
    rewrite getitem_list_eq by exact Hsel. cbn [mbind result_bind].
    unfold groupby. rewrite getitem_missing by exact Hno. now split.
Qed.

(** X19. The boxes decide the grouping step: on a table with distinct
    labels and an assignee column, whatever boxes the user checks, every
    checked column is found, and [process_filtered_data] on the checked
    columns returns exactly when the ["Naam"] box - offered checked - is
    still checked; otherwise it fails with the missing-column error for
    ["Naam"]. *)
Theorem selection_groups_iff_naam checkbox df :
  List.NoDup (columns df) -> In "Naam" (columns df) ->
  match process_filtered_data df (select_columns checkbox df) true with
  | Ok _ => checkbox "Naam" true = true
  | KeyError key => key = "Naam" /\ checkbox "Naam" true = false
  end.
Proof.
  intros _ HN.
  assert (Hsub : forall c, In c (select_columns checkbox df) ->
                   In c (columns df)).
  { intros c Hc. now apply select_columns_In in Hc. }
  pose proof (process_filtered_data_Naam df (select_columns checkbox df) Hsub)
    as H.
  destruct (process_filtered_data df (select_columns checkbox df) true)
    as [res|key].
  - apply select_columns_In in H as [_ H].
    now rewrite default_checked_Naam in H.
  - destruct H as [-> Hno]. split; [reflexivity|].
    destruct (checkbox "Naam" true) eqn:Hbox; [|reflexivity].
    exfalso. apply Hno. apply select_columns_In.
    split; [exact HN | now rewrite default_checked_Naam].
Qed.

(* ================================================================== *)
(** * The workbook *)
(* ================================================================== *)

Lemma substring_0_length n : forall s, String.length (substring 0 n s) <= n.
Proof.
  induction n as [|n IH]; intros [|c s]; simpl; try lia.
  specialize (IH s). lia.
Qed.

Lemma valid_name_length name : String.length (valid_name name) <= 31.
Proof.
  unfold valid_name. destruct (Nat.leb_spec (String.length name) 31);
    [assumption | apply substring_0_length].
Qed.

Lemma per_name_sheets_lengths items : forall sheets,
  per_name_sheets items = Some sheets ->
  Forall (fun sheet => String.length (fst sheet) <= 31) sheets.
Proof.
  induction items as [|[k g] items IH]; simpl; intros sheets.
  - intros [= <-]. constructor.
  - destruct k as [|s|z|ns]; try discriminate.
    destruct (per_name_sheets items) as [later|]; [|discriminate].
    cbn [mbind option_bind]. intros [= <-].
    constructor; [apply valid_name_length | now apply IH].
Qed.

(** X21. No sheet name handed to the workbook is longer than 31
    characters, whatever tables, assignees and flags the call gets. *)
Theorem workbook_sheet_names_fit everything_df dict_per_name aggregated_df
    comparison_df download_everything download_per_name download_aggregated
    download_comparison sheets :
  create_combined_excel_file everything_df dict_per_name aggregated_df
    comparison_df download_everything download_per_name download_aggregated
    download_comparison = Some sheets ->
  forall name data, In (name, data) sheets -> String.length name <= 31.
Proof.
  unfold create_combined_excel_file.
  destruct (match dict_per_name with
            | Some items =>
                if download_per_name then per_name_sheets items else Some []
            | None => Some []
            end) as [per_name|] eqn:Hper; [|discriminate].
  cbn [mbind option_bind]. intros [= <-] name data Hin.
  assert (Hnames : Forall (fun sheet => String.length (fst sheet) <= 31)
                     per_name).
  { destruct dict_per_name as [items|];
      [destruct download_per_name|];
      try (injection Hper as <-; constructor).
    now apply per_name_sheets_lengths in Hper. }
  rewrite !in_app_iff in Hin. destruct Hin as [H|[H|[H|H]]].
  - destruct everything_df; [destruct download_everything|];
      simpl in H; try contradiction.
    destruct H as [[= <- _]|[]]. simpl. lia.
  - rewrite List.Forall_forall in Hnames. exact (Hnames _ H).
  - destruct aggregated_df; [destruct download_aggregated|];
      simpl in H; try contradiction.
    destruct H as [[= <- _]|[]]. simpl. lia.
  - destruct comparison_df; [destruct download_comparison|];
      simpl in H; try contradiction.
    destruct H as [[= <- _]|[]]. simpl. lia.
Qed.

Lemma date_cols_from_In cols name : forall i start,
  get_loc cols name = Some i -> Str.contains "Leverdatum" name = true ->
  In (start + i) (date_cols_from start cols).
Proof.
  induction cols as [|c cols IH]; simpl; intros i start; [discriminate|].
  destruct (String.eqb_spec c name) as [->|Hne].
  - intros [= <-] ->. rewrite Nat.add_0_r. now left.
  - destruct (get_loc cols name) as [j|] eqn:Hj; [|discriminate].
    simpl. intros [= <-] Hpat.
    assert (Hin : In (start + S j) (date_cols_from (S start) cols)).
    { rewrite Nat.add_succ_r. now apply (IH j (S start)). }
    destruct (Str.contains "Leverdatum" c); [now right | exact Hin].
Qed.

Lemma column_datetimes_all today col_idx rs : forall row_num,
  (forall r, In r rs ->
     exists ns, iat r col_idx = Timestamp ns /\ (ns <= today)%Z) ->
  map (fun w => fst (fst w)) (column_datetimes row_num col_idx rs)
  = seq row_num (length rs)
  /\ forall w, In w (column_datetimes row_num col_idx rs) ->
       (snd w <= today)%Z.
Proof.
  induction rs as [|r rs IH]; intros row_num Hall; simpl.
  - split; [reflexivity | intros w []].
  - destruct (Hall r (or_introl eq_refl)) as (ns & -> & Hns).
    destruct (IH (S row_num) (fun r0 H0 => Hall r0 (or_intror H0)))
      as [Hseq Hle].
    simpl. rewrite Hseq. split; [reflexivity|].
    intros w [<-|Hw]; [exact Hns | now apply Hle].
Qed.

Lemma range_index_values start body r :
  In r (range_index start body) -> In (values r) body.
Proof.
  intros H. apply (in_map values) in H.
  now rewrite values_range_index in H.
Qed.

Section DatesWritten.

Variable to_datetime : dtype -> list cell -> list cell.

(** X23. Every delivery date of the combined sheet is written as a
    date: when the filter returns a table and that table is cut down to
    a selection of distinct columns that holds ["Naam"] and
    ["Leverdatum"] and is regrouped, the date loop of [write_sheet] issues
    for the ["Leverdatum"] column one [write_datetime] per data row, rows
    1 to n in order, each with a moment not after [today]. *)
Theorem combined_dates_written today df flag selected df' filtered_df :
  WellFormed df -> List.NoDup selected ->
  (forall c, In c selected -> In c (columns (content df))) ->
  In "Naam" selected -> In "Leverdatum" selected ->
  apply_filters to_datetime today df flag = (df', Returns filtered_df) ->
  exists combined_df groups col_idx,
    process_filtered_data (content filtered_df) selected true
    = Ok (combined_df, Some groups)
    /\ get_loc (columns combined_df) "Leverdatum" = Some col_idx
    /\ map (fun w => fst (fst w))
           (column_datetimes 1 col_idx (rows combined_df))
       = seq 1 (length (rows combined_df))
    /\ forall w, In w (column_datetimes 1 col_idx (rows combined_df)) ->
         In w (write_datetimes combined_df) /\ (snd w <= today)%Z.
Proof.
  intros _ _ Hsel HN HL Hcall.
  apply apply_filters_Returns in Hcall as (-> & _ & _ & _ & ->).
  set (D := dated to_datetime df).
  set (filtered := content (with_rows D _)).
  assert (Hcols : columns filtered = columns (content df)).
  { cbn [filtered content columns with_rows]. apply dated_columns. }
  destruct (get_loc_In selected "Leverdatum" HL) as [i Hi].
  do 2 eexists. exists i.
  split.
  { apply process_filtered_data_eq; [|exact HN].
    intros c Hc. rewrite Hcols. now apply Hsel. }
  cbn [columns rows]. split; [exact Hi|].
  assert (Hall : forall r,
    In r (range_index 0 (group_values (groups_of filtered selected))) ->
    exists ns, iat r i = Timestamp ns /\ (ns <= today)%Z).
  { intros r Hr. apply range_index_values in Hr.
    rewrite group_values_groups_of in Hr.
    apply in_map_iff in Hr as (r0 & Hvals & Hr0).
    apply in_concat in Hr0 as (rs & Hrs & Hr0).
    apply in_map_iff in Hrs as (k & <- & _).
    unfold rows_of in Hr0. apply filter_In in Hr0 as [Hr0 _].
    cbn [filtered content rows with_rows] in Hr0.
    apply filter_In in Hr0 as [_ Hk]. apply keep_passes in Hk.
    unfold passes in Hk. rewrite !andb_true_iff in Hk.
    destruct Hk as [_ Hdate].
    apply le_timestamp_spec in Hdate as (ns & Hns & Hle).
    exists ns. split; [|exact Hle].
    unfold iat. rewrite <- Hvals, nth_lookup, list_lookup_fmap.
    rewrite (get_loc_Some _ _ _ Hi). exact Hns. }
  destruct (column_datetimes_all today i _ 1 Hall) as [Hseq Hle].
  split; [exact Hseq|]. intros w Hw. split; [|now apply Hle].
  unfold write_datetimes. apply in_flat_map. exists i. split; [|exact Hw].
  unfold date_cols. cbn [columns].
  now apply (date_cols_from_In selected "Leverdatum" i 0).
Qed.

End DatesWritten.

(* ================================================================== *)
(** * The further properties on the samples *)
(* ================================================================== *)

Lemma find_table_skips_rows_above_sample :
  (forall vals, In vals (firstn 1 sample_sheet) ->
     ~ HoldsAll required_columns vals)
  /\ find_table_starting_from_columns text_labels
       (firstn 1 sample_sheet ++ skipn 1 sample_sheet) required_columns
     = find_table_starting_from_columns text_labels (skipn 1 sample_sheet)
         required_columns.
Proof.
  assert (H : forall vals, In vals (firstn 1 sample_sheet) ->
                ~ HoldsAll required_columns vals).
  { intros vals [<-|[]] Hall.
    destruct (Hall "Naam" ltac:(in_list)) as [Heq|[]]. discriminate Heq. }
  split; [exact H|].
  exact (find_table_skips_rows_above text_labels (firstn 1 sample_sheet)
           (skipn 1 sample_sheet) required_columns H).
Defined.

Lemma find_table_with_rows_below_sample :
  exists table,
    find_table_starting_from_columns text_labels sample_sheet required_columns
    = Some table
    /\ find_table_starting_from_columns text_labels
         (sample_sheet ++ [[Text "Totaal"]]) required_columns
       = Some {| columns := columns table;
                 rows := range_index 0
                           (map values (rows table) ++ [[Text "Totaal"]]) |}.
Proof.
  eexists. split; [vm_compute; reflexivity|].
  apply (find_table_with_rows_below text_labels sample_sheet
           [[Text "Totaal"]] required_columns).
  vm_compute. reflexivity.
Defined.

Lemma apply_filters_outcome_sample :
  WellFormed (as_read sample_no_workplace)
  /\ snd (apply_filters timestamps_only 10 (as_read sample_no_workplace) true)
     = Raises attribute_error
  /\ match snd (apply_filters timestamps_only 10
                 (as_read sample_no_workplace) true) with
     | Returns out =>
         FilterColumns true (content (as_read sample_no_workplace))
         /\ searchable (dated timestamps_only (as_read sample_no_workplace))
              "Verantw. Werkplek"
              (rows (content (dated timestamps_only
                                (as_read sample_no_workplace)))) = true
         /\ (true = true ->
             searchable (dated timestamps_only (as_read sample_no_workplace))
               "Omschrijving middel"
               (passing 10 (content (dated timestamps_only
                                       (as_read sample_no_workplace))))
             = true)
     | Raises (key_error key) =>
         ~ In key (columns (content (as_read sample_no_workplace)))
         /\ (key = "Leverdatum"
             \/ (key = "Verantw. Werkplek"
                 /\ In "Leverdatum"
                      (columns (content (as_read sample_no_workplace))))
             \/ (In "Leverdatum"
                   (columns (content (as_read sample_no_workplace)))
                 /\ In "Verantw. Werkplek"
                      (columns (content (as_read sample_no_workplace)))
                 /\ searchable
                      (dated timestamps_only (as_read sample_no_workplace))
                      "Verantw. Werkplek"
                      (rows (content (dated timestamps_only
                                        (as_read sample_no_workplace))))
                    = true
                 /\ (key = "Status"
                     \/ (key = "Omschrijving middel" /\ true = true
                         /\ In "Status"
                              (columns (content
                                          (as_read sample_no_workplace)))))))
     | Raises attribute_error =>
         In "Leverdatum" (columns (content (as_read sample_no_workplace)))
         /\ In "Verantw. Werkplek"
              (columns (content (as_read sample_no_workplace)))
         /\ (searchable (dated timestamps_only (as_read sample_no_workplace))
               "Verantw. Werkplek"
               (rows (content (dated timestamps_only
                                 (as_read sample_no_workplace)))) = false
             \/ (true = true
                 /\ In "Status"
                      (columns (content (as_read sample_no_workplace)))
                 /\ In "Omschrijving middel"
                      (columns (content (as_read sample_no_workplace)))
                 /\ searchable
                      (dated timestamps_only (as_read sample_no_workplace))
                      "Omschrijving middel"
                      (passing 10
                         (content (dated timestamps_only
                                     (as_read sample_no_workplace))))
                    = false))
     end.
Proof.
  assert (H1 : WellFormed (as_read sample_no_workplace)) by well_formed.
  split; [exact H1|]. split; [vm_compute; reflexivity|].
  exact (apply_filters_outcome timestamps_only 10
           (as_read sample_no_workplace) true H1).
Defined.

Lemma apply_filters_flag_removes_sample :
  WellFormed (as_read sample_orders)
  /\ apply_filters timestamps_only 10 (as_read sample_orders) true
     = (orders_after, Returns orders_kept)
  /\ exists without_flag,
       apply_filters timestamps_only 10 (as_read sample_orders) false
       = (orders_after, Returns without_flag)
       /\ rows (content orders_kept)
          = List.filter (fun r => negb (matches_w (content orders_after) r))
              (rows (content without_flag))
       /\ sublist (labels (content orders_kept))
            (labels (content without_flag)).
Proof.
  assert (H1 : WellFormed (as_read sample_orders)) by well_formed.
  assert (H2 : apply_filters timestamps_only 10 (as_read sample_orders) true
               = (orders_after, Returns orders_kept))
    by (vm_compute; reflexivity).
  split; [exact H1|]. split; [exact H2|].
  exact (apply_filters_flag_removes timestamps_only 10 (as_read sample_orders)
           orders_after orders_kept H1 H2).
Defined.

Lemma apply_filters_later_keeps_more_sample :
  WellFormed (as_read sample_orders) /\ (5 <= 10)%Z
  /\ exists earlier,
       apply_filters timestamps_only 5 (as_read sample_orders) false
       = (orders_after, Returns earlier)
       /\ length (rows (content earlier)) = 1
       /\ fst (apply_filters timestamps_only 10 (as_read sample_orders) false)
          = orders_after
       /\ match snd (apply_filters timestamps_only 10
                       (as_read sample_orders) false) with
          | Returns later =>
              sublist (rows (content earlier)) (rows (content later))
          | Raises e => e = attribute_error /\ false = true
          end.
Proof.
  assert (H1 : WellFormed (as_read sample_orders)) by well_formed.
  assert (Hle : (5 <= 10)%Z) by lia.
  split; [exact H1|]. split; [exact Hle|].
  eexists. split; [vm_compute; reflexivity|]. split; [reflexivity|].
  apply (apply_filters_later_keeps_more timestamps_only 5 10
           (as_read sample_orders) false orders_after _ H1 Hle).
  vm_compute. reflexivity.
Defined.

Lemma apply_filters_in_two_steps_sample :
  ToDatetime timestamps_only /\ WellFormed (as_read sample_orders)
  /\ (10 <= 20)%Z
  /\ apply_filters timestamps_only 10 (as_read sample_orders) false
     = (orders_after, Returns orders_passing)
  /\ apply_filters timestamps_only 20 orders_passing true
     = (orders_passing,
        snd (apply_filters timestamps_only 10 (as_read sample_orders) true)).
Proof.
  assert (H1 : WellFormed (as_read sample_orders)) by well_formed.
  assert (Hle : (10 <= 20)%Z) by lia.
  assert (H2 : apply_filters timestamps_only 10 (as_read sample_orders) false
               = (orders_after, Returns orders_passing))
    by (vm_compute; reflexivity).
  split; [exact timestamps_only_ok|]. split; [exact H1|].
  split; [exact Hle|]. split; [exact H2|].
  exact (apply_filters_in_two_steps timestamps_only timestamps_only_ok 10 20
           (as_read sample_orders) orders_after orders_passing H1 Hle H2).
Defined.

Ltac selection_in_sample :=
  let c := fresh "c" in
  let H := fresh "H" in
  intros c H; simpl in H;
  repeat (destruct H as [<-|H]; [in_list|]); destruct H.

Lemma process_filtered_data_missing_column_sample :
  In "Leverancier" ["Naam"; "Leverancier"]
  /\ ~ In "Leverancier" (columns sample_names)
  /\ exists key,
       process_filtered_data sample_names ["Naam"; "Leverancier"] true
       = KeyError key
       /\ In key ["Naam"; "Leverancier"]
       /\ ~ In key (columns sample_names).
Proof.
  assert (H : In "Leverancier" ["Naam"; "Leverancier"]) by in_list.
  assert (Hc : ~ In "Leverancier" (columns sample_names)) by decide_closed.
  split; [exact H|]. split; [exact Hc|].
  exact (process_filtered_data_missing_column sample_names
           ["Naam"; "Leverancier"] true "Leverancier" H Hc).
Defined.

Lemma process_filtered_data_groups_sample :
  List.NoDup (columns sample_names) /\ List.NoDup ["OH-order"; "Naam"]
  /\ (forall c, In c ["OH-order"; "Naam"] -> In c (columns sample_names))
  /\ In "Naam" ["OH-order"; "Naam"]
  /\ exists combined groups,
       process_filtered_data sample_names ["OH-order"; "Naam"] true
       = Ok (combined, Some groups)
       /\ List.NoDup (map fst groups)
       /\ Sorted cell_le (map fst groups)
       /\ (forall k, In k (map fst groups) <->
             k <> NaN /\ In k (names_of sample_names))
       /\ forall k g, In (k, g) groups ->
            rows g = map (project_row sample_names ["OH-order"; "Naam"])
                         (rows_of sample_names k)
            /\ rows g <> [].
Proof.
  assert (N1 : List.NoDup (columns sample_names))
    by (apply NoDup_ListNoDup; decide_closed).
  assert (N2 : List.NoDup ["OH-order"; "Naam"])
    by (apply NoDup_ListNoDup; decide_closed).
  assert (H : forall c, In c ["OH-order"; "Naam"] ->
                In c (columns sample_names)) by selection_in_sample.
  assert (HN : In "Naam" ["OH-order"; "Naam"]) by in_list.
  split; [exact N1|]. split; [exact N2|].
  split; [exact H|]. split; [exact HN|].
  exact (process_filtered_data_groups sample_names ["OH-order"; "Naam"]
           N1 N2 H HN).
Defined.

Lemma process_filtered_data_combined_sample :
  List.NoDup (columns sample_names) /\ List.NoDup ["OH-order"; "Naam"]
  /\ (forall c, In c ["OH-order"; "Naam"] -> In c (columns sample_names))
  /\ In "Naam" ["OH-order"; "Naam"]
  /\ exists combined groups,
       process_filtered_data sample_names ["OH-order"; "Naam"] true
       = Ok (combined, Some groups)
       /\ map values (rows combined) = group_values groups
       /\ labels combined = seq 0 (length (rows combined))
       /\ Permutation (map values (rows combined))
            (map (fun r => map (cell_of sample_names r) ["OH-order"; "Naam"])
                 (List.filter
                    (fun r => negb (isna (cell_of sample_names r "Naam")))
                    (rows sample_names))).
Proof.
  assert (N1 : List.NoDup (columns sample_names))
    by (apply NoDup_ListNoDup; decide_closed).
  assert (N2 : List.NoDup ["OH-order"; "Naam"])
    by (apply NoDup_ListNoDup; decide_closed).
  assert (H : forall c, In c ["OH-order"; "Naam"] ->
                In c (columns sample_names)) by selection_in_sample.
  assert (HN : In "Naam" ["OH-order"; "Naam"]) by in_list.
  split; [exact N1|]. split; [exact N2|].
  split; [exact H|]. split; [exact HN|].
  exact (process_filtered_data_combined sample_names ["OH-order"; "Naam"]
           N1 N2 H HN).
Defined.

Lemma aggregated_counts_match_groups_sample :
  List.NoDup (columns sample_names) /\ List.NoDup ["OH-order"; "Naam"]
  /\ (forall c, In c ["OH-order"; "Naam"] -> In c (columns sample_names))
  /\ In "Naam" ["OH-order"; "Naam"]
  /\ exists combined groups aggregated,
       process_filtered_data sample_names ["OH-order"; "Naam"] true
       = Ok (combined, Some groups)
       /\ create_aggregated_data sample_names = Ok aggregated
       /\ map values (rows aggregated)
          = map (fun g => [fst g; Num (Z.of_nat (length (rows (snd g))))])
                groups.
Proof.
  assert (N1 : List.NoDup (columns sample_names))
    by (apply NoDup_ListNoDup; decide_closed).
  assert (N2 : List.NoDup ["OH-order"; "Naam"])
    by (apply NoDup_ListNoDup; decide_closed).
  assert (H : forall c, In c ["OH-order"; "Naam"] ->
                In c (columns sample_names)) by selection_in_sample.
  assert (HN : In "Naam" ["OH-order"; "Naam"]) by in_list.
  split; [exact N1|]. split; [exact N2|].
  split; [exact H|]. split; [exact HN|].
  exact (aggregated_counts_match_groups sample_names ["OH-order"; "Naam"]
           N1 N2 H HN).
Defined.

Lemma create_aggregated_data_positive_sample :
  In "Naam" (columns sample_names) /\
  exists aggregated,
    create_aggregated_data sample_names = Ok aggregated
    /\ forall row, In row (rows aggregated) ->
         exists k n, values row = [k; Num (Z.of_nat n)]
                     /\ 1 <= n <= length (rows sample_names).
Proof.
  assert (H : In "Naam" (columns sample_names)) by in_list.
  split; [exact H | exact (create_aggregated_data_positive sample_names H)].
Defined.

Lemma compare_counts_add_up_sample :
  compare_tasks_grouped_by_name sample_timestamp_str sample_set_iter
    exact_rnd week_now week_before = Ok two_weeks_rows
  /\ forall row, In row two_weeks_rows ->
       old_tasks row + edited_tasks row = previous_total row.
Proof.
  assert (H : compare_tasks_grouped_by_name sample_timestamp_str
                sample_set_iter exact_rnd week_now week_before
              = Ok two_weeks_rows) by (vm_compute; reflexivity).
  split; [exact H|].
  exact (compare_counts_add_up sample_timestamp_str sample_set_iter
           exact_rnd week_now week_before two_weeks_rows H).
Defined.

Lemma compare_row_order_sample :
  compare_tasks_grouped_by_name sample_timestamp_str sample_set_iter
    exact_rnd week_now week_before = Ok two_weeks_rows
  /\ map Naam two_weeks_rows
     = (unique (names_of week_now)
        ++ List.filter (fun n => negb (among n (names_of week_now)))
             (unique (names_of week_before)))%list.
Proof.
  assert (H : compare_tasks_grouped_by_name sample_timestamp_str
                sample_set_iter exact_rnd week_now week_before
              = Ok two_weeks_rows) by (vm_compute; reflexivity).
  split; [exact H|].
  exact (compare_row_order sample_timestamp_str sample_set_iter
           exact_rnd week_now week_before two_weeks_rows H).
Defined.

Lemma compare_all_edited_sample :
  (forall x y, (x <= y)%Q -> (exact_rnd x <= exact_rnd y)%Q)
  /\ (forall z, (0 <= z <= 100)%Z ->
        (exact_rnd (inject_Z z) == inject_Z z)%Q)
  /\ compare_tasks_grouped_by_name sample_timestamp_str sample_set_iter
       exact_rnd nothing_before week_before = Ok all_gone_rows
  /\ exists row,
       In row all_gone_rows /\ 0 < previous_total row /\ old_tasks row = 0
       /\ (percentage row == 100)%Q.
Proof.
  assert (H0 : forall x y, (x <= y)%Q -> (exact_rnd x <= exact_rnd y)%Q)
    by (intros x y H; exact H).
  assert (H1 : forall z, (0 <= z <= 100)%Z ->
                 (exact_rnd (inject_Z z) == inject_Z z)%Q)
    by (intros z _; reflexivity).
  assert (H2 : compare_tasks_grouped_by_name sample_timestamp_str
                 sample_set_iter exact_rnd nothing_before week_before
               = Ok all_gone_rows) by (vm_compute; reflexivity).
  repeat (split; [assumption|]).
  destruct all_gone_rows as [|row rest] eqn:E; [discriminate E|].
  exists row.
  assert (Hin : In row (row :: rest)) by now left.
  assert (Hprev : 0 < previous_total row)
    by (injection E as <- _; vm_compute; lia).
  assert (Hold : old_tasks row = 0) by (injection E as <- _; reflexivity).
  split; [exact Hin|]. split; [exact Hprev|]. split; [exact Hold|].
  exact (compare_all_edited sample_timestamp_str sample_set_iter exact_rnd
           nothing_before week_before (row :: rest) H0 H1 H2 row Hin Hprev
           Hold).
Defined.

(** All of last week's tasks gone: the percentage is 100. *)
Example compare_all_gone :
  exists row,
    compare_tasks_grouped_by_name sample_timestamp_str sample_set_iter
      exact_rnd nothing_before week_before = Ok [row]
    /\ previous_total row = 2 /\ edited_tasks row = 2
    /\ (percentage row == 100)%Q.
Proof.
  eexists. split; [vm_compute; reflexivity|]. repeat split.
Qed.

Lemma compare_with_itself_sample :
  (forall x y, (x <= y)%Q -> (exact_rnd x <= exact_rnd y)%Q)
  /\ (forall z, (0 <= z <= 100)%Z ->
        (exact_rnd (inject_Z z) == inject_Z z)%Q)
  /\ In "Naam" (columns week_before)
  /\ In (pick_ob_col (columns week_before)) (columns week_before)
  /\ exists out,
       compare_tasks_grouped_by_name sample_timestamp_str sample_set_iter
         exact_rnd week_before week_before = Ok out
       /\ forall row, In row out ->
            new_tasks row = 0 /\ edited_tasks row = 0
            /\ old_tasks row = previous_total row
            /\ (percentage row == 0)%Q.
Proof.
  assert (H0 : forall x y, (x <= y)%Q -> (exact_rnd x <= exact_rnd y)%Q)
    by (intros x y H; exact H).
  assert (H1 : forall z, (0 <= z <= 100)%Z ->
                 (exact_rnd (inject_Z z) == inject_Z z)%Q)
    by (intros z _; reflexivity).
  assert (H2 : In "Naam" (columns week_before)) by in_list.
  assert (H3 : In (pick_ob_col (columns week_before)) (columns week_before))
    by in_list.
  repeat (split; [assumption|]).
  exact (compare_with_itself sample_timestamp_str sample_set_iter exact_rnd
           week_before H0 H1 H2 H3).
Defined.

Lemma compare_swapped_sample :
  In "Naam" (columns week_now) /\ In "Naam" (columns week_before)
  /\ pick_ob_col (columns week_before) = pick_ob_col (columns week_now)
  /\ In (pick_ob_col (columns week_now)) (columns week_now)
  /\ In (pick_ob_col (columns week_now)) (columns week_before)
  /\ exists out swapped,
       compare_tasks_grouped_by_name sample_timestamp_str sample_set_iter
         exact_rnd week_now week_before = Ok out
       /\ compare_tasks_grouped_by_name sample_timestamp_str sample_set_iter
            exact_rnd week_before week_now = Ok swapped
       /\ forall row, In row out ->
            exists row', In row' swapped
              /\ Naam row' = Naam row
              /\ new_tasks row' = edited_tasks row
              /\ edited_tasks row' = new_tasks row
              /\ old_tasks row' = old_tasks row
              /\ previous_total row' = new_tasks row + old_tasks row.
Proof.
  assert (H1 : In "Naam" (columns week_now)) by in_list.
  assert (H2 : In "Naam" (columns week_before)) by in_list.
  assert (H3 : pick_ob_col (columns week_before)
               = pick_ob_col (columns week_now)) by reflexivity.
  assert (H4 : In (pick_ob_col (columns week_now)) (columns week_now))
    by in_list.
  assert (H5 : In (pick_ob_col (columns week_now)) (columns week_before))
    by in_list.
  repeat (split; [assumption|]).
  exact (compare_swapped sample_timestamp_str sample_set_iter exact_rnd
           week_now week_before H1 H2 H3 H4 H5).
Defined.

Lemma selection_groups_iff_naam_sample :
  List.NoDup (columns sample_names) /\ In "Naam" (columns sample_names)
  /\ match process_filtered_data sample_names
             (select_columns untouched sample_names) true with
     | Ok _ => untouched "Naam" true = true
     | KeyError key => key = "Naam" /\ untouched "Naam" true = false
     end.
Proof.
  assert (N : List.NoDup (columns sample_names))
    by (apply NoDup_ListNoDup; decide_closed).
  assert (H : In "Naam" (columns sample_names)) by in_list.
  split; [exact N|]. split; [exact H|].
  exact (selection_groups_iff_naam untouched sample_names N H).
Defined.

Lemma workbook_sheet_names_fit_sample :
  exists sheets,
    create_combined_excel_file (Some sample_names)
      (Some [(Text "Een assignee met een naam van meer dan 31 tekens",
              sample_names)])
      None None true true false false = Some sheets
    /\ forall name data, In (name, data) sheets -> String.length name <= 31.
Proof.
  eexists. split; [vm_compute; reflexivity|].
  apply (workbook_sheet_names_fit (Some sample_names)
           (Some [(Text "Een assignee met een naam van meer dan 31 tekens",
                   sample_names)])
           None None true true false false).
  vm_compute. reflexivity.
Defined.

Lemma combined_dates_written_sample :
  WellFormed (as_read sample_orders)
  /\ List.NoDup ["Naam"; "Leverdatum"]
  /\ (forall c, In c ["Naam"; "Leverdatum"] ->
        In c (columns (content (as_read sample_orders))))
  /\ In "Naam" ["Naam"; "Leverdatum"]
  /\ In "Leverdatum" ["Naam"; "Leverdatum"]
  /\ apply_filters timestamps_only 10 (as_read sample_orders) true
     = (orders_after, Returns orders_kept)
  /\ exists combined_df groups col_idx,
       process_filtered_data (content orders_kept) ["Naam"; "Leverdatum"] true
       = Ok (combined_df, Some groups)
       /\ get_loc (columns combined_df) "Leverdatum" = Some col_idx
       /\ map (fun w => fst (fst w))
              (column_datetimes 1 col_idx (rows combined_df))
          = seq 1 (length (rows combined_df))
       /\ forall w, In w (column_datetimes 1 col_idx (rows combined_df)) ->
            In w (write_datetimes combined_df) /\ (snd w <= 10)%Z.
Proof.
  assert (H1 : WellFormed (as_read sample_orders)) by well_formed.
  assert (N : List.NoDup ["Naam"; "Leverdatum"])
    by (apply NoDup_ListNoDup; decide_closed).
  assert (H2 : forall c, In c ["Naam"; "Leverdatum"] ->
                 In c (columns (content (as_read sample_orders))))
    by selection_in_sample.
  assert (H3 : In "Naam" ["Naam"; "Leverdatum"]) by in_list.
  assert (H4 : In "Leverdatum" ["Naam"; "Leverdatum"]) by in_list.
  assert (H5 : apply_filters timestamps_only 10 (as_read sample_orders) true
               = (orders_after, Returns orders_kept))
    by (vm_compute; reflexivity).
  repeat (split; [assumption|]).
  exact (combined_dates_written timestamps_only 10 (as_read sample_orders)
           true ["Naam"; "Leverdatum"] orders_after orders_kept
           H1 N H2 H3 H4 H5).
Defined.

Lemma compare_sets_of_texts_sample :
  (forall X, Permutation (sample_set_iter X) (elements X))
  /\ List.NoDup (columns week_now) /\ List.NoDup (columns last_week)
  /\ In "Naam" (columns week_now) /\ In "Naam" (columns last_week)
  /\ In (pick_ob_col (columns week_now)) (columns week_now)
  /\ In (pick_ob_col (columns week_now)) (columns last_week)
  /\ TextColumn week_now (pick_ob_col (columns week_now))
  /\ TextColumn last_week (pick_ob_col (columns week_now))
  /\ IdentifierColumn (columns week_now) (pick_ob_col (columns week_now))
  /\ exists out,
       compare_tasks_grouped_by_name sample_timestamp_str sample_set_iter
         exact_rnd week_now last_week = Ok out
       /\ forall row, In row out -> Naam row <> NaN ->
            let C := texts_of week_now
                       (pick_ob_col (columns week_now)) (Naam row) in
            let P := texts_of last_week
                       (pick_ob_col (columns week_now)) (Naam row) in
            new_tasks row = size (C ∖ P)
            /\ old_tasks row = size (C ∩ P)
            /\ previous_total row = size P
            /\ edited_tasks row = size (P ∖ C)
            /\ exists common,
                 Permutation common (elements (C ∩ P))
                 /\ oude_taken row = Str.join ", " common.
Proof.
  assert (H0 : forall X, Permutation (sample_set_iter X) (elements X))
    by (intros X; reflexivity).
  assert (N1 : List.NoDup (columns week_now))
    by (apply NoDup_ListNoDup; decide_closed).
  assert (N2 : List.NoDup (columns last_week))
    by (apply NoDup_ListNoDup; decide_closed).
  assert (H1 : In "Naam" (columns week_now)) by in_list.
  assert (H2 : In "Naam" (columns last_week)) by in_list.
  assert (H3 : In (pick_ob_col (columns week_now)) (columns week_now))
    by in_list.
  assert (H4 : In (pick_ob_col (columns week_now)) (columns last_week))
    by in_list.
  assert (H5 : TextColumn week_now (pick_ob_col (columns week_now))).
  { intros r Hr. simpl in Hr.
    repeat (destruct Hr as [<-|Hr]; [right; eexists; reflexivity|]).
    destruct Hr. }
  assert (H6 : TextColumn last_week (pick_ob_col (columns week_now))).
  { intros r Hr. simpl in Hr.
    repeat (destruct Hr as [<-|Hr]; [right; eexists; reflexivity|]).
    destruct Hr. }
  repeat (split; [assumption|]).
  exact (compare_sets_of_texts sample_timestamp_str sample_set_iter
           exact_rnd week_now last_week H0 N1 N2 H1 H2 H3 H4 H5 H6).
Defined.
